(** * simplemind provider adapters: Gemini, Groq and Ollama

    A shallow embedding of [simplemind/providers/gemini.py],
    [simplemind/providers/groq.py] and [simplemind/providers/ollama.py].

    The adapters are thin, effectful wrappers around vendor SDKs.  The
    embedding keeps everything the Python code does itself (attribute
    caching, argument resolution, slicing, [try]/[except], response
    normalisation) and treats the SDKs as an oracle: every SDK call is
    appended to a trace and answered by a function of the trace so far,
    which either returns a response or raises. *)

From stdpp Require Import base option list strings gmap fin_maps.

#[local] Set Warnings "-register-all".
#[local] Open Scope string_scope.
#[local] Open Scope list_scope.

(** ** Python values *)

(** The dynamically typed values that flow through keyword arguments and
    through the dictionaries returned by the Ollama client. *)
Inductive pyval :=
| PNone
| PBool (b : bool)
| PInt (z : Z)
| PStr (s : string)
| PList (l : list pyval)
| PDict (d : gmap string pyval).

(** A raised exception: its class name, the text [str(e)] renders, and the
    [__cause__] set by [raise ... from e].  Only subclasses of [Exception]
    are modelled, which is what [except Exception] catches. *)
Inductive exn :=
| Exn (cls msg : string) (cause : option exn).

Definition exn_class (e : exn) : string := let 'Exn c _ _ := e in c.
Definition exn_str (e : exn) : string := let 'Exn _ m _ := e in m.
Definition exn_cause (e : exn) : option exn := let 'Exn _ _ c := e in c.

Definition ValueError (msg : string) : exn := Exn "ValueError" msg None.
Definition TypeError (msg : string) : exn := Exn "TypeError" msg None.
Definition KeyError (key : string) : exn := Exn "KeyError" key None.
Definition IndexError (msg : string) : exn := Exn "IndexError" msg None.
Definition AttributeError (msg : string) : exn := Exn "AttributeError" msg None.
(** [raise RuntimeError(msg) from e] *)
Definition RuntimeError_from (msg : string) (e : exn) : exn :=
  Exn "RuntimeError" msg (Some e).
(** [raise ImportError(msg) from exc] *)
Definition ImportError_from (msg : string) (e : exn) : exn :=
  Exn "ImportError" msg (Some e).

Inductive result (A : Type) :=
| Ok (a : A)
| Raise (e : exn).
Arguments Ok {A} a.
Arguments Raise {A} e.

(** Truthiness of a [str | None] value: [None] and [""] are falsy. *)
Definition truthy (v : option string) : bool :=
  match v with
  | Some s => negb (String.eqb s "")
  | None => false
  end.

(** [a or b] where both sides are [str | None]. *)
Definition py_or (a b : option string) : option string :=
  if truthy a then a else b.

(** [a or d] where the right-hand side is a string constant. *)
Definition or_default (a : option string) (d : string) : string :=
  match a with
  | Some s => if String.eqb s "" then d else s
  | None => d
  end.

(** [str(v)] for a [str | None] value, as an f-string renders it. *)
Definition py_str (v : option string) : string :=
  match v with
  | Some s => s
  | None => "None"
  end.

(** ** Clients, requests and responses *)

(** Objects built by the SDK constructors the adapters call.  [id] is the
    identity of the object: the number of handles built before it. *)
Inductive handle :=
| GenerativeModel (id : nat) (model_name : string)
| GroqClient (id : nat) (api_key : option string)
| OllamaClient (id : nat) (timeout : Z) (host : option string)
| OpenAI (id : nat) (base_url api_key : string)
| Instructor (id : nat) (inner : handle) (mode : option string).

Definition handle_id (h : handle) : nat :=
  match h with
  | GenerativeModel i _ | GroqClient i _ | OllamaClient i _ _
  | OpenAI i _ _ | Instructor i _ _ => i
  end.

(** The dictionary [{"role": ..., "content": ...}] sent to chat APIs. *)
Record chat_message := ChatMessage { cm_role : string; cm_content : pyval }.

(** What the SDKs return. *)
Inductive response :=
| GenerateContentResponse (text : result string)
    (* google.generativeai; [.text] is a property and may raise *)
| ChatCompletion (choices : list (option string))
    (* [choices[i].message.content], a [str | None] *)
| Mapping (d : gmap string pyval)
    (* the dict-like answer of [ollama.Client.chat] *)
| ModelInstance (schema : string) (fields : gmap string pyval)
    (* a validated instance of a response model *)
| ChunkIterator (chunks : list pyval) (failure : option exn).
    (* what [chat(stream=True)] returns: chunks, then the end of the
       stream or an exception *)

(** A call that crosses into an SDK.  [model] and [stream] are the
    arguments the adapter passes by name; whatever else the caller
    supplied travels in [kwargs]. *)
Inductive call :=
| StartChat (client : handle)
| SendMessage (client : handle) (content : pyval)
| GenerateContent (client : handle) (contents : pyval)
    (kwargs : gmap string pyval)
| CompletionsCreate (client : handle) (model : option (option string))
    (messages : list chat_message) (response_model : option string)
    (kwargs : gmap string pyval)
| Chat (client : handle) (model : string) (messages : list chat_message)
    (stream : bool) (kwargs : gmap string pyval)
| StreamNext (client : handle).

(** A response model class: its name and its [model_validate]. *)
Record schema := Schema {
  schema_name : string;
  model_validate : response → result response
}.

(** Everything outside the adapters. *)
Record Env := {
  (** the SDKs: the calls made so far and the call being made *)
  transport : list call → call → result response;
  (** [settings.get_api_key(name)] *)
  get_api_key : string → option string;
  (** [settings.OLLAMA_HOST_URL] *)
  OLLAMA_HOST_URL : option string;
  (** [import ollama] succeeds, or raises this [ImportError] *)
  import_ollama : result unit
}.

(** The observable effects: SDK calls in the order they were made and
    client objects in the order they were built. *)
Record world := World { calls : list call; built : list handle }.

Definition init_world : world := World [] [].

(** ** Canonical data model *)

(** Modelled from the spec: [simplemind.models.Message] and
    [simplemind.models.Conversation] are imported by the adapters but their
    module is not part of the sources; the records carry the fields the
    spec's data model lists and the adapters read and write, and building a
    [Message] does not fail. *)
Record Message := {
  role : string;
  text : pyval;
  raw : option response;
  llm_model : option string;
  llm_provider : option string
}.

Record Conversation := {
  messages : list Message;
  conversation_llm_model : option string
}.

(** ** The effect monad *)

(** A computation on state [S] that returns or raises.  The state
    survives a raise, as mutations made before a Python exception do. *)
Definition M (S A : Type) : Type := S → result A * S.

Definition ret {S A} (a : A) : M S A := λ s, (Ok a, s).
Definition raise {S A} (e : exn) : M S A := λ s, (Raise e, s).
Definition bind {S A B} (m : M S A) (k : A → M S B) : M S B :=
  λ s, match m s with
       | (Ok a, s') => k a s'
       | (Raise e, s') => (Raise e, s')
       end.

(** [try: m except Exception as e: h e] *)
Definition try_except {S A} (m : M S A) (h : exn → M S A) : M S A :=
  λ s, match m s with
       | (Ok a, s') => (Ok a, s')
       | (Raise e, s') => h e s'
       end.

Declare Scope py_scope.
Delimit Scope py_scope with py.
Notation "'let*' x ':=' m 'in' k" := (bind m (λ x, k))
  (at level 10, x name, m at level 100, k at level 200) : py_scope.
Notation "m ';;' k" := (bind m (λ _, k))
  (at level 100, k at level 200, right associativity) : py_scope.
#[local] Open Scope py_scope.

Definition lift_result {S A} (r : result A) : M S A := λ s, (r, s).

Section Object.
(** [O] is the type of [self]. *)
Context {O : Type}.

Definition get_self : M (O * world) O := λ s, (Ok s.1, s).
Definition set_self (o : O) : M (O * world) unit := λ s, (Ok (), (o, s.2)).

(** Build a client object: it gets a fresh identity and is logged.  The
    constructors of the SDKs only record their arguments; they are taken
    not to fail. *)
Definition construct (mk : nat → handle) : M (O * world) handle :=
  λ s, let h := mk (length (built s.2)) in
       (Ok h, (s.1, World (calls s.2) (built s.2 ++ [h]))).

(** Call into an SDK: the call is logged, then answered. *)
Definition request (env : Env) (c : call) : M (O * world) response :=
  λ s, (transport env (calls s.2) c,
        (s.1, World (calls s.2 ++ [c]) (built s.2))).

(** Record a call whose answer is already at hand. *)
Definition log_call (c : call) : M (O * world) unit :=
  λ s, (Ok (), (s.1, World (calls s.2 ++ [c]) (built s.2))).

(** [functools.cached_property]: the value is computed by [body] on the
    first access and stored on the instance; later accesses read it
    back.  Nothing is stored when [body] raises. *)
Definition cached_property (get : O → option handle)
    (set : handle → O → O) (body : M (O * world) handle)
  : M (O * world) handle :=
  λ s, match get s.1 with
       | Some h => (Ok h, s)
       | None =>
           match body s with
           | (Ok h, s') => (Ok h, (set h s'.1, s'.2))
           | (Raise e, s') => (Raise e, s')
           end
       end.

(** [for x in xs: body x] *)
Fixpoint for_each {A} (xs : list A) (body : A → M (O * world) unit)
  : M (O * world) unit :=
  match xs with
  | [] => ret ()
  | x :: xs' => body x ;; for_each xs' body
  end.
End Object.

(** Passing [f(a=..., **kwargs)] when [kwargs] repeats an explicit keyword
    raises [TypeError] before the callee runs. *)
Definition check_kwargs {S} (explicit : list string)
    (kwargs : gmap string pyval) : M S unit :=
  match filter (λ k, is_Some (kwargs !! k)) explicit with
  | [] => ret ()
  | k :: _ =>
      raise (TypeError ("got multiple values for keyword argument '" +:+ k +:+ "'"))
  end.

(** [[{"role": msg.role, "content": msg.text} for msg in messages]] *)
Definition to_chat_messages (msgs : list Message) : list chat_message :=
  map (λ msg, ChatMessage (role msg) (text msg)) msgs.

(** [[{"role": "user", "content": prompt}]] *)
Definition user_prompt (prompt : pyval) : list chat_message :=
  [ChatMessage "user" prompt].

(** Modelled from the spec: the [logger] decorator of [simplemind.logging]
    is not part of the sources; the spec treats logging as an external
    wrapper around the call, so a decorated method is its body. *)
Definition logger {A : Type} (method : A) : A := method.

(** ** gemini.py *)

Module Gemini.

Definition PROVIDER_NAME : string := "gemini".
Definition DEFAULT_MODEL : string := "models/gemini-1.5-flash-latest".
Definition NAME : string := PROVIDER_NAME.

(** The instance attributes; the two caches are the entries
    [cached_property] writes into the instance dictionary. *)
Record t := {
  api_key : option string;
  model_name : string;
  client_cache : option handle;
  structured_client_cache : option handle
}.

Definition set_model_name (m : string) (o : t) : t :=
  {| api_key := api_key o; model_name := m;
     client_cache := client_cache o;
     structured_client_cache := structured_client_cache o |}.

Definition set_client_cache (h : handle) (o : t) : t :=
  {| api_key := api_key o; model_name := model_name o;
     client_cache := Some h;
     structured_client_cache := structured_client_cache o |}.

Definition set_structured_client_cache (h : handle) (o : t) : t :=
  {| api_key := api_key o; model_name := model_name o;
     client_cache := client_cache o;
     structured_client_cache := Some h |}.

Section WithEnv.
Context (env : Env).

(** [Gemini(api_key)] *)
Definition __init__ (api_key : option string) : t :=
  {| api_key := py_or api_key (get_api_key env PROVIDER_NAME);
     model_name := DEFAULT_MODEL;
     client_cache := None;
     structured_client_cache := None |}.

(** [self.client].  A cached property is called with the instance only,
    so the parameter [model_name] always takes its default. *)
Definition client : M (t * world) handle :=
  cached_property client_cache set_client_cache
    (let model_name_arg := DEFAULT_MODEL in
     let* self := get_self in
     if negb (truthy (api_key self)) then
       raise (ValueError "Gemini API key is required")
     else
       set_self (set_model_name model_name_arg self) ;;
       let* self := get_self in
       construct (λ id, GenerativeModel id (model_name self))).

(** [self.structured_client] *)
Definition structured_client : M (t * world) handle :=
  cached_property structured_client_cache set_structured_client_cache
    (let* c := client in
     construct (λ id, Instructor id c None)).

(** [response.text] *)
Definition response_text {S} (r : response) : M S string :=
  match r with
  | GenerateContentResponse t => lift_result t
  | _ => raise (AttributeError "text")
  end.

(** [conversation.messages[-1]] *)
Definition last_message {S} (msgs : list Message) : M S Message :=
  match last msgs with
  | Some m => ret m
  | None => raise (IndexError "list index out of range")
  end.

Definition send_conversation (conversation : Conversation)
  : M (t * world) Message :=
  logger (
    let* c := client in
    let* _ := request env (StartChat c) in
    for_each (removelast (messages conversation))
      (λ msg, let* _ := request env (SendMessage c (text msg)) in ret ()) ;;
    let* response :=
      try_except
        (let* m := last_message (messages conversation) in
         request env (SendMessage c (text m)))
        (λ e, raise (RuntimeError_from
                       ("Failed to send conversation to Gemini API: " +:+ exn_str e) e)) in
    let* t := response_text response in
    let* self := get_self in
    ret {| role := "assistant";
           text := PStr t;
           raw := Some response;
           llm_model := Some (model_name self);
           llm_provider := Some PROVIDER_NAME |}).

(** [kwargs.pop("llm_model", self.model_name)]: the value popped and the
    dictionary that is left. *)
Definition pop_llm_model (kwargs : gmap string pyval) (dflt : string)
  : pyval * gmap string pyval :=
  (default (PStr dflt) (kwargs !! "llm_model"), delete "llm_model" kwargs).

Definition structured_response (prompt : pyval) (response_model : schema)
    (kwargs : gmap string pyval) : M (t * world) response :=
  logger (
    let* self := get_self in
    let '(llm_model, kwargs) := pop_llm_model kwargs (model_name self) in
    try_except
      (let* sc := structured_client in
       check_kwargs ["messages"; "response_model"] kwargs ;;
       request env (CompletionsCreate sc None (user_prompt prompt)
                      (Some (schema_name response_model)) kwargs))
      (λ e, raise (RuntimeError_from
                     ("Failed to send structured response to Gemini API: " +:+ exn_str e) e))).

Definition generate_text (prompt : pyval) (kwargs : gmap string pyval)
  : M (t * world) string :=
  logger (
    let* self := get_self in
    let '(llm_model, kwargs) := pop_llm_model kwargs (model_name self) in
    let* response :=
      try_except
        (let* c := client in
         request env (GenerateContent c prompt kwargs))
        (λ e, raise (RuntimeError_from
                       ("Failed to generate text with Gemini API: " +:+ exn_str e) e)) in
    response_text response).

End WithEnv.
End Gemini.

(** ** groq.py *)

Module Groq.

Definition PROVIDER_NAME : string := "groq".
Definition DEFAULT_MODEL : string := "llama3-8b-8192".
Definition __name__ : string := PROVIDER_NAME.

Record t := { api_key : option string }.

Section WithEnv.
Context (env : Env).

(** [Groq(api_key)] *)
Definition __init__ (api_key : option string) : t :=
  {| api_key := py_or api_key (get_api_key env PROVIDER_NAME) |}.

(** [self.client], a plain [property]: the body runs on every access. *)
Definition client : M (t * world) handle :=
  let* self := get_self in
  if negb (truthy (api_key self)) then
    raise (ValueError "Groq API key is required")
  else
    construct (λ id, GroqClient id (api_key self)).

(** [self.structured_client], a plain [property] as well. *)
Definition structured_client : M (t * world) handle :=
  let* c := client in
  construct (λ id, Instructor id c None).

(** [response.choices[0].message.content] *)
Definition first_choice_content {S} (r : response) : M S (option string) :=
  match r with
  | ChatCompletion (content :: _) => ret content
  | ChatCompletion [] => raise (IndexError "list index out of range")
  | _ => raise (AttributeError "choices")
  end.

Definition send_conversation (conversation : Conversation)
  : M (t * world) Message :=
  let msgs := to_chat_messages (messages conversation) in
  let* c := client in
  let* response :=
    request env
      (CompletionsCreate c
         (Some (Some (or_default (conversation_llm_model conversation) DEFAULT_MODEL)))
         msgs None ∅) in
  let* content := first_choice_content response in
  ret {| role := "assistant";
         text := PStr (or_default content "");
         raw := Some response;
         llm_model :=
           Some (or_default (conversation_llm_model conversation) DEFAULT_MODEL);
         llm_provider := Some PROVIDER_NAME |}.

Definition structured_response (prompt : pyval) (response_model : schema)
  : M (t * world) response :=
  let msgs := user_prompt prompt in
  let* sc := structured_client in
  request env
    (CompletionsCreate sc None msgs (Some (schema_name response_model)) ∅).

(** [llm_model] is keyword-only and has no default: [None] here is a call
    that does not pass it, [Some v] a call that passes the value [v]. *)
Definition generate_text (prompt : pyval) (llm_model : option (option string))
  : M (t * world) (option string) :=
  match llm_model with
  | None =>
      raise (TypeError "generate_text() missing 1 required keyword-only argument: 'llm_model'")
  | Some llm_model =>
      let msgs := user_prompt prompt in
      let* sc := structured_client in
      let* response :=
        request env (CompletionsCreate sc (Some llm_model) msgs None ∅) in
      first_choice_content response
  end.

End WithEnv.
End Groq.

(** ** ollama.py *)

Module Ollama.

Definition PROVIDER_NAME : string := "ollama".
Definition DEFAULT_MODEL : string := "llama3.2".
Definition NAME : string := PROVIDER_NAME.
Definition DEFAULT_TIMEOUT : Z := 60.
Definition DEFAULT_KWARGS : gmap string pyval := ∅.
Definition TIMEOUT : Z := DEFAULT_TIMEOUT.
Definition supports_streaming : bool := true.

Record t := {
  host_url : option string;
  client_cache : option handle;
  structured_client_cache : option handle
}.

Definition set_client_cache (h : handle) (o : t) : t :=
  {| host_url := host_url o; client_cache := Some h;
     structured_client_cache := structured_client_cache o |}.

Definition set_structured_client_cache (h : handle) (o : t) : t :=
  {| host_url := host_url o; client_cache := client_cache o;
     structured_client_cache := Some h |}.

(** [{**self.DEFAULT_KWARGS, **kwargs}]: the caller's entries win. *)
Definition merge_kwargs (kwargs : gmap string pyval) : gmap string pyval :=
  kwargs ∪ DEFAULT_KWARGS.

(** [isinstance(e, ImportError)], by class name. *)
Definition is_ImportError (e : exn) : bool :=
  bool_decide (exn_class e = "ImportError")
  || bool_decide (exn_class e = "ModuleNotFoundError").

(** [d.get(key, default)] on the answer of the client. *)
Definition response_get {S} (r : response) (key : string) (dflt : pyval)
  : M S pyval :=
  match r with
  | Mapping d => ret (default dflt (d !! key))
  | _ => raise (AttributeError "get")
  end.

(** [v.get(key, default)] on a value found inside the answer. *)
Definition pyval_get {S} (v : pyval) (key : string) (dflt : pyval)
  : M S pyval :=
  match v with
  | PDict d => ret (default dflt (d !! key))
  | _ => raise (AttributeError "get")
  end.

(** [v[key]] with a string key. *)
Definition subscript (v : pyval) (key : string) : result pyval :=
  match v with
  | PDict d =>
      match d !! key with
      | Some x => Ok x
      | None => Raise (KeyError key)
      end
  | PList _ => Raise (TypeError "list indices must be integers or slices, not str")
  | PStr _ => Raise (TypeError "string indices must be integers, not 'str'")
  | _ => Raise (TypeError "object is not subscriptable")
  end.

(** [chunk["message"]["content"]] *)
Definition chunk_content (chunk : pyval) : result pyval :=
  match subscript chunk "message" with
  | Ok m => subscript m "content"
  | Raise e => Raise e
  end.

(** What [for chunk in response] iterates over: the call that advances
    the iterator when it belongs to the SDK, the chunks still to come, and
    how the stream ends. *)
Record iterator := Iterator {
  it_advance : option call;
  it_chunks : list pyval;
  it_failure : option exn
}.

(** [iter(response)] for the response of [client].  Iterating a dict
    gives its keys. *)
Definition iter {S} (client : handle) (r : response) : M S iterator :=
  match r with
  | ChunkIterator chunks failure =>
      ret (Iterator (Some (StreamNext client)) chunks failure)
  | Mapping d =>
      ret (Iterator None (map (λ kv, PStr kv.1) (map_to_list d)) None)
  | _ => raise (TypeError "object is not iterable")
  end.

(** A generator object made by [generate_stream_text]: not yet started,
    suspended at the [yield] inside the loop, or finished. *)
Inductive generator :=
| GenCreated (prompt : pyval) (llm_model : option string)
    (kwargs : gmap string pyval)
| GenSuspended (it : iterator)
| GenClosed.

Section WithEnv.
Context (env : Env).

(** [Ollama(host_url)] *)
Definition __init__ (host_url : option string) : t :=
  {| host_url := py_or host_url (OLLAMA_HOST_URL env);
     client_cache := None;
     structured_client_cache := None |}.

(** [self.client] *)
Definition client : M (t * world) handle :=
  cached_property client_cache set_client_cache
    (let* self := get_self in
     if negb (truthy (host_url self)) then
       raise (ValueError "No ollama host url provided")
     else
       match import_ollama env with
       | Ok _ => construct (λ id, OllamaClient id TIMEOUT (host_url self))
       | Raise exc =>
           if is_ImportError exc then
             raise (ImportError_from
                      "Please install the `ollama` package: `pip install ollama`" exc)
           else raise exc
       end).

(** [self.structured_client] *)
Definition structured_client : M (t * world) handle :=
  cached_property structured_client_cache set_structured_client_cache
    (let* self := get_self in
     let* inner :=
       construct (λ id, OpenAI id (py_str (host_url self) +:+ "/v1") "ollama") in
     construct (λ id, Instructor id inner (Some "JSON"))).

Definition send_conversation (conversation : Conversation)
    (kwargs : gmap string pyval) : M (t * world) Message :=
  logger (
    let msgs := to_chat_messages (messages conversation) in
    let* c := client in
    let kw := merge_kwargs kwargs in
    check_kwargs ["model"; "messages"] kw ;;
    let* response :=
      request env
        (Chat c (or_default (conversation_llm_model conversation) DEFAULT_MODEL)
           msgs false kw) in
    let* assistant_message := response_get response "message" PNone in
    let* content := pyval_get assistant_message "content" PNone in
    ret {| role := "assistant";
           text := content;
           raw := Some response;
           llm_model :=
             Some (or_default (conversation_llm_model conversation) DEFAULT_MODEL);
           llm_provider := Some PROVIDER_NAME |}).

Definition structured_response (prompt : pyval) (response_model : schema)
    (llm_model : option string) (kwargs : gmap string pyval)
  : M (t * world) response :=
  logger (
    let msgs := user_prompt prompt in
    let* sc := structured_client in
    let kw := merge_kwargs kwargs in
    check_kwargs ["messages"; "model"; "response_model"] kw ;;
    let* response :=
      request env
        (CompletionsCreate sc (Some (Some (or_default llm_model DEFAULT_MODEL)))
           msgs (Some (schema_name response_model)) kw) in
    lift_result (model_validate response_model response)).

Definition generate_text (prompt : pyval) (llm_model : option string)
    (kwargs : gmap string pyval) : M (t * world) pyval :=
  logger (
    let msgs := user_prompt prompt in
    let* c := client in
    let kw := merge_kwargs kwargs in
    check_kwargs ["messages"; "model"] kw ;;
    let* response :=
      request env (Chat c (or_default llm_model DEFAULT_MODEL) msgs false kw) in
    let* message := response_get response "message" (PDict ∅) in
    pyval_get message "content" (PStr "")).

(** The body of [generate_stream_text] before the loop. *)
Definition stream_open (prompt : pyval) (llm_model : option string)
    (kwargs : gmap string pyval) : M (t * world) iterator :=
  let msgs := user_prompt prompt in
  let* c := client in
  let kw := merge_kwargs kwargs in
  check_kwargs ["messages"; "model"; "stream"] kw ;;
  let* response :=
    request env (Chat c (or_default llm_model DEFAULT_MODEL) msgs true kw) in
  iter c response.

(** One turn of [for chunk in response: yield chunk["message"]["content"]]:
    the iterator is advanced by one chunk, whose content is yielded; at
    the end of the stream the generator finishes ([None] stands for
    [StopIteration]); an exception finishes it too. *)
Definition loop_step (it : iterator)
  : M (generator * (t * world)) (option pyval) :=
  λ gs,
    let s := match it_advance it with
             | Some c => (log_call c gs.2).2
             | None => gs.2
             end in
    match it_chunks it with
    | [] =>
        (match it_failure it with
         | Some e => Raise e
         | None => Ok None
         end, (GenClosed, s))
    | chunk :: rest =>
        match chunk_content chunk with
        | Ok v =>
            (Ok (Some v),
             (GenSuspended (Iterator (it_advance it) rest (it_failure it)), s))
        | Raise e => (Raise e, (GenClosed, s))
        end
    end.

(** [next(gen)] *)
Definition next : M (generator * (t * world)) (option pyval) :=
  λ gs,
    match gs.1 with
    | GenCreated prompt llm_model kwargs =>
        match stream_open prompt llm_model kwargs gs.2 with
        | (Ok it, s) => loop_step it (gs.1, s)
        | (Raise e, s) => (Raise e, (GenClosed, s))
        end
    | GenSuspended it => loop_step it gs
    | GenClosed => (Ok None, gs)
    end.

(** Calling the generator function binds the arguments and runs nothing
    else.  [llm_model] is keyword-only and has no default: [None] is a
    call that does not pass it. *)
Definition generate_stream_text (prompt : pyval)
    (llm_model : option (option string)) (kwargs : gmap string pyval)
  : result generator :=
  logger (
    match llm_model with
    | None =>
        Raise (TypeError "generate_stream_text() missing 1 required keyword-only argument: 'llm_model'")
    | Some llm_model => Ok (GenCreated prompt llm_model kwargs)
    end).

(** [itertools.islice(gen, n)] collected into a list: at most [n] items. *)
Fixpoint islice (n : nat) : M (generator * (t * world)) (list pyval) :=
  match n with
  | 0 => ret []
  | S n' =>
      let* x := next in
      match x with
      | None => ret []
      | Some v => let* vs := islice n' in ret (v :: vs)
      end
  end.

End WithEnv.
End Ollama.

(** * Vocabulary of the properties *)

(** A result that, when it is a message, is an assistant message of the
    provider [name]. *)
Definition assistant_message_of (name : string) (r : result Message) : Prop :=
  ∀ m, r = Ok m → role m = "assistant" ∧ llm_provider m = Some name.

(** [m] keeps the property [I] of the adapter object, whether it returns
    or raises. *)
Definition preserves {O A} (I : O → Prop) (m : M (O * world) A) : Prop :=
  ∀ s, I s.1 → I (m s).2.1.

Create HintDb preserves discriminated.

(** ** Test doubles *)

(** A backend that answers every call: chats reply "pong", a stream
    delivers "Hel" and "lo". *)
Definition chunk_of (content : string) : pyval :=
  PDict {[ "message" := PDict {[ "content" := PStr content ]} ]}.

Definition stub_transport (history : list call) (c : call) : result response :=
  match c with
  | StartChat _ => Ok (Mapping ∅)
  | SendMessage _ _ | GenerateContent _ _ _ =>
      Ok (GenerateContentResponse (Ok "pong"))
  | CompletionsCreate _ _ _ None _ => Ok (ChatCompletion [Some "pong"])
  | CompletionsCreate _ _ _ (Some name) _ =>
      Ok (ModelInstance name {[ "result" := PInt 4 ]})
  | Chat _ _ _ false _ =>
      Ok (Mapping {[ "message" := PDict {[ "content" := PStr "pong" ]} ]})
  | Chat _ _ _ true _ => Ok (ChunkIterator [chunk_of "Hel"; chunk_of "lo"] None)
  | StreamNext _ => Ok (Mapping ∅)
  end.

Definition stub_env : Env :=
  {| transport := stub_transport;
     get_api_key := λ _, None;
     OLLAMA_HOST_URL := None;
     import_ollama := Ok () |}.

(** A backend that is down: every call raises. *)
Definition connection_error : exn :=
  Exn "APIConnectionError" "Connection error." None.

Definition down_env : Env :=
  {| transport := λ _ _, Raise connection_error;
     get_api_key := λ _, None;
     OLLAMA_HOST_URL := None;
     import_ollama := Ok () |}.

Definition user_message (content : string) : Message :=
  {| role := "user"; text := PStr content; raw := None;
     llm_model := None; llm_provider := None |}.

Definition hello : Conversation :=
  {| messages := [user_message "hello"]; conversation_llm_model := None |}.

Definition two_turns : Conversation :=
  {| messages := [user_message "hello"; user_message "again"];
     conversation_llm_model := Some "m2" |}.

Definition no_turns : Conversation :=
  {| messages := []; conversation_llm_model := None |}.


(** What can happen to a Gemini adapter between two observations: one of
    its attributes is read, one of its methods is called, or the rest of
    the program uses the SDKs. *)
Inductive Gemini_step (env : Env) : relation (Gemini.t * world) :=
| Gemini_read_client s :
    Gemini_step env s (Gemini.client s).2
| Gemini_read_structured_client s :
    Gemini_step env s (Gemini.structured_client s).2
| Gemini_call_send_conversation conv s :
    Gemini_step env s (Gemini.send_conversation env conv s).2
| Gemini_call_structured_response prompt response_model kwargs s :
    Gemini_step env s
      (Gemini.structured_response env prompt response_model kwargs s).2
| Gemini_call_generate_text prompt kwargs s :
    Gemini_step env s (Gemini.generate_text env prompt kwargs s).2
| Gemini_elsewhere o w w' :
    Gemini_step env (o, w) (o, w').

(** The same for an Ollama adapter; a generator made by
    [generate_stream_text] may be advanced as well. *)
Inductive Ollama_step (env : Env) : relation (Ollama.t * world) :=
| Ollama_read_client s :
    Ollama_step env s (Ollama.client env s).2
| Ollama_read_structured_client s :
    Ollama_step env s (Ollama.structured_client s).2
| Ollama_call_send_conversation conv kwargs s :
    Ollama_step env s (Ollama.send_conversation env conv kwargs s).2
| Ollama_call_structured_response prompt response_model llm_model kwargs s :
    Ollama_step env s
      (Ollama.structured_response env prompt response_model llm_model kwargs s).2
| Ollama_call_generate_text prompt llm_model kwargs s :
    Ollama_step env s (Ollama.generate_text env prompt llm_model kwargs s).2
| Ollama_call_next gen s :
    Ollama_step env s (Ollama.next env (gen, s)).2.2
| Ollama_elsewhere o w w' :
    Ollama_step env (o, w) (o, w').

(** The calls that send the texts of [msgs], in order, over the chat of
    the Gemini client [c]. *)
Definition replay_sends (c : handle) (msgs : list Message) : list call :=
  map (λ msg, SendMessage c (text msg)) msgs.

(** The one request [send_conversation] of Groq, respectively Ollama,
    makes on the client [c]. *)
Definition Groq_conversation_request (c : handle) (conv : Conversation) : call :=
  CompletionsCreate c
    (Some (Some (or_default (conversation_llm_model conv) Groq.DEFAULT_MODEL)))
    (to_chat_messages (messages conv)) None ∅.

Definition Ollama_conversation_request (c : handle) (conv : Conversation)
    (kwargs : gmap string pyval) : call :=
  Chat c (or_default (conversation_llm_model conv) Ollama.DEFAULT_MODEL)
    (to_chat_messages (messages conv)) false kwargs.

(** The calls made while the state went from [s] to [s']. *)
Definition issued {O} (s s' : O * world) : list call :=
  drop (length (calls s.2)) (calls s'.2).

(** A Gemini adapter whose model is the default one, in the attribute and
    in the client it holds. *)
Definition Gemini_default_model (o : Gemini.t) : Prop :=
  Gemini.model_name o = Gemini.DEFAULT_MODEL
  ∧ ∀ h, Gemini.client_cache o = Some h →
         ∃ id, h = GenerativeModel id Gemini.DEFAULT_MODEL.

(** A backend on which a chat can be opened and every request fails. *)
Definition refusing_env : Env :=
  {| transport := λ _ c,
       match c with
       | StartChat _ => Ok (Mapping ∅)
       | _ => Raise connection_error
       end;
     get_api_key := λ _, None;
     OLLAMA_HOST_URL := None;
     import_ollama := Ok () |}.

Definition answer_schema : schema :=
  {| schema_name := "ResponseModel"; model_validate := Ok |}.

(** A backend whose answers carry no text: the default Ollama model
    answers with an empty dict, any other with a message that has no
    content, and completions come with a null content. *)
Definition bare_env : Env :=
  {| transport := λ _ c,
       match c with
       | Chat _ model _ _ _ =>
           if String.eqb model Ollama.DEFAULT_MODEL then Ok (Mapping ∅)
           else Ok (Mapping {[ "message" := PDict ∅ ]})
       | _ => Ok (ChatCompletion [None])
       end;
     get_api_key := λ _, None;
     OLLAMA_HOST_URL := None;
     import_ollama := Ok () |}.

(** The request [generate_stream_text] makes on the client [c]. *)
Definition Ollama_stream_request (c : handle) (prompt : pyval)
    (llm_model : option string) (kwargs : gmap string pyval) : call :=
  Chat c (or_default llm_model Ollama.DEFAULT_MODEL) (user_prompt prompt)
    true kwargs.

(** A generator suspended on the stream of the client [c]. *)
Definition suspended (c : handle) (chunks : list pyval) (failure : option exn)
  : Ollama.generator :=
  Ollama.GenSuspended (Ollama.Iterator (Some (StreamNext c)) chunks failure).

(** ** tests/test_generate_data.py *)

Module Test.

(** The adapters of the parametrisation whose classes are in the sources. *)
Inductive provider_cls := cls_Gemini | cls_Groq | cls_Ollama.

(** [isinstance(data, cls)] for a response model class [cls]. *)
Definition isinstance (data : response) (cls : schema) : bool :=
  match data with
  | ModelInstance name _ => String.eqb name (schema_name cls)
  | _ => false
  end.

(** [type(data.result) == int]; reading a missing attribute raises. *)
Definition result_is_int {S} (data : response) : M S bool :=
  match data with
  | ModelInstance _ fields =>
      match fields !! "result" with
      | Some (PInt _) => ret true
      | Some _ => ret false
      | None => raise (AttributeError "result")
      end
  | _ => raise (AttributeError "result")
  end.

(** [assert b] *)
Definition assert_ {S} (b : bool) : M S unit :=
  if b then ret () else raise (Exn "AssertionError" "" None).

(** Run a method on a provider the test has just built; the provider is
    dropped when the test ends. *)
Definition on_provider {O A} (provider : O) (m : M (O * world) A) : M world A :=
  λ w, let '(r, s) := m (provider, w) in (r, s.2).

(** [provider = provider_cls();
     provider.structured_response(prompt=prompt, response_model=ResponseModel)] *)
Definition call_structured_response (env : Env) (cls : provider_cls)
    (prompt : pyval) (ResponseModel : schema) : M world response :=
  match cls with
  | cls_Gemini =>
      on_provider (Gemini.__init__ env None)
        (Gemini.structured_response env prompt ResponseModel ∅)
  | cls_Groq =>
      on_provider (Groq.__init__ env None)
        (Groq.structured_response env prompt ResponseModel)
  | cls_Ollama =>
      on_provider (Ollama.__init__ env None)
        (Ollama.structured_response env prompt ResponseModel None ∅)
  end.

Definition test_generate_data (env : Env) (ResponseModel : schema)
    (cls : provider_cls) : M world unit :=
  let prompt := PStr "What is 2+2?" in
  let* data := call_structured_response env cls prompt ResponseModel in
  assert_ (isinstance data ResponseModel) ;;
  let* is_int := result_is_int data in
  assert_ is_int.

End Test.

(** * Vocabulary of the further properties *)

(** [m] makes at most [n] calls into the SDKs, whether it returns or
    raises, and takes none back. *)
Definition calls_at_most {O A} (n : nat) (m : M (O * world) A) : Prop :=
  ∀ s, ∃ cs, calls (m s).2.2 = calls s.2 ++ cs ∧ (length cs ≤ n)%nat.

(** [m] keeps the property [I] of the adapter object together with the
    world. *)
Definition preserves_state {O A} (I : O * world → Prop) (m : M (O * world) A)
  : Prop :=
  ∀ s, I s → I (m s).2.

(** A property of the state that does not look at the calls made. *)
Definition calls_blind {O} (I : O * world → Prop) : Prop :=
  ∀ o cs cs' b, I (o, World cs b) → I (o, World cs' b).

(** What an adapter does by itself: its attributes are read and its
    methods are called, and nothing else touches the world. *)
Inductive Gemini_use (env : Env) : relation (Gemini.t * world) :=
| Gemini_use_client s :
    Gemini_use env s (Gemini.client s).2
| Gemini_use_structured_client s :
    Gemini_use env s (Gemini.structured_client s).2
| Gemini_use_send_conversation conv s :
    Gemini_use env s (Gemini.send_conversation env conv s).2
| Gemini_use_structured_response prompt response_model kwargs s :
    Gemini_use env s
      (Gemini.structured_response env prompt response_model kwargs s).2
| Gemini_use_generate_text prompt kwargs s :
    Gemini_use env s (Gemini.generate_text env prompt kwargs s).2.

Inductive Ollama_use (env : Env) : relation (Ollama.t * world) :=
| Ollama_use_client s :
    Ollama_use env s (Ollama.client env s).2
| Ollama_use_structured_client s :
    Ollama_use env s (Ollama.structured_client s).2
| Ollama_use_send_conversation conv kwargs s :
    Ollama_use env s (Ollama.send_conversation env conv kwargs s).2
| Ollama_use_structured_response prompt response_model llm_model kwargs s :
    Ollama_use env s
      (Ollama.structured_response env prompt response_model llm_model kwargs s).2
| Ollama_use_generate_text prompt llm_model kwargs s :
    Ollama_use env s (Ollama.generate_text env prompt llm_model kwargs s).2
| Ollama_use_next gen s :
    Ollama_use env s (Ollama.next env (gen, s)).2.2.

(** The handles an adapter holds in its caches. *)
Definition Gemini_held (o : Gemini.t) : nat :=
  (if Gemini.client_cache o is Some _ then 1 else 0)
  + (if Gemini.structured_client_cache o is Some _ then 1 else 0).

(** The structured client of Ollama wraps an OpenAI client built with it. *)
Definition Ollama_held (o : Ollama.t) : nat :=
  (if Ollama.client_cache o is Some _ then 1 else 0)
  + (if Ollama.structured_client_cache o is Some _ then 2 else 0).

(** A stream that delivers "Hel" and then breaks. *)
Definition broken_stream_env : Env :=
  {| transport := λ _ c,
       match c with
       | Chat _ _ _ true _ =>
           Ok (ChunkIterator [chunk_of "Hel"; PDict ∅; chunk_of "lo"]
                 (Some connection_error))
       | _ => Raise connection_error
       end;
     get_api_key := λ _, None;
     OLLAMA_HOST_URL := None;
     import_ollama :=
       Raise (Exn "ModuleNotFoundError" "No module named 'ollama'" None) |}.

(** The adapter [o] with another API key. *)
Definition Gemini_with_key (key : option string) (o : Gemini.t) : Gemini.t :=
  {| Gemini.api_key := key;
     Gemini.model_name := Gemini.model_name o;
     Gemini.client_cache := Gemini.client_cache o;
     Gemini.structured_client_cache := Gemini.structured_client_cache o |}.

(** [m] does not look at the value of the API key: on an adapter that has
    a key, it returns or raises the same, builds the same, calls the same
    and leaves the same adapter behind whichever key that is. *)
Definition key_blind {A} (m : M (Gemini.t * world) A) : Prop :=
  ∀ key s,
    truthy key = true → truthy (Gemini.api_key s.1) = true →
    m (Gemini_with_key key s.1, s.2)
    = ((m s).1, (Gemini_with_key key (m s).2.1, (m s).2.2))
    ∧ truthy (Gemini.api_key (m s).2.1) = true.
(** * Properties *)

(** ** Running the monad *)

Lemma bind_ok {S A B} (m : M S A) (k : A → M S B) s a s' :
  m s = (Ok a, s') → bind m k s = k a s'.
Proof. unfold bind. by intros ->. Qed.

Lemma bind_raise {S A B} (m : M S A) (k : A → M S B) s e s' :
  m s = (Raise e, s') → bind m k s = (Raise e, s').
Proof. unfold bind. by intros ->. Qed.

Lemma bind_inv_ok {S A B} (m : M S A) (k : A → M S B) s b s2 :
  bind m k s = (Ok b, s2) →
  ∃ a s1, m s = (Ok a, s1) ∧ k a s1 = (Ok b, s2).
Proof.
  unfold bind. destruct (m s) as [[a|e] s1]; [eauto | discriminate].
Qed.

(** ** C1: role and provider of the returned message *)

Lemma Gemini_send_conversation_assistant env conv s :
  assistant_message_of "gemini" (Gemini.send_conversation env conv s).1.
Proof.
  intros m. unfold Gemini.send_conversation, logger.
  destruct (bind _ _ s) as [r s'] eqn:Hrun. simpl. intros ->.
  repeat (apply bind_inv_ok in Hrun as (? & ? & _ & Hrun)).
  unfold ret in Hrun. by simplify_eq.
Qed.

Lemma Groq_send_conversation_assistant env conv s :
  assistant_message_of "groq" (Groq.send_conversation env conv s).1.
Proof.
  intros m. unfold Groq.send_conversation.
  destruct (bind _ _ s) as [r s'] eqn:Hrun. simpl. intros ->.
  repeat (apply bind_inv_ok in Hrun as (? & ? & _ & Hrun)).
  unfold ret in Hrun. by simplify_eq.
Qed.

Lemma Ollama_send_conversation_assistant env conv kwargs s :
  assistant_message_of "ollama" (Ollama.send_conversation env conv kwargs s).1.
Proof.
  intros m. unfold Ollama.send_conversation, logger.
  destruct (bind _ _ s) as [r s'] eqn:Hrun. simpl. intros ->.
  repeat (apply bind_inv_ok in Hrun as (? & ? & _ & Hrun)).
  unfold ret in Hrun. by simplify_eq.
Qed.

(** C1. For every non-empty conversation, the message returned by
    [send_conversation] of the Gemini, Groq and Ollama adapters has role
    "assistant" and names the adapter ("gemini", "groq", "ollama") as its
    provider, whatever the state of the adapter and whatever the backend
    answered. *)
Theorem C1_send_conversation_role_and_provider env conv :
  messages conv ≠ [] →
  (∀ s, assistant_message_of Gemini.NAME (Gemini.send_conversation env conv s).1)
  ∧ (∀ s, assistant_message_of Groq.__name__ (Groq.send_conversation env conv s).1)
  ∧ (∀ kwargs s,
       assistant_message_of Ollama.NAME (Ollama.send_conversation env conv kwargs s).1).
Proof.
  intros _. split_and!.
  - apply Gemini_send_conversation_assistant.
  - apply Groq_send_conversation_assistant.
  - apply Ollama_send_conversation_assistant.
Qed.

Lemma C1_witness :
  messages two_turns ≠ []
  ∧ (∃ m, (Gemini.send_conversation stub_env two_turns
             (Gemini.__init__ stub_env (Some "key"), init_world)).1 = Ok m
          ∧ role m = "assistant" ∧ llm_provider m = Some "gemini")
  ∧ (∃ m, (Groq.send_conversation stub_env two_turns
             (Groq.__init__ stub_env (Some "key"), init_world)).1 = Ok m
          ∧ role m = "assistant" ∧ llm_provider m = Some "groq")
  ∧ (∃ m, (Ollama.send_conversation stub_env two_turns ∅
             (Ollama.__init__ stub_env (Some "http://localhost:11434"),
              init_world)).1 = Ok m
          ∧ role m = "assistant" ∧ llm_provider m = Some "ollama").
Proof.
  assert (Hne : messages two_turns ≠ []) by discriminate.
  destruct (C1_send_conversation_role_and_provider stub_env two_turns Hne)
    as (Hgemini & Hgroq & Hollama).
  split; [exact Hne |]. split_and!.
  - eexists. split; [vm_compute; reflexivity |].
    by apply (Hgemini (Gemini.__init__ stub_env (Some "key"), init_world)).
  - eexists. split; [vm_compute; reflexivity |].
    by apply (Hgroq (Groq.__init__ stub_env (Some "key"), init_world)).
  - eexists. split; [vm_compute; reflexivity |].
    by apply (Hollama ∅ (Ollama.__init__ stub_env (Some "http://localhost:11434"),
                         init_world)).
Defined.

(** ** Invariants of [self] *)

Section Preserves.
Context {O : Type} (I : O → Prop).

Lemma preserves_ret {A} (a : A) : preserves I (ret a).
Proof. by intros s. Qed.

Lemma preserves_raise {A} e : preserves I (raise (A:=A) e).
Proof. by intros s. Qed.

Lemma preserves_lift_result {A} (r : result A) : preserves I (lift_result r).
Proof. by intros s. Qed.

Lemma preserves_get_self : preserves I get_self.
Proof. by intros s. Qed.

Lemma preserves_construct mk : preserves I (construct mk).
Proof. by intros s. Qed.

Lemma preserves_request env c : preserves I (request env c).
Proof. by intros s. Qed.

Lemma preserves_log_call c : preserves I (log_call c).
Proof. by intros s. Qed.

Lemma preserves_check_kwargs explicit kwargs :
  preserves I (check_kwargs explicit kwargs).
Proof. intros s. unfold check_kwargs. by case_match. Qed.

Lemma preserves_bind {A B} (m : M (O * world) A) (k : A → M (O * world) B) :
  preserves I m → (∀ a, preserves I (k a)) → preserves I (bind m k).
Proof.
  intros Hm Hk s HI. unfold bind.
  specialize (Hm s HI). destruct (m s) as [[a|e] s1]; [|done].
  by apply Hk.
Qed.

Lemma preserves_try_except {A} (m : M (O * world) A) h :
  preserves I m → (∀ e, preserves I (h e)) → preserves I (try_except m h).
Proof.
  intros Hm Hh s HI. unfold try_except.
  specialize (Hm s HI). destruct (m s) as [[a|e] s1]; [done|].
  by apply Hh.
Qed.

Lemma preserves_for_each {A} (xs : list A) body :
  (∀ x, preserves I (body x)) → preserves I (for_each xs body).
Proof.
  intros Hbody. induction xs as [|x xs IH]; simpl.
  - apply preserves_ret.
  - apply preserves_bind; [apply Hbody | by intros _].
Qed.

(** A cached property keeps [I] when storing the value does. *)
Lemma preserves_cached_property_store get set body :
  preserves I body → (∀ h o, I o → I (set h o)) →
  preserves I (cached_property get set body).
Proof.
  intros Hbody Hset s HI. unfold cached_property.
  destruct (get s.1); [done|].
  specialize (Hbody s HI). destruct (body s) as [[h|e] s1]; [|done].
  by apply Hset.
Qed.

(** A cached property changes nothing once [I] says it is filled. *)
Lemma preserves_cached_property_hit get set body :
  (∀ o, I o → is_Some (get o)) →
  preserves I (cached_property get set body).
Proof.
  intros Hfull s HI. unfold cached_property.
  by destruct (Hfull _ HI) as [h ->].
Qed.

End Preserves.

#[export] Hint Resolve preserves_ret preserves_raise preserves_lift_result
  preserves_get_self preserves_construct preserves_request preserves_log_call
  preserves_check_kwargs preserves_for_each : preserves.
#[export] Hint Extern 2 (preserves _ (bind _ _)) =>
  apply preserves_bind; [| intros ?] : preserves.
#[export] Hint Extern 2 (preserves _ (try_except _ _)) =>
  apply preserves_try_except; [| intros ?] : preserves.
#[export] Hint Extern 1 (preserves _ (logger _)) => unfold logger : preserves.
#[export] Hint Extern 3 (preserves _ (if ?b then _ else _)) =>
  destruct b : preserves.
#[export] Hint Extern 3 (preserves _ (match ?x with _ => _ end)) =>
  destruct x : preserves.

(** ** C8: a missing credential surfaces at the first client access *)

Lemma Gemini_client_missing_key o w :
  Gemini.client_cache o = None → truthy (Gemini.api_key o) = false →
  Gemini.client (o, w)
  = (Raise (ValueError "Gemini API key is required"), (o, w)).
Proof.
  intros Hc Hk. unfold Gemini.client, cached_property, bind, get_self.
  simpl. by rewrite Hc, Hk.
Qed.

Lemma Groq_client_missing_key o w :
  truthy (Groq.api_key o) = false →
  Groq.client (o, w) = (Raise (ValueError "Groq API key is required"), (o, w)).
Proof.
  intros Hk. unfold Groq.client, bind, get_self. simpl. by rewrite Hk.
Qed.

Lemma Ollama_client_missing_host env o w :
  Ollama.client_cache o = None → truthy (Ollama.host_url o) = false →
  Ollama.client env (o, w)
  = (Raise (ValueError "No ollama host url provided"), (o, w)).
Proof.
  intros Hc Hk. unfold Ollama.client, cached_property, bind, get_self.
  simpl. by rewrite Hc, Hk.
Qed.

(** C8, as the code has it.  An adapter built without a credential (the
    argument is [None] and the settings have none either) is built all the
    same; reading its [client] raises [ValueError], builds nothing and
    calls nothing. *)
Theorem C8_missing_credential_raises_at_client env w :
  (get_api_key env Gemini.PROVIDER_NAME = None →
   let self := Gemini.__init__ env None in
   Gemini.client (self, w)
   = (Raise (ValueError "Gemini API key is required"), (self, w)))
  ∧ (get_api_key env Groq.PROVIDER_NAME = None →
     let self := Groq.__init__ env None in
     Groq.client (self, w)
     = (Raise (ValueError "Groq API key is required"), (self, w)))
  ∧ (OLLAMA_HOST_URL env = None →
     let self := Ollama.__init__ env None in
     Ollama.client env (self, w)
     = (Raise (ValueError "No ollama host url provided"), (self, w))).
Proof.
  split_and!; intros Hnone self.
  - apply Gemini_client_missing_key; [done|].
    unfold self, Gemini.__init__. simpl. by rewrite Hnone.
  - apply Groq_client_missing_key.
    unfold self, Groq.__init__. simpl. by rewrite Hnone.
  - apply Ollama_client_missing_host; [done|].
    unfold self, Ollama.__init__. simpl. by rewrite Hnone.
Qed.

Lemma C8_witness :
  get_api_key stub_env Gemini.PROVIDER_NAME = None
  ∧ get_api_key stub_env Groq.PROVIDER_NAME = None
  ∧ OLLAMA_HOST_URL stub_env = None
  ∧ Gemini.client (Gemini.__init__ stub_env None, init_world)
    = (Raise (ValueError "Gemini API key is required"),
       (Gemini.__init__ stub_env None, init_world))
  ∧ Groq.client (Groq.__init__ stub_env None, init_world)
    = (Raise (ValueError "Groq API key is required"),
       (Groq.__init__ stub_env None, init_world))
  ∧ Ollama.client stub_env (Ollama.__init__ stub_env None, init_world)
    = (Raise (ValueError "No ollama host url provided"),
       (Ollama.__init__ stub_env None, init_world)).
Proof.
  destruct (C8_missing_credential_raises_at_client stub_env init_world)
    as (Hgemini & Hgroq & Hollama).
  split_and!; [reflexivity | reflexivity | reflexivity | | |].
  - apply Hgemini. reflexivity.
  - apply Hgroq. reflexivity.
  - apply Hollama. reflexivity.
Defined.

(** C8 as stated fails on the class of the exception: what the first
    client access of an adapter without credential raises is a
    [ValueError], not a [ConfigurationError]. *)
Lemma C8_counterexample :
  (∃ e, Gemini.client (Gemini.__init__ stub_env None, init_world)
        = (Raise e, (Gemini.__init__ stub_env None, init_world))
        ∧ exn_class e = "ValueError" ∧ exn_class e ≠ "ConfigurationError")
  ∧ (∃ e, Groq.client (Groq.__init__ stub_env None, init_world)
          = (Raise e, (Groq.__init__ stub_env None, init_world))
          ∧ exn_class e = "ValueError" ∧ exn_class e ≠ "ConfigurationError")
  ∧ (∃ e, Ollama.client stub_env (Ollama.__init__ stub_env None, init_world)
          = (Raise e, (Ollama.__init__ stub_env None, init_world))
          ∧ exn_class e = "ValueError" ∧ exn_class e ≠ "ConfigurationError").
Proof.
  split_and!; eexists; (split; [vm_compute; reflexivity |]);
    (split; [reflexivity | discriminate]).
Qed.

(** ** C7: how often the clients are built *)

Section CachedProperty.
Context {O : Type} (get : O → option handle) (set : handle → O → O).
Context (body : M (O * world) handle).

Lemma cached_property_hit s h :
  get s.1 = Some h → cached_property get set body s = (Ok h, s).
Proof. unfold cached_property. by intros ->. Qed.

Lemma cached_property_stores s h s1 :
  (∀ h o, get (set h o) = Some h) →
  cached_property get set body s = (Ok h, s1) → get s1.1 = Some h.
Proof.
  intros Hgs. unfold cached_property.
  destruct (get s.1) as [h'|] eqn:Hget.
  - intros [= <- <-]. done.
  - destruct (body s) as [[h'|e] s']; intros [= <- <-]. apply Hgs.
Qed.

Lemma cached_property_miss s :
  get s.1 = None →
  cached_property get set body s
  = match body s with
    | (Ok h, s') => (Ok h, (set h s'.1, s'.2))
    | (Raise e, s') => (Raise e, s')
    end.
Proof. unfold cached_property. by intros ->. Qed.

End CachedProperty.

(** Once a cached client is stored, reading it returns it and changes
    nothing, as long as the store is not emptied in between. *)
Lemma Gemini_client_hit s h :
  Gemini.client_cache s.1 = Some h → Gemini.client s = (Ok h, s).
Proof. apply cached_property_hit. Qed.

Lemma Gemini_structured_client_hit s h :
  Gemini.structured_client_cache s.1 = Some h →
  Gemini.structured_client s = (Ok h, s).
Proof. apply cached_property_hit. Qed.

Lemma Ollama_client_hit env s h :
  Ollama.client_cache s.1 = Some h → Ollama.client env s = (Ok h, s).
Proof. apply cached_property_hit. Qed.

Lemma Ollama_structured_client_hit s h :
  Ollama.structured_client_cache s.1 = Some h →
  Ollama.structured_client s = (Ok h, s).
Proof. apply cached_property_hit. Qed.

Lemma Gemini_client_stores s h s1 :
  Gemini.client s = (Ok h, s1) → Gemini.client_cache s1.1 = Some h.
Proof. by apply cached_property_stores. Qed.

Lemma Gemini_structured_client_stores s h s1 :
  Gemini.structured_client s = (Ok h, s1) →
  Gemini.structured_client_cache s1.1 = Some h.
Proof. by apply cached_property_stores. Qed.

Lemma Ollama_client_stores env s h s1 :
  Ollama.client env s = (Ok h, s1) → Ollama.client_cache s1.1 = Some h.
Proof. by apply cached_property_stores. Qed.

Lemma Ollama_structured_client_stores s h s1 :
  Ollama.structured_client s = (Ok h, s1) →
  Ollama.structured_client_cache s1.1 = Some h.
Proof. by apply cached_property_stores. Qed.

(** The methods reach [self] only through the two client properties. *)
Lemma Gemini_methods_preserve env (I : Gemini.t → Prop) :
  preserves I Gemini.client → preserves I Gemini.structured_client →
  (∀ conv, preserves I (Gemini.send_conversation env conv))
  ∧ (∀ prompt rm kw, preserves I (Gemini.structured_response env prompt rm kw))
  ∧ (∀ prompt kw, preserves I (Gemini.generate_text env prompt kw)).
Proof.
  intros Hc Hsc. split_and!; intros.
  - unfold Gemini.send_conversation, Gemini.last_message, Gemini.response_text.
    eauto 20 with preserves.
  - unfold Gemini.structured_response. eauto 20 with preserves.
  - unfold Gemini.generate_text, Gemini.response_text. eauto 20 with preserves.
Qed.

Lemma Gemini_step_preserves env (I : Gemini.t → Prop) s s' :
  preserves I Gemini.client → preserves I Gemini.structured_client →
  rtc (Gemini_step env) s s' → I s.1 → I s'.1.
Proof.
  intros Hc Hsc Hsteps. 
  destruct (Gemini_methods_preserve env I Hc Hsc) as (Hsend & Hstruct & Hgen).
  induction Hsteps as [|s1 s2 s3 Hstep _ IH]; [done|].
  intros HI. apply IH. destruct Hstep; try done.
  - by apply Hc.
  - by apply Hsc.
  - by apply Hsend.
  - by apply Hstruct.
  - by apply Hgen.
Qed.

Lemma Ollama_methods_preserve env (I : Ollama.t → Prop) :
  preserves I (Ollama.client env) → preserves I Ollama.structured_client →
  (∀ conv kw, preserves I (Ollama.send_conversation env conv kw))
  ∧ (∀ prompt rm model kw,
       preserves I (Ollama.structured_response env prompt rm model kw))
  ∧ (∀ prompt model kw, preserves I (Ollama.generate_text env prompt model kw))
  ∧ (∀ prompt model kw, preserves I (Ollama.stream_open env prompt model kw)).
Proof.
  intros Hc Hsc. split_and!; intros.
  - unfold Ollama.send_conversation, Ollama.response_get, Ollama.pyval_get.
    eauto 20 with preserves.
  - unfold Ollama.structured_response. eauto 20 with preserves.
  - unfold Ollama.generate_text, Ollama.response_get, Ollama.pyval_get.
    eauto 20 with preserves.
  - unfold Ollama.stream_open, Ollama.iter. eauto 20 with preserves.
Qed.

Lemma Ollama_loop_step_self it gs :
  (Ollama.loop_step it gs).2.2.1 = gs.2.1.
Proof.
  unfold Ollama.loop_step. destruct it as [[c|] [|chunk rest] failure]; simpl;
    try destruct (Ollama.chunk_content chunk); done.
Qed.

Lemma Ollama_next_preserves env (I : Ollama.t → Prop) gen s :
  preserves I (Ollama.client env) → preserves I Ollama.structured_client →
  I s.1 → I (Ollama.next env (gen, s)).2.2.1.
Proof.
  intros Hc Hsc HI. unfold Ollama.next. destruct gen as [prompt model kw|it|]; simpl.
  - destruct (Ollama_methods_preserve env I Hc Hsc) as (_ & _ & _ & Hopen).
    specialize (Hopen prompt model kw s HI).
    destruct (Ollama.stream_open _ _ _ _ s) as [[it|e] s1]; [|done].
    by rewrite Ollama_loop_step_self.
  - by rewrite Ollama_loop_step_self.
  - done.
Qed.

Lemma Ollama_step_preserves env (I : Ollama.t → Prop) s s' :
  preserves I (Ollama.client env) → preserves I Ollama.structured_client →
  rtc (Ollama_step env) s s' → I s.1 → I s'.1.
Proof.
  intros Hc Hsc Hsteps.
  destruct (Ollama_methods_preserve env I Hc Hsc) as (Hsend & Hstruct & Hgen & _).
  induction Hsteps as [|s1 s2 s3 Hstep _ IH]; [done|].
  intros HI. apply IH. destruct Hstep; try done.
  - by apply Hc.
  - by apply Hsc.
  - by apply Hsend.
  - by apply Hstruct.
  - by apply Hgen.
  - by apply Ollama_next_preserves.
Qed.

(** The two caches of an adapter never lose what they hold. *)
Lemma Gemini_client_cache_kept env h s s' :
  rtc (Gemini_step env) s s' →
  Gemini.client_cache s.1 = Some h → Gemini.client_cache s'.1 = Some h.
Proof.
  apply (Gemini_step_preserves env (λ o, Gemini.client_cache o = Some h)).
  - apply preserves_cached_property_hit. eauto.
  - apply preserves_cached_property_store; [|done].
    apply preserves_bind; [|eauto with preserves].
    apply preserves_cached_property_hit. eauto.
Qed.

Lemma Gemini_client_body_preserves (I : Gemini.t → Prop) :
  (∀ o, I o → I (Gemini.set_model_name Gemini.DEFAULT_MODEL o)) →
  (∀ h o, I o → I (Gemini.set_client_cache h o)) →
  preserves I Gemini.client.
Proof.
  intros Hm Hc s HI. unfold Gemini.client, cached_property.
  destruct (Gemini.client_cache s.1); [done|].
  unfold bind, get_self, set_self, construct, raise. simpl.
  destruct (truthy (Gemini.api_key s.1)); simpl; [|done].
  apply Hc, Hm, HI.
Qed.

Lemma Gemini_structured_client_cache_kept env h s s' :
  rtc (Gemini_step env) s s' →
  Gemini.structured_client_cache s.1 = Some h →
  Gemini.structured_client_cache s'.1 = Some h.
Proof.
  apply (Gemini_step_preserves env
           (λ o, Gemini.structured_client_cache o = Some h)).
  - by apply Gemini_client_body_preserves.
  - apply preserves_cached_property_hit. eauto.
Qed.

Lemma Ollama_client_body_preserves env (I : Ollama.t → Prop) :
  (∀ h o, I o → I (Ollama.set_client_cache h o)) →
  preserves I (Ollama.client env).
Proof.
  intros Hc. apply preserves_cached_property_store; [|done].
  eauto 10 with preserves.
Qed.

Lemma Ollama_client_cache_kept env h s s' :
  rtc (Ollama_step env) s s' →
  Ollama.client_cache s.1 = Some h → Ollama.client_cache s'.1 = Some h.
Proof.
  apply (Ollama_step_preserves env (λ o, Ollama.client_cache o = Some h)).
  - apply preserves_cached_property_hit. eauto.
  - apply preserves_cached_property_store; [|done].
    eauto 10 with preserves.
Qed.

Lemma Ollama_structured_client_cache_kept env h s s' :
  rtc (Ollama_step env) s s' →
  Ollama.structured_client_cache s.1 = Some h →
  Ollama.structured_client_cache s'.1 = Some h.
Proof.
  apply (Ollama_step_preserves env
           (λ o, Ollama.structured_client_cache o = Some h)).
  - by apply Ollama_client_body_preserves.
  - apply preserves_cached_property_hit. eauto.
Qed.

Lemma Groq_client_inv s h s1 :
  Groq.client s = (Ok h, s1) →
  h = GroqClient (length (built s.2)) (Groq.api_key s.1)
  ∧ s1 = (s.1, World (calls s.2) (built s.2 ++ [h]))
  ∧ truthy (Groq.api_key s.1) = true.
Proof.
  unfold Groq.client, bind, get_self, construct, raise. simpl.
  destruct (truthy (Groq.api_key s.1)); simpl; [|done].
  by intros [= <- <-].
Qed.

Lemma Groq_client_ok s :
  truthy (Groq.api_key s.1) = true →
  Groq.client s
  = (Ok (GroqClient (length (built s.2)) (Groq.api_key s.1)),
     (s.1, World (calls s.2)
             (built s.2 ++ [GroqClient (length (built s.2)) (Groq.api_key s.1)]))).
Proof.
  intros Hk. unfold Groq.client, bind, get_self, construct. simpl.
  by rewrite Hk.
Qed.

Lemma Groq_structured_client_inv s h s1 :
  Groq.structured_client s = (Ok h, s1) →
  ∃ c, Groq.client s = (Ok c, (s.1, World (calls s.2) (built s.2 ++ [c])))
       ∧ h = Instructor (S (length (built s.2))) c None
       ∧ s1 = (s.1, World (calls s.2) (built s.2 ++ [c; h])).
Proof.
  unfold Groq.structured_client. intros Hrun.
  apply bind_inv_ok in Hrun as (c & s' & Hc & Hrun).
  pose proof Hc as (-> & -> & _)%Groq_client_inv.
  unfold construct in Hrun. simpl in Hrun. injection Hrun as <- <-.
  eexists. split; [exact Hc|]. rewrite length_app, Nat.add_1_r. simpl.
  by rewrite <- app_assoc.
Qed.

Lemma Groq_structured_client_ok s :
  truthy (Groq.api_key s.1) = true →
  let c := GroqClient (length (built s.2)) (Groq.api_key s.1) in
  let h := Instructor (S (length (built s.2))) c None in
  Groq.structured_client s
  = (Ok h, (s.1, World (calls s.2) (built s.2 ++ [c; h]))).
Proof.
  intros Hk c h. unfold Groq.structured_client.
  erewrite bind_ok; [|by apply Groq_client_ok].
  unfold construct. simpl. rewrite length_app, Nat.add_1_r. simpl.
  by rewrite <- app_assoc.
Qed.

Lemma Gemini_client_builds s h s1 :
  Gemini.client_cache s.1 = None → Gemini.client s = (Ok h, s1) →
  built s1.2 = built s.2 ++ [h] ∧ calls s1.2 = calls s.2.
Proof.
  intros Hnone. unfold Gemini.client. rewrite cached_property_miss by done.
  unfold bind, get_self, set_self, construct, raise. simpl.
  destruct (truthy (Gemini.api_key s.1)); simpl; [|done].
  by intros [= <- <-].
Qed.

Lemma Ollama_client_builds env s h s1 :
  Ollama.client_cache s.1 = None → Ollama.client env s = (Ok h, s1) →
  built s1.2 = built s.2 ++ [h] ∧ calls s1.2 = calls s.2.
Proof.
  intros Hnone. unfold Ollama.client. rewrite cached_property_miss by done.
  unfold bind, get_self, construct, raise. simpl.
  destruct (truthy (Ollama.host_url s.1)); simpl; [|done].
  destruct (import_ollama env) as [[]|exc]; simpl.
  - by intros [= <- <-].
  - by destruct (Ollama.is_ImportError exc).
Qed.

Lemma Gemini_structured_client_builds s h s1 :
  Gemini.structured_client_cache s.1 = None →
  Gemini.structured_client s = (Ok h, s1) →
  ∃ pre, built s1.2 = built s.2 ++ pre ++ [h] ∧ calls s1.2 = calls s.2.
Proof.
  intros Hnone. unfold Gemini.structured_client.
  rewrite cached_property_miss by done.
  destruct (bind _ _ s) as [[h'|e] s'] eqn:Hbody; [|done].
  intros [= <- <-]. simpl.
  apply bind_inv_ok in Hbody as (c & s2 & Hc & Hbody).
  unfold construct in Hbody. injection Hbody as <- <-. simpl.
  destruct (Gemini.client_cache s.1) as [c'|] eqn:Hcache.
  - rewrite (Gemini_client_hit s c') in Hc by done. injection Hc as <- <-.
    by exists [].
  - apply Gemini_client_builds in Hc as [-> ->]; [|done].
    exists [c]. by rewrite <- app_assoc.
Qed.

Lemma Ollama_structured_client_builds s h s1 :
  Ollama.structured_client_cache s.1 = None →
  Ollama.structured_client s = (Ok h, s1) →
  ∃ pre, built s1.2 = built s.2 ++ pre ++ [h] ∧ calls s1.2 = calls s.2.
Proof.
  intros Hnone. unfold Ollama.structured_client.
  rewrite cached_property_miss by done.
  unfold bind, get_self, construct. simpl. intros [= <- <-]. simpl.
  eexists [_]. by rewrite <- app_assoc.
Qed.

(** C7, as the code has it.  Gemini and Ollama keep [client] and
    [structured_client] in a [cached_property]: the first access that
    succeeds builds the handle, and every later access on the same
    instance, whatever was done with the adapter in between, returns that
    handle and builds nothing.  Groq declares both as plain properties:
    each access builds new handles. *)
Theorem C7_clients_cached_except_groq env :
  (∀ s h s1, Gemini.client s = (Ok h, s1) →
     (Gemini.client_cache s.1 = None → built s1.2 = built s.2 ++ [h])
     ∧ ∀ s2, rtc (Gemini_step env) s1 s2 → Gemini.client s2 = (Ok h, s2))
  ∧ (∀ s h s1, Gemini.structured_client s = (Ok h, s1) →
       (Gemini.structured_client_cache s.1 = None →
        ∃ pre, built s1.2 = built s.2 ++ pre ++ [h])
       ∧ ∀ s2, rtc (Gemini_step env) s1 s2 →
               Gemini.structured_client s2 = (Ok h, s2))
  ∧ (∀ s h s1, Ollama.client env s = (Ok h, s1) →
       (Ollama.client_cache s.1 = None → built s1.2 = built s.2 ++ [h])
       ∧ ∀ s2, rtc (Ollama_step env) s1 s2 → Ollama.client env s2 = (Ok h, s2))
  ∧ (∀ s h s1, Ollama.structured_client s = (Ok h, s1) →
       (Ollama.structured_client_cache s.1 = None →
        ∃ pre, built s1.2 = built s.2 ++ pre ++ [h])
       ∧ ∀ s2, rtc (Ollama_step env) s1 s2 →
               Ollama.structured_client s2 = (Ok h, s2))
  ∧ (∀ s h s1, Groq.client s = (Ok h, s1) →
       ∃ h', Groq.client s1 = (Ok h', (s1.1, World (calls s1.2) (built s1.2 ++ [h'])))
             ∧ handle_id h' ≠ handle_id h)
  ∧ (∀ s h s1, Groq.structured_client s = (Ok h, s1) →
       ∃ c' h', Groq.structured_client s1
                = (Ok h', (s1.1, World (calls s1.2) (built s1.2 ++ [c'; h'])))
                ∧ handle_id h' ≠ handle_id h).
Proof.
  split_and!; intros s h s1 Hrun.
  - split.
    + intros Hnone. by apply (Gemini_client_builds s h s1).
    + intros s2 Hsteps. apply Gemini_client_hit.
      eapply Gemini_client_cache_kept; [done|].
      by eapply Gemini_client_stores.
  - split.
    + intros Hnone.
      destruct (Gemini_structured_client_builds s h s1) as (pre & ? & _); eauto.
    + intros s2 Hsteps. apply Gemini_structured_client_hit.
      eapply Gemini_structured_client_cache_kept; [done|].
      by eapply Gemini_structured_client_stores.
  - split.
    + intros Hnone. by apply (Ollama_client_builds env s h s1).
    + intros s2 Hsteps. apply Ollama_client_hit.
      eapply Ollama_client_cache_kept; [done|].
      by eapply Ollama_client_stores.
  - split.
    + intros Hnone.
      destruct (Ollama_structured_client_builds s h s1) as (pre & ? & _); eauto.
    + intros s2 Hsteps. apply Ollama_structured_client_hit.
      eapply Ollama_structured_client_cache_kept; [done|].
      by eapply Ollama_structured_client_stores.
  - apply Groq_client_inv in Hrun as (-> & -> & Hk).
    eexists. split; [by apply Groq_client_ok|].
    simpl. rewrite length_app. simpl. lia.
  - apply Groq_structured_client_inv in Hrun as (c & Hc & -> & ->).
    apply Groq_client_inv in Hc as (_ & _ & Hk).
    eexists _, _. split; [by apply Groq_structured_client_ok|].
    simpl. rewrite !length_app. simpl. lia.
Qed.

Lemma C7_witness :
  (let s0 := (Gemini.__init__ stub_env (Some "key"), init_world) in
   let h := GenerativeModel 0 Gemini.DEFAULT_MODEL in
   let s1 := (Gemini.client s0).2 in
   let s2 := (Gemini.send_conversation stub_env hello s1).2 in
   Gemini.client s0 = (Ok h, s1) ∧ built s1.2 = [h]
   ∧ Gemini.client s2 = (Ok h, s2))
  ∧ (let s0 := (Ollama.__init__ stub_env (Some "http://localhost:11434"),
                init_world) in
     let h := Instructor 1 (OpenAI 0 "http://localhost:11434/v1" "ollama")
                (Some "JSON") in
     let s1 := (Ollama.structured_client s0).2 in
     let s2 := (Ollama.generate_text stub_env (PStr "hi") None ∅ s1).2 in
     Ollama.structured_client s0 = (Ok h, s1)
     ∧ Ollama.structured_client s2 = (Ok h, s2))
  ∧ (let s0 := (Groq.__init__ stub_env (Some "key"), init_world) in
     let s1 := (Groq.client s0).2 in
     Groq.client s0 = (Ok (GroqClient 0 (Some "key")), s1)
     ∧ ∃ h', (Groq.client s1).1 = Ok h' ∧ handle_id h' ≠ 0).
Proof.
  destruct (C7_clients_cached_except_groq stub_env)
    as (Hgemini & _ & _ & Hollama & Hgroq & _).
  split_and!.
  - intros s0 h s1 s2.
    assert (Hrun : Gemini.client s0 = (Ok h, s1)) by (vm_compute; reflexivity).
    destruct (Hgemini s0 h s1 Hrun) as [Hbuilt Hlater].
    split_and!; [exact Hrun | by apply Hbuilt |].
    apply Hlater, rtc_once, Gemini_call_send_conversation.
  - intros s0 h s1 s2.
    assert (Hrun : Ollama.structured_client s0 = (Ok h, s1))
      by (vm_compute; reflexivity).
    destruct (Hollama s0 h s1 Hrun) as [_ Hlater].
    split; [exact Hrun |].
    apply Hlater, rtc_once, Ollama_call_generate_text.
  - intros s0 s1.
    assert (Hrun : Groq.client s0 = (Ok (GroqClient 0 (Some "key")), s1))
      by (vm_compute; reflexivity).
    destruct (Hgroq s0 _ s1 Hrun) as (h' & Hagain & Hfresh).
    split; [exact Hrun |]. exists h'. by rewrite Hagain.
Defined.

(** C7 as stated fails for Groq: two reads of [client] on one instance
    build two clients and return different handles. *)
Lemma C7_counterexample :
  let s0 := (Groq.__init__ stub_env (Some "key"), init_world) in
  let h1 := GroqClient 0 (Some "key") in
  let h2 := GroqClient 1 (Some "key") in
  ∃ s1 s2, Groq.client s0 = (Ok h1, s1) ∧ Groq.client s1 = (Ok h2, s2)
           ∧ h1 ≠ h2 ∧ built s2.2 = [h1; h2].
Proof.
  intros s0 h1 h2. eexists _, _.
  split_and!; [vm_compute; reflexivity | vm_compute; reflexivity
              | discriminate | reflexivity].
Qed.

(** ** Running the methods *)

Lemma request_run {O} env c (s : O * world) :
  request env c s
  = (transport env (calls s.2) c, (s.1, World (calls s.2 ++ [c]) (built s.2))).
Proof. reflexivity. Qed.

Lemma check_kwargs_ok {S} explicit (kwargs : gmap string pyval) (s : S) :
  Forall (λ k, kwargs !! k = None) explicit →
  check_kwargs explicit kwargs s = (Ok (), s).
Proof.
  intros Hfree. unfold check_kwargs.
  assert (filter (λ k, is_Some (kwargs !! k)) explicit = []) as ->; [|done].
  induction Hfree as [|k ks Hk _ IH]; [done|].
  rewrite filter_cons, IH, Hk.
  rewrite decide_False; [done|]. by intros [? ?].
Qed.

Lemma merge_kwargs_id kwargs : Ollama.merge_kwargs kwargs = kwargs.
Proof. unfold Ollama.merge_kwargs, Ollama.DEFAULT_KWARGS. apply map_union_empty. Qed.

Lemma issued_app {O} (s : O * world) o cs b :
  issued s (o, World (calls s.2 ++ cs) b) = cs.
Proof. unfold issued. simpl. by rewrite drop_app_length. Qed.

(** The context replay of Gemini: when it completes, every text was sent,
    in order. *)
Lemma replay_inv_ok env c xs (s s' : Gemini.t * world) :
  for_each xs (λ msg, let* _ := request env (SendMessage c (text msg)) in ret ()) s
  = (Ok (), s') →
  s' = (s.1, World (calls s.2 ++ replay_sends c xs) (built s.2)).
Proof.
  revert s. induction xs as [|x xs IH]; intros s; simpl.
  - intros [= <-]. rewrite app_nil_r. by destruct s as [o [? ?]].
  - intros Hrun. apply bind_inv_ok in Hrun as ([] & s1 & Hx & Hrun).
    apply bind_inv_ok in Hx as (r & s1' & Hreq & Hret).
    rewrite request_run in Hreq. injection Hreq as _ <-.
    injection Hret as <-. apply IH in Hrun as ->. simpl.
    by rewrite <- app_assoc.
Qed.

(** It completes when the backend answers each of the sends. *)
Lemma replay_ok env c xs (s : Gemini.t * world) :
  (∀ k x, xs !! k = Some x →
     ∃ r, transport env (calls s.2 ++ replay_sends c (take k xs))
            (SendMessage c (text x)) = Ok r) →
  for_each xs (λ msg, let* _ := request env (SendMessage c (text msg)) in ret ()) s
  = (Ok (), (s.1, World (calls s.2 ++ replay_sends c xs) (built s.2))).
Proof.
  revert s. induction xs as [|x xs IH]; intros s Hanswers; simpl.
  - rewrite app_nil_r. by destruct s as [o [? ?]].
  - destruct (Hanswers 0 x eq_refl) as [r Hr]. simpl in Hr.
    rewrite app_nil_r in Hr.
    erewrite bind_ok; [|erewrite bind_ok; [reflexivity|]; rewrite request_run, Hr; reflexivity].
    rewrite IH; simpl.
    + by rewrite <- app_assoc.
    + intros k y Hy. destruct (Hanswers (S k) y Hy) as [r' Hr'].
      exists r'. simpl in Hr'. by rewrite <- app_assoc.
Qed.

Lemma removelast_snoc_last {A} (l : list A) x :
  last l = Some x → removelast l ++ [x] = l.
Proof. intros [l' ->]%last_Some. by rewrite removelast_last. Qed.

(** What a successful [send_conversation] of Gemini did. *)
Lemma Gemini_send_conversation_inv_ok env conv s m s' :
  Gemini.send_conversation env conv s = (Ok m, s') →
  ∃ c s1 x t,
    Gemini.client s = (Ok c, s1)
    ∧ last (messages conv) = Some x
    ∧ transport env
        (calls s1.2 ++ StartChat c :: replay_sends c (removelast (messages conv)))
        (SendMessage c (text x)) = Ok (GenerateContentResponse (Ok t))
    ∧ s' = (s1.1, World (calls s1.2 ++ StartChat c :: replay_sends c (messages conv))
                    (built s1.2))
    ∧ m = {| role := "assistant"; text := PStr t;
             raw := Some (GenerateContentResponse (Ok t));
             llm_model := Some (Gemini.model_name s1.1);
             llm_provider := Some Gemini.PROVIDER_NAME |}.
Proof.
  unfold Gemini.send_conversation, logger. intros Hrun.
  apply bind_inv_ok in Hrun as (c & s1 & Hc & Hrun).
  apply bind_inv_ok in Hrun as (r0 & s2 & Hstart & Hrun).
  rewrite request_run in Hstart. injection Hstart as _ <-.
  apply bind_inv_ok in Hrun as ([] & s3 & Hreplay & Hrun).
  apply replay_inv_ok in Hreplay as ->. simpl in Hrun.
  apply bind_inv_ok in Hrun as (r & s4 & Hfinal & Hrun).
  unfold try_except, Gemini.last_message in Hfinal.
  destruct (last (messages conv)) as [x|] eqn:Hlast; simpl in Hfinal;
    [|discriminate].
  destruct (transport env _ _) as [r'|e] eqn:Hsend in Hfinal; [|discriminate].
  injection Hfinal as <- <-.
  apply bind_inv_ok in Hrun as (t & s5 & Htext & Hrun).
  destruct r' as [[t'|e]| | | |]; try discriminate.
  injection Htext as <- <-. injection Hrun as <- <-.
  exists c, s1, x, t'. split_and!; try done.
  - by rewrite <- app_assoc in Hsend.
  - simpl. f_equal. f_equal.
    rewrite <- !app_assoc. simpl. do 2 f_equal.
    unfold replay_sends. rewrite <- (removelast_snoc_last _ _ Hlast) at 2.
    by rewrite map_app.
Qed.

(** [send_conversation] of Groq: one request on a new client, whatever
    the conversation holds and whatever the outcome. *)
Lemma Groq_send_conversation_trace env conv s c s1 :
  Groq.client s = (Ok c, s1) →
  (Groq.send_conversation env conv s).2
  = (s1.1, World (calls s1.2 ++ [Groq_conversation_request c conv]) (built s1.2)).
Proof.
  intros Hc. unfold Groq.send_conversation. erewrite bind_ok by exact Hc.
  unfold bind at 1. rewrite request_run.
  fold (Groq_conversation_request c conv).
  destruct (transport env _ _) as [[| [|content rest] | | |]|e]; reflexivity.
Qed.

Lemma Groq_send_conversation_transport_raises env conv s c s1 e :
  Groq.client s = (Ok c, s1) →
  transport env (calls s1.2) (Groq_conversation_request c conv) = Raise e →
  (Groq.send_conversation env conv s).1 = Raise e.
Proof.
  intros Hc He. unfold Groq.send_conversation. erewrite bind_ok by exact Hc.
  unfold bind at 1. rewrite request_run.
  fold (Groq_conversation_request c conv). by rewrite He.
Qed.

Lemma Groq_send_conversation_returns env conv s c s1 content rest :
  Groq.client s = (Ok c, s1) →
  transport env (calls s1.2) (Groq_conversation_request c conv)
  = Ok (ChatCompletion (content :: rest)) →
  (Groq.send_conversation env conv s).1
  = Ok {| role := "assistant";
          text := PStr (or_default content "");
          raw := Some (ChatCompletion (content :: rest));
          llm_model :=
            Some (or_default (conversation_llm_model conv) Groq.DEFAULT_MODEL);
          llm_provider := Some Groq.PROVIDER_NAME |}.
Proof.
  intros Hc Hr. unfold Groq.send_conversation. erewrite bind_ok by exact Hc.
  unfold bind at 1. rewrite request_run.
  fold (Groq_conversation_request c conv). by rewrite Hr.
Qed.

Lemma Groq_send_conversation_inv_ok env conv s m s' :
  Groq.send_conversation env conv s = (Ok m, s') →
  ∃ c s1 content rest,
    Groq.client s = (Ok c, s1)
    ∧ transport env (calls s1.2) (Groq_conversation_request c conv)
      = Ok (ChatCompletion (content :: rest))
    ∧ s' = (s1.1, World (calls s1.2 ++ [Groq_conversation_request c conv])
                    (built s1.2))
    ∧ m = {| role := "assistant";
             text := PStr (or_default content "");
             raw := Some (ChatCompletion (content :: rest));
             llm_model :=
               Some (or_default (conversation_llm_model conv) Groq.DEFAULT_MODEL);
             llm_provider := Some Groq.PROVIDER_NAME |}.
Proof.
  intros Hrun. destruct (Groq.client s) as [[c|e] s1] eqn:Hc.
  - pose proof (Groq_send_conversation_trace env conv s c s1 Hc) as Htrace.
    rewrite Hrun in Htrace. simpl in Htrace. subst s'.
    destruct (transport env (calls s1.2) (Groq_conversation_request c conv))
      as [r|e] eqn:Hr.
    + destruct r as [| [|content rest] | | |];
        try (unfold Groq.send_conversation in Hrun;
             erewrite bind_ok in Hrun by exact Hc;
             unfold bind at 1 in Hrun; rewrite request_run in Hrun;
             fold (Groq_conversation_request c conv) in Hrun;
             rewrite Hr in Hrun; discriminate).
      pose proof (Groq_send_conversation_returns env conv s c s1 _ _ Hc Hr) as Hm.
      rewrite Hrun in Hm. injection Hm as ->. by exists c, s1, content, rest.
    + pose proof (Groq_send_conversation_transport_raises env conv s c s1 e Hc Hr)
        as Hm.
      by rewrite Hrun in Hm.
  - unfold Groq.send_conversation in Hrun.
    erewrite bind_raise in Hrun by exact Hc. discriminate.
Qed.

(** [send_conversation] of Ollama: the same shape, after the keyword
    arguments are merged and checked. *)
Lemma Ollama_send_conversation_trace env conv kwargs s c s1 :
  Ollama.client env s = (Ok c, s1) →
  kwargs !! "model" = None → kwargs !! "messages" = None →
  (Ollama.send_conversation env conv kwargs s).2
  = (s1.1, World (calls s1.2 ++ [Ollama_conversation_request c conv kwargs])
             (built s1.2)).
Proof.
  intros Hc Hmodel Hmessages. unfold Ollama.send_conversation, logger.
  erewrite bind_ok by exact Hc. rewrite merge_kwargs_id.
  erewrite bind_ok by (apply check_kwargs_ok; by repeat constructor).
  unfold bind at 1. rewrite request_run.
  fold (Ollama_conversation_request c conv kwargs).
  destruct (transport env _ _) as [[| |d| |]|e]; try reflexivity.
  simpl. unfold bind, ret. simpl.
  destruct (default PNone (d !! "message")); reflexivity.
Qed.

Lemma Ollama_send_conversation_transport_raises env conv kwargs s c s1 e :
  Ollama.client env s = (Ok c, s1) →
  kwargs !! "model" = None → kwargs !! "messages" = None →
  transport env (calls s1.2) (Ollama_conversation_request c conv kwargs) = Raise e →
  (Ollama.send_conversation env conv kwargs s).1 = Raise e.
Proof.
  intros Hc Hmodel Hmessages He. unfold Ollama.send_conversation, logger.
  erewrite bind_ok by exact Hc. rewrite merge_kwargs_id.
  erewrite bind_ok by (apply check_kwargs_ok; by repeat constructor).
  unfold bind at 1. rewrite request_run.
  fold (Ollama_conversation_request c conv kwargs). by rewrite He.
Qed.

Lemma check_kwargs_inv_ok {S} explicit (kwargs : gmap string pyval) (s s' : S) u :
  check_kwargs explicit kwargs s = (Ok u, s') →
  s' = s ∧ Forall (λ k, kwargs !! k = None) explicit.
Proof.
  unfold check_kwargs.
  destruct (filter _ explicit) as [|k ks] eqn:Hfilter; [|discriminate].
  intros [= <-]. split; [done|].
  apply Forall_forall. intros k Hk.
  destruct (kwargs !! k) as [v|] eqn:Hv; [|done].
  assert (k ∈ filter (λ k, is_Some (kwargs !! k)) explicit) as Hin.
  { apply list_elem_of_filter. split; [|done]. rewrite Hv. eauto. }
  rewrite Hfilter in Hin. by apply not_elem_of_nil in Hin.
Qed.

Lemma Ollama_send_conversation_inv_ok env conv kwargs s m s' :
  Ollama.send_conversation env conv kwargs s = (Ok m, s') →
  ∃ c s1 d dm,
    Ollama.client env s = (Ok c, s1)
    ∧ kwargs !! "model" = None ∧ kwargs !! "messages" = None
    ∧ transport env (calls s1.2) (Ollama_conversation_request c conv kwargs)
      = Ok (Mapping d)
    ∧ d !! "message" = Some (PDict dm)
    ∧ s' = (s1.1, World (calls s1.2 ++ [Ollama_conversation_request c conv kwargs])
                    (built s1.2))
    ∧ m = {| role := "assistant";
             text := default PNone (dm !! "content");
             raw := Some (Mapping d);
             llm_model :=
               Some (or_default (conversation_llm_model conv) Ollama.DEFAULT_MODEL);
             llm_provider := Some Ollama.PROVIDER_NAME |}.
Proof.
  unfold Ollama.send_conversation, logger. intros Hrun.
  apply bind_inv_ok in Hrun as (c & s1 & Hc & Hrun).
  rewrite merge_kwargs_id in Hrun.
  apply bind_inv_ok in Hrun as ([] & s2 & Hcheck & Hrun).
  apply check_kwargs_inv_ok in Hcheck as [-> Hfree].
  apply Forall_cons in Hfree as [Hmodel [Hmessages _]%Forall_cons].
  apply bind_inv_ok in Hrun as (r & s3 & Hreq & Hrun).
  rewrite request_run in Hreq. injection Hreq as Hr <-.
  fold (Ollama_conversation_request c conv kwargs) in *.
  apply bind_inv_ok in Hrun as (am & s4 & Hget & Hrun).
  destruct r as [| |d| |]; try discriminate. injection Hget as <- <-.
  apply bind_inv_ok in Hrun as (content & s5 & Hcontent & Hrun).
  destruct (d !! "message") as [[| | | | |dm]|] eqn:Hmsg; try discriminate.
  injection Hcontent as <- <-. injection Hrun as <- <-.
  by exists c, s1, d, dm.
Qed.

(** When the backend answers, [send_conversation] returns. *)
Lemma Gemini_send_conversation_returns env conv s c s1 x t :
  Gemini.client s = (Ok c, s1) →
  last (messages conv) = Some x →
  let context := StartChat c :: replay_sends c (removelast (messages conv)) in
  (∀ k call, context !! k = Some call →
     ∃ r, transport env (calls s1.2 ++ take k context) call = Ok r) →
  transport env (calls s1.2 ++ context) (SendMessage c (text x))
  = Ok (GenerateContentResponse (Ok t)) →
  (Gemini.send_conversation env conv s).1
  = Ok {| role := "assistant"; text := PStr t;
          raw := Some (GenerateContentResponse (Ok t));
          llm_model := Some (Gemini.model_name s1.1);
          llm_provider := Some Gemini.PROVIDER_NAME |}.
Proof.
  intros Hc Hlast context Hanswers Hr. unfold Gemini.send_conversation, logger.
  erewrite bind_ok by exact Hc.
  destruct (Hanswers 0 (StartChat c) eq_refl) as [r0 Hr0].
  simpl in Hr0. rewrite app_nil_r in Hr0.
  erewrite bind_ok by (rewrite request_run, Hr0; reflexivity).
  erewrite bind_ok; cycle 1.
  { apply replay_ok. simpl. intros k y Hy.
    destruct (Hanswers (S k) (SendMessage c (text y))) as [r Hr'].
    - unfold context, replay_sends. simpl. by rewrite list_lookup_fmap, Hy.
    - exists r. simpl in Hr'. rewrite <- app_assoc. simpl.
      unfold replay_sends in *. by rewrite <- firstn_map. }
  simpl. unfold bind at 1, try_except, Gemini.last_message. rewrite Hlast.
  erewrite bind_ok by reflexivity. rewrite request_run. simpl.
  rewrite <- app_assoc. simpl. fold context. by rewrite Hr.
Qed.


(** Reading a client property calls nothing. *)
Lemma Gemini_client_calls s r s1 :
  Gemini.client s = (r, s1) → calls s1.2 = calls s.2.
Proof.
  unfold Gemini.client, cached_property.
  destruct (Gemini.client_cache s.1); [by intros [= _ <-]|].
  unfold bind, get_self, set_self, construct, raise. simpl.
  destruct (truthy (Gemini.api_key s.1)); simpl; by intros [= _ <-].
Qed.

Lemma Groq_client_calls s r s1 :
  Groq.client s = (r, s1) → calls s1.2 = calls s.2.
Proof.
  unfold Groq.client, bind, get_self, construct, raise. simpl.
  destruct (truthy (Groq.api_key s.1)); simpl; by intros [= _ <-].
Qed.

Lemma Ollama_client_calls env s r s1 :
  Ollama.client env s = (r, s1) → calls s1.2 = calls s.2.
Proof.
  unfold Ollama.client, cached_property.
  destruct (Ollama.client_cache s.1); [by intros [= _ <-]|].
  unfold bind, get_self, construct, raise. simpl.
  destruct (truthy (Ollama.host_url s.1)); simpl; [|by intros [= _ <-]].
  destruct (import_ollama env) as [[]|exc]; simpl; [by intros [= _ <-]|].
  destruct (Ollama.is_ImportError exc); by intros [= _ <-].
Qed.

(** ** C4: what is sent for a conversation *)

(** C4, as the code has it.  For a non-empty conversation, a
    [send_conversation] that returns has, on Gemini, opened a chat, sent
    the text of every message but the last, in order, then sent the text of
    the last message, and the reply to that last send is the [raw] of the
    returned message.  On Groq and Ollama it has made a single request that
    carries all messages, and the reply to it is the [raw]. *)
Theorem C4_replay_on_gemini_single_request_elsewhere env conv :
  messages conv ≠ [] →
  (∀ s m s', Gemini.send_conversation env conv s = (Ok m, s') →
     ∃ c x r,
       last (messages conv) = Some x
       ∧ issued s s'
         = StartChat c :: replay_sends c (removelast (messages conv))
           ++ [SendMessage c (text x)]
       ∧ transport env
           (calls s.2 ++ StartChat c :: replay_sends c (removelast (messages conv)))
           (SendMessage c (text x)) = Ok r
       ∧ raw m = Some r)
  ∧ (∀ s m s', Groq.send_conversation env conv s = (Ok m, s') →
       ∃ c r,
         issued s s' = [Groq_conversation_request c conv]
         ∧ transport env (calls s.2) (Groq_conversation_request c conv) = Ok r
         ∧ raw m = Some r)
  ∧ (∀ kwargs s m s', Ollama.send_conversation env conv kwargs s = (Ok m, s') →
       ∃ c r,
         issued s s' = [Ollama_conversation_request c conv kwargs]
         ∧ transport env (calls s.2) (Ollama_conversation_request c conv kwargs)
           = Ok r
         ∧ raw m = Some r).
Proof.
  intros _. split_and!.
  - intros s m s' Hrun.
    apply Gemini_send_conversation_inv_ok in Hrun
      as (c & s1 & x & t & Hc & Hlast & Hsend & -> & ->).
    apply Gemini_client_calls in Hc as Hcalls. rewrite Hcalls in *.
    exists c, x, (GenerateContentResponse (Ok t)). split_and!; try done.
    rewrite issued_app. f_equal. unfold replay_sends.
    rewrite <- (removelast_snoc_last _ _ Hlast) at 1. by rewrite map_app.
  - intros s m s' Hrun.
    apply Groq_send_conversation_inv_ok in Hrun
      as (c & s1 & content & rest & Hc & Hr & -> & ->).
    apply Groq_client_calls in Hc as Hcalls. rewrite Hcalls in *.
    eexists c, _. split_and!; [apply issued_app | exact Hr | done].
  - intros kwargs s m s' Hrun.
    apply Ollama_send_conversation_inv_ok in Hrun
      as (c & s1 & d & dm & Hc & _ & _ & Hr & _ & -> & ->).
    apply Ollama_client_calls in Hc as Hcalls. rewrite Hcalls in *.
    eexists c, _. split_and!; [apply issued_app | exact Hr | done].
Qed.

Lemma C4_witness :
  messages two_turns ≠ []
  ∧ (let c := GenerativeModel 0 Gemini.DEFAULT_MODEL in
     let s0 := (Gemini.__init__ stub_env (Some "key"), init_world) in
     ∃ m s', Gemini.send_conversation stub_env two_turns s0 = (Ok m, s')
             ∧ issued s0 s'
               = [StartChat c; SendMessage c (PStr "hello");
                  SendMessage c (PStr "again")])
  ∧ (let s0 := (Groq.__init__ stub_env (Some "key"), init_world) in
     ∃ m s' c, Groq.send_conversation stub_env two_turns s0 = (Ok m, s')
               ∧ issued s0 s' = [Groq_conversation_request c two_turns])
  ∧ (let s0 := (Ollama.__init__ stub_env (Some "http://localhost:11434"),
                init_world) in
     ∃ m s' c, Ollama.send_conversation stub_env two_turns ∅ s0 = (Ok m, s')
               ∧ issued s0 s' = [Ollama_conversation_request c two_turns ∅]).
Proof.
  assert (Hne : messages two_turns ≠ []) by discriminate.
  destruct (C4_replay_on_gemini_single_request_elsewhere stub_env two_turns Hne)
    as (Hgemini & Hgroq & Hollama).
  split; [exact Hne |]. split_and!.
  - intros c s0.
    destruct (Gemini.send_conversation stub_env two_turns s0) as [r s'] eqn:Hrun.
    assert (∃ m, r = Ok m) as [m ->]
      by (vm_compute in Hrun; injection Hrun as <- _; eauto).
    exists m, s'. split; [reflexivity |].
    destruct (Hgemini s0 m s' Hrun) as (c' & x & r & Hlast & Hissued & _).
    vm_compute in Hrun. injection Hrun as _ <-. reflexivity.
  - intros s0.
    destruct (Groq.send_conversation stub_env two_turns s0) as [r s'] eqn:Hrun.
    assert (∃ m, r = Ok m) as [m ->]
      by (vm_compute in Hrun; injection Hrun as <- _; eauto).
    destruct (Hgroq s0 m s' Hrun) as (c & r & Hissued & _).
    by exists m, s', c.
  - intros s0.
    destruct (Ollama.send_conversation stub_env two_turns ∅ s0) as [r s'] eqn:Hrun.
    assert (∃ m, r = Ok m) as [m ->]
      by (vm_compute in Hrun; injection Hrun as <- _; eauto).
    destruct (Hollama ∅ s0 m s' Hrun) as (c & r & Hissued & _).
    by exists m, s', c.
Defined.

(** C4 as stated fails for Groq and Ollama: a conversation of two messages
    reaches the backend as one call, not as a replayed message followed by
    a final send. *)
Lemma C4_counterexample :
  (let s0 := (Groq.__init__ stub_env (Some "key"), init_world) in
   ∃ m s', Groq.send_conversation stub_env two_turns s0 = (Ok m, s')
           ∧ calls s'.2
             = [CompletionsCreate (GroqClient 0 (Some "key")) (Some (Some "m2"))
                  [ChatMessage "user" (PStr "hello");
                   ChatMessage "user" (PStr "again")] None ∅]
           ∧ length (calls s'.2) ≠ length (messages two_turns))
  ∧ (let s0 := (Ollama.__init__ stub_env (Some "http://localhost:11434"),
                init_world) in
     ∃ m s', Ollama.send_conversation stub_env two_turns ∅ s0 = (Ok m, s')
             ∧ calls s'.2
               = [Chat (OllamaClient 0 60 (Some "http://localhost:11434")) "m2"
                    [ChatMessage "user" (PStr "hello");
                     ChatMessage "user" (PStr "again")] false ∅]
             ∧ length (calls s'.2) ≠ length (messages two_turns)).
Proof.
  split; intros s0; eexists _, _;
    (split_and!; [vm_compute; reflexivity | reflexivity | simpl; lia]).
Qed.

(** ** C3: the empty conversation *)

Lemma Gemini_send_conversation_empty env conv s c s1 r :
  messages conv = [] →
  Gemini.client s = (Ok c, s1) →
  transport env (calls s1.2) (StartChat c) = Ok r →
  Gemini.send_conversation env conv s
  = (Raise (RuntimeError_from
              "Failed to send conversation to Gemini API: list index out of range"
              (IndexError "list index out of range")),
     (s1.1, World (calls s1.2 ++ [StartChat c]) (built s1.2))).
Proof.
  intros Hempty Hc Hstart. unfold Gemini.send_conversation, logger.
  erewrite bind_ok by exact Hc.
  erewrite bind_ok by (rewrite request_run, Hstart; reflexivity).
  rewrite Hempty. reflexivity.
Qed.

(** C3, as the code has it.  No adapter checks that the conversation has
    messages.  Given an empty conversation and a usable client, Gemini
    opens a chat, sends nothing, and raises a [RuntimeError] caused by the
    [IndexError] of [messages[-1]]; Groq and Ollama make their one request
    with an empty list of messages. *)
Theorem C3_empty_conversation_is_not_validated env conv :
  messages conv = [] →
  (∀ s c s1 r,
     Gemini.client s = (Ok c, s1) →
     transport env (calls s1.2) (StartChat c) = Ok r →
     (Gemini.send_conversation env conv s).1
     = Raise (RuntimeError_from
                "Failed to send conversation to Gemini API: list index out of range"
                (IndexError "list index out of range"))
     ∧ issued s (Gemini.send_conversation env conv s).2 = [StartChat c])
  ∧ (∀ s c s1,
       Groq.client s = (Ok c, s1) →
       issued s (Groq.send_conversation env conv s).2
       = [CompletionsCreate c
            (Some (Some (or_default (conversation_llm_model conv) Groq.DEFAULT_MODEL)))
            [] None ∅])
  ∧ (∀ kwargs s c s1,
       Ollama.client env s = (Ok c, s1) →
       kwargs !! "model" = None → kwargs !! "messages" = None →
       issued s (Ollama.send_conversation env conv kwargs s).2
       = [Chat c (or_default (conversation_llm_model conv) Ollama.DEFAULT_MODEL)
            [] false kwargs]).
Proof.
  intros Hempty. split_and!.
  - intros s c s1 r Hc Hstart.
    rewrite (Gemini_send_conversation_empty env conv s c s1 r) by done.
    apply Gemini_client_calls in Hc as ->. split; [done|]. simpl.
    apply issued_app.
  - intros s c s1 Hc.
    rewrite (Groq_send_conversation_trace env conv s c s1 Hc).
    apply Groq_client_calls in Hc as ->.
    unfold Groq_conversation_request. rewrite Hempty. apply issued_app.
  - intros kwargs s c s1 Hc Hmodel Hmessages.
    rewrite (Ollama_send_conversation_trace env conv kwargs s c s1) by done.
    apply Ollama_client_calls in Hc as ->.
    unfold Ollama_conversation_request. rewrite Hempty. apply issued_app.
Qed.

Lemma C3_witness :
  messages no_turns = []
  ∧ (let s0 := (Gemini.__init__ stub_env (Some "key"), init_world) in
     let c := GenerativeModel 0 Gemini.DEFAULT_MODEL in
     (Gemini.send_conversation stub_env no_turns s0).1
     = Raise (RuntimeError_from
                "Failed to send conversation to Gemini API: list index out of range"
                (IndexError "list index out of range"))
     ∧ issued s0 (Gemini.send_conversation stub_env no_turns s0).2
       = [StartChat c])
  ∧ (let s0 := (Groq.__init__ stub_env (Some "key"), init_world) in
     issued s0 (Groq.send_conversation stub_env no_turns s0).2
     = [CompletionsCreate (GroqClient 0 (Some "key"))
          (Some (Some Groq.DEFAULT_MODEL)) [] None ∅])
  ∧ (let s0 := (Ollama.__init__ stub_env (Some "http://localhost:11434"),
                init_world) in
     issued s0 (Ollama.send_conversation stub_env no_turns ∅ s0).2
     = [Chat (OllamaClient 0 60 (Some "http://localhost:11434"))
          Ollama.DEFAULT_MODEL [] false ∅]).
Proof.
  destruct (C3_empty_conversation_is_not_validated stub_env no_turns eq_refl)
    as (Hgemini & Hgroq & Hollama).
  split; [reflexivity |]. split_and!.
  - intros s0 c.
    apply (Hgemini s0 c (Gemini.client s0).2 (Mapping ∅)); reflexivity.
  - intros s0.
    apply (Hgroq s0 (GroqClient 0 (Some "key")) (Groq.client s0).2).
    reflexivity.
  - intros s0.
    apply (Hollama ∅ s0 (OllamaClient 0 60 (Some "http://localhost:11434"))
             (Ollama.client stub_env s0).2); reflexivity.
Defined.

(** C3 as stated fails: handed an empty conversation, Groq and Ollama
    raise nothing and call the backend once. *)
Lemma C3_counterexample :
  (let s0 := (Groq.__init__ stub_env (Some "key"), init_world) in
   ∃ m s', Groq.send_conversation stub_env no_turns s0 = (Ok m, s')
           ∧ calls s'.2
             = [CompletionsCreate (GroqClient 0 (Some "key"))
                  (Some (Some "llama3-8b-8192")) [] None ∅])
  ∧ (let s0 := (Ollama.__init__ stub_env (Some "http://localhost:11434"),
                init_world) in
     ∃ m s', Ollama.send_conversation stub_env no_turns ∅ s0 = (Ok m, s')
             ∧ calls s'.2
               = [Chat (OllamaClient 0 60 (Some "http://localhost:11434"))
                    "llama3.2" [] false ∅]).
Proof.
  split; intros s0; eexists _, _;
    (split; [vm_compute; reflexivity | reflexivity]).
Qed.

(** ** C5 and C6: which model is asked *)

Lemma or_default_set (s d : string) : s ≠ "" → or_default (Some s) d = s.
Proof.
  intros Hs. unfold or_default.
  destruct (String.eqb s "") eqn:Heq; [|done].
  by apply String.eqb_eq in Heq.
Qed.

Lemma or_default_unset (d : string) :
  or_default None d = d ∧ or_default (Some "") d = d.
Proof. done. Qed.

(** The model of a Gemini adapter never moves away from the default. *)
Lemma Gemini_init_default_model env key :
  Gemini_default_model (Gemini.__init__ env key).
Proof. split; [done|]. by intros h. Qed.

Lemma Gemini_client_default_model :
  preserves Gemini_default_model Gemini.client.
Proof.
  intros s [Hm Hc]. unfold Gemini.client, cached_property.
  destruct (Gemini.client_cache s.1) as [h|] eqn:Hcache.
  { split; [done|]. simpl. by rewrite Hcache. }
  unfold bind, get_self, set_self, construct, raise. simpl.
  destruct (truthy (Gemini.api_key s.1)); simpl.
  - split; [done|]. simpl. intros h [= <-]. eauto.
  - split; [done|]. by rewrite Hcache.
Qed.

Lemma Gemini_structured_client_default_model :
  preserves Gemini_default_model Gemini.structured_client.
Proof.
  apply preserves_cached_property_store.
  - apply preserves_bind; [apply Gemini_client_default_model|].
    intros c. apply preserves_construct.
  - by intros h o [Hm Hc].
Qed.

Lemma Gemini_reachable_default_model env key w s :
  rtc (Gemini_step env) (Gemini.__init__ env key, w) s →
  Gemini_default_model s.1.
Proof.
  intros Hsteps.
  eapply (Gemini_step_preserves env Gemini_default_model); [| |done|].
  - apply Gemini_client_default_model.
  - apply Gemini_structured_client_default_model.
  - apply Gemini_init_default_model.
Qed.

Lemma Gemini_client_of_default_model s c s1 :
  Gemini_default_model s.1 → Gemini.client s = (Ok c, s1) →
  Gemini.model_name s1.1 = Gemini.DEFAULT_MODEL
  ∧ ∃ id, c = GenerativeModel id Gemini.DEFAULT_MODEL.
Proof.
  intros HJ Hc. pose proof (Gemini_client_default_model s HJ) as [Hm Hh].
  rewrite Hc in Hm, Hh. simpl in Hm, Hh. split; [done|].
  apply Hh. by eapply Gemini_client_stores.
Qed.

(** Whatever model the conversation asks for, a Gemini adapter answers
    with the default model and says so. *)
Lemma Gemini_send_conversation_model env key w s conv m s' :
  rtc (Gemini_step env) (Gemini.__init__ env key, w) s →
  Gemini.send_conversation env conv s = (Ok m, s') →
  llm_model m = Some Gemini.DEFAULT_MODEL
  ∧ ∃ id, issued s s'
          = StartChat (GenerativeModel id Gemini.DEFAULT_MODEL)
            :: replay_sends (GenerativeModel id Gemini.DEFAULT_MODEL)
                 (messages conv).
Proof.
  intros Hreach Hrun.
  apply Gemini_send_conversation_inv_ok in Hrun
    as (c & s1 & x & t & Hc & Hlast & Hsend & -> & ->).
  apply Gemini_reachable_default_model in Hreach.
  destruct (Gemini_client_of_default_model s c s1 Hreach Hc) as [Hm [id ->]].
  apply Gemini_client_calls in Hc as ->. simpl. rewrite Hm. split; [done|].
  exists id. apply issued_app.
Qed.

(** Groq and Ollama resolve the model of the conversation, falling back
    on their default, for the request and for the returned message. *)
Lemma Groq_send_conversation_model env conv s m s' :
  Groq.send_conversation env conv s = (Ok m, s') →
  let model := or_default (conversation_llm_model conv) Groq.DEFAULT_MODEL in
  llm_model m = Some model
  ∧ ∃ c, issued s s'
         = [CompletionsCreate c (Some (Some model))
              (to_chat_messages (messages conv)) None ∅].
Proof.
  intros Hrun model.
  apply Groq_send_conversation_inv_ok in Hrun
    as (c & s1 & content & rest & Hc & Hr & -> & ->).
  apply Groq_client_calls in Hc as ->. split; [done|].
  exists c. apply issued_app.
Qed.

Lemma Ollama_send_conversation_model env conv kwargs s m s' :
  Ollama.send_conversation env conv kwargs s = (Ok m, s') →
  let model := or_default (conversation_llm_model conv) Ollama.DEFAULT_MODEL in
  llm_model m = Some model
  ∧ ∃ c, issued s s'
         = [Chat c model (to_chat_messages (messages conv)) false kwargs].
Proof.
  intros Hrun model.
  apply Ollama_send_conversation_inv_ok in Hrun
    as (c & s1 & d & dm & Hc & _ & _ & Hr & _ & -> & ->).
  apply Ollama_client_calls in Hc as ->. split; [done|].
  exists c. apply issued_app.
Qed.

(** C5 at the input that breaks it: the conversation asks for model "m2",
    the Gemini adapter sends it to its default model and labels the answer
    with the default model. *)
Theorem C5_gemini_ignores_conversation_model :
  let s0 := (Gemini.__init__ stub_env (Some "key"), init_world) in
  let c := GenerativeModel 0 "models/gemini-1.5-flash-latest" in
  conversation_llm_model two_turns = Some "m2"
  ∧ ∃ m s', Gemini.send_conversation stub_env two_turns s0 = (Ok m, s')
            ∧ llm_model m = Some "models/gemini-1.5-flash-latest"
            ∧ llm_model m ≠ conversation_llm_model two_turns
            ∧ calls s'.2 = [StartChat c; SendMessage c (PStr "hello");
                            SendMessage c (PStr "again")].
Proof.
  intros s0 c. split; [reflexivity|]. eexists _, _.
  split_and!; [vm_compute; reflexivity | reflexivity | discriminate | reflexivity].
Qed.

(** The single request of [generate_text], whatever its outcome. *)
Lemma Ollama_generate_text_trace env prompt llm_model kwargs s c s1 :
  Ollama.client env s = (Ok c, s1) →
  kwargs !! "messages" = None → kwargs !! "model" = None →
  (Ollama.generate_text env prompt llm_model kwargs s).2
  = (s1.1,
     World (calls s1.2
            ++ [Chat c (or_default llm_model Ollama.DEFAULT_MODEL)
                  (user_prompt prompt) false kwargs])
       (built s1.2)).
Proof.
  intros Hc Hmessages Hmodel. unfold Ollama.generate_text, logger.
  erewrite bind_ok by exact Hc. rewrite merge_kwargs_id.
  erewrite bind_ok by (apply check_kwargs_ok; by repeat constructor).
  unfold bind at 1. rewrite request_run.
  destruct (transport env _ _) as [[| |d| |]|e]; try reflexivity.
  simpl. unfold bind, ret. simpl.
  destruct (default (PDict ∅) (d !! "message")); reflexivity.
Qed.

Lemma Groq_generate_text_trace env prompt llm_model s sc s1 :
  Groq.structured_client s = (Ok sc, s1) →
  (Groq.generate_text env prompt (Some llm_model) s).2
  = (s1.1,
     World (calls s1.2
            ++ [CompletionsCreate sc (Some llm_model) (user_prompt prompt) None ∅])
       (built s1.2)).
Proof.
  intros Hsc. unfold Groq.generate_text.
  erewrite bind_ok by exact Hsc.
  unfold bind at 1. rewrite request_run.
  destruct (transport env _ _) as [[| [|content rest] | | |]|e]; reflexivity.
Qed.

Lemma Groq_structured_client_calls s r s1 :
  Groq.structured_client s = (r, s1) → calls s1.2 = calls s.2.
Proof.
  unfold Groq.structured_client, bind.
  destruct (Groq.client s) as [[c|e] s'] eqn:Hc;
    apply Groq_client_calls in Hc as <-; by intros [= _ <-].
Qed.

Lemma Gemini_generate_text_trace env prompt kwargs s c s1 :
  Gemini.client s = (Ok c, s1) →
  (Gemini.generate_text env prompt kwargs s).2
  = (s1.1,
     World (calls s1.2 ++ [GenerateContent c prompt (delete "llm_model" kwargs)])
       (built s1.2)).
Proof.
  intros Hc. unfold Gemini.generate_text, logger, Gemini.pop_llm_model.
  unfold bind at 1. simpl. unfold bind at 1, try_except.
  erewrite bind_ok by exact Hc. rewrite request_run.
  destruct (transport env _ _) as [[[t|e]| | | |]|e]; reflexivity.
Qed.

(** C6, as the code has it.  Ollama's [generate_text] asks the model
    passed as [llm_model], or the default model of the adapter when none is
    passed.  Groq's asks the model passed as [llm_model]; the argument is
    required, and a call without it raises [TypeError] and asks nothing.
    Gemini's, called without [llm_model], asks the default model its
    client was built for. *)
Theorem C6_generate_text_model env prompt :
  (∀ llm_model kwargs s c s1,
     Ollama.client env s = (Ok c, s1) →
     kwargs !! "messages" = None → kwargs !! "model" = None →
     issued s (Ollama.generate_text env prompt llm_model kwargs s).2
     = [Chat c (or_default llm_model Ollama.DEFAULT_MODEL)
          (user_prompt prompt) false kwargs])
  ∧ (∀ llm_model s sc s1,
       Groq.structured_client s = (Ok sc, s1) →
       issued s (Groq.generate_text env prompt (Some llm_model) s).2
       = [CompletionsCreate sc (Some llm_model) (user_prompt prompt) None ∅])
  ∧ (∀ s, ∃ e, Groq.generate_text env prompt None s = (Raise e, s)
               ∧ exn_class e = "TypeError")
  ∧ (∀ key w kwargs s c s1,
       rtc (Gemini_step env) (Gemini.__init__ env key, w) s →
       kwargs !! "llm_model" = None →
       Gemini.client s = (Ok c, s1) →
       issued s (Gemini.generate_text env prompt kwargs s).2
       = [GenerateContent c prompt kwargs]
       ∧ ∃ id, c = GenerativeModel id Gemini.DEFAULT_MODEL).
Proof.
  split_and!.
  - intros llm_model kwargs s c s1 Hc Hmessages Hmodel.
    rewrite (Ollama_generate_text_trace env prompt llm_model kwargs s c s1) by done.
    apply Ollama_client_calls in Hc as ->. apply issued_app.
  - intros llm_model s sc s1 Hsc.
    rewrite (Groq_generate_text_trace env prompt llm_model s sc s1) by done.
    apply Groq_structured_client_calls in Hsc as ->. apply issued_app.
  - intros s. by eexists.
  - intros key w kwargs s c s1 Hreach Hnone Hc.
    rewrite (Gemini_generate_text_trace env prompt kwargs s c s1) by done.
    apply Gemini_reachable_default_model in Hreach.
    destruct (Gemini_client_of_default_model s c s1 Hreach Hc) as [_ Hid].
    apply Gemini_client_calls in Hc as ->.
    rewrite delete_id by done. split; [apply issued_app | done].
Qed.

Lemma C6_witness :
  (let s0 := (Ollama.__init__ stub_env (Some "http://localhost:11434"),
              init_world) in
   let c := OllamaClient 0 60 (Some "http://localhost:11434") in
   issued s0 (Ollama.generate_text stub_env (PStr "hi") (Some "m2") ∅ s0).2
   = [Chat c "m2" (user_prompt (PStr "hi")) false ∅]
   ∧ issued s0 (Ollama.generate_text stub_env (PStr "hi") None ∅ s0).2
     = [Chat c "llama3.2" (user_prompt (PStr "hi")) false ∅])
  ∧ (let s0 := (Groq.__init__ stub_env (Some "key"), init_world) in
     let sc := Instructor 1 (GroqClient 0 (Some "key")) None in
     issued s0 (Groq.generate_text stub_env (PStr "hi") (Some (Some "m2")) s0).2
     = [CompletionsCreate sc (Some (Some "m2")) (user_prompt (PStr "hi")) None ∅])
  ∧ (let s0 := (Gemini.__init__ stub_env (Some "key"), init_world) in
     let c := GenerativeModel 0 "models/gemini-1.5-flash-latest" in
     issued s0 (Gemini.generate_text stub_env (PStr "hi") ∅ s0).2
     = [GenerateContent c (PStr "hi") ∅]).
Proof.
  destruct (C6_generate_text_model stub_env (PStr "hi"))
    as (Hollama & Hgroq & _ & Hgemini).
  split_and!.
  - intros s0 c. split.
    + apply (Hollama (Some "m2") ∅ s0 c (Ollama.client stub_env s0).2);
        reflexivity.
    + apply (Hollama None ∅ s0 c (Ollama.client stub_env s0).2); reflexivity.
  - intros s0 sc.
    apply (Hgroq (Some "m2") s0 sc (Groq.structured_client s0).2). reflexivity.
  - intros s0 c.
    apply (Hgemini (Some "key") init_world ∅ s0 c (Gemini.client s0).2);
      [apply rtc_refl | reflexivity | reflexivity].
Defined.

(** C6 as stated fails twice.  Groq's [generate_text] called without
    [llm_model] does not fall back on the default model: it raises and
    asks nothing.  Gemini's called with [llm_model="m2"] asks the default
    model. *)
Lemma C6_counterexample :
  (let s0 := (Groq.__init__ stub_env (Some "key"), init_world) in
   ∃ e, Groq.generate_text stub_env (PStr "hi") None s0 = (Raise e, s0)
        ∧ exn_class e = "TypeError" ∧ calls s0.2 = [])
  ∧ (let s0 := (Gemini.__init__ stub_env (Some "key"), init_world) in
     let kwargs : gmap string pyval := {[ "llm_model" := PStr "m2" ]} in
     ∃ t s', Gemini.generate_text stub_env (PStr "hi") kwargs s0 = (Ok t, s')
             ∧ calls s'.2
               = [GenerateContent
                    (GenerativeModel 0 "models/gemini-1.5-flash-latest")
                    (PStr "hi") ∅]).
Proof.
  split.
  - intros s0. eexists. split_and!; reflexivity.
  - intros s0 kwargs. eexists _, _.
    split; [vm_compute; reflexivity | reflexivity].
Qed.

(** ** C2: what becomes of a backend failure *)

Lemma Gemini_send_conversation_final_raises env conv s c s1 x e :
  Gemini.client s = (Ok c, s1) →
  last (messages conv) = Some x →
  let context := StartChat c :: replay_sends c (removelast (messages conv)) in
  (∀ k call, context !! k = Some call →
     ∃ r, transport env (calls s1.2 ++ take k context) call = Ok r) →
  transport env (calls s1.2 ++ context) (SendMessage c (text x)) = Raise e →
  Gemini.send_conversation env conv s
  = (Raise (RuntimeError_from
              ("Failed to send conversation to Gemini API: " +:+ exn_str e) e),
     (s1.1, World (calls s1.2 ++ context ++ [SendMessage c (text x)]) (built s1.2))).
Proof.
  intros Hc Hlast context Hanswers He. unfold Gemini.send_conversation, logger.
  erewrite bind_ok by exact Hc.
  destruct (Hanswers 0 (StartChat c) eq_refl) as [r0 Hr0].
  simpl in Hr0. rewrite app_nil_r in Hr0.
  erewrite bind_ok by (rewrite request_run, Hr0; reflexivity).
  erewrite bind_ok; cycle 1.
  { apply replay_ok. simpl. intros k y Hy.
    destruct (Hanswers (S k) (SendMessage c (text y))) as [r Hr].
    - unfold context, replay_sends. simpl. by rewrite list_lookup_fmap, Hy.
    - exists r. simpl in Hr. rewrite <- app_assoc. simpl.
      unfold replay_sends in *. by rewrite <- firstn_map. }
  simpl. unfold bind at 1, try_except, Gemini.last_message. rewrite Hlast.
  erewrite bind_ok by reflexivity. rewrite request_run. simpl.
  rewrite <- app_assoc. simpl. fold context. rewrite He. simpl.
  unfold raise. do 3 f_equal. by rewrite <- !app_assoc.
Qed.

Lemma Gemini_generate_text_raises env prompt kwargs s c s1 e :
  Gemini.client s = (Ok c, s1) →
  transport env (calls s1.2) (GenerateContent c prompt (delete "llm_model" kwargs))
  = Raise e →
  (Gemini.generate_text env prompt kwargs s).1
  = Raise (RuntimeError_from
             ("Failed to generate text with Gemini API: " +:+ exn_str e) e).
Proof.
  intros Hc He. unfold Gemini.generate_text, logger, Gemini.pop_llm_model.
  unfold bind at 1. simpl. unfold bind at 1, try_except.
  erewrite bind_ok by exact Hc. rewrite request_run. by rewrite He.
Qed.

Lemma Gemini_structured_response_raises env prompt rm kwargs s sc s1 e :
  Gemini.structured_client s = (Ok sc, s1) →
  kwargs !! "messages" = None → kwargs !! "response_model" = None →
  transport env (calls s1.2)
    (CompletionsCreate sc None (user_prompt prompt) (Some (schema_name rm))
       (delete "llm_model" kwargs))
  = Raise e →
  (Gemini.structured_response env prompt rm kwargs s).1
  = Raise (RuntimeError_from
             ("Failed to send structured response to Gemini API: " +:+ exn_str e) e).
Proof.
  intros Hsc Hmessages Hrm He.
  unfold Gemini.structured_response, logger, Gemini.pop_llm_model.
  unfold bind at 1. simpl. unfold try_except.
  erewrite bind_ok by exact Hsc.
  erewrite bind_ok; cycle 1.
  { apply check_kwargs_ok.
    repeat constructor; by apply lookup_delete_None; right. }
  rewrite request_run. by rewrite He.
Qed.

Lemma Groq_structured_response_raises env prompt rm s sc s1 e :
  Groq.structured_client s = (Ok sc, s1) →
  transport env (calls s1.2)
    (CompletionsCreate sc None (user_prompt prompt) (Some (schema_name rm)) ∅)
  = Raise e →
  (Groq.structured_response env prompt rm s).1 = Raise e.
Proof.
  intros Hsc He. unfold Groq.structured_response.
  erewrite bind_ok by exact Hsc. rewrite request_run. by rewrite He.
Qed.

Lemma Groq_generate_text_raises env prompt llm_model s sc s1 e :
  Groq.structured_client s = (Ok sc, s1) →
  transport env (calls s1.2)
    (CompletionsCreate sc (Some llm_model) (user_prompt prompt) None ∅)
  = Raise e →
  (Groq.generate_text env prompt (Some llm_model) s).1 = Raise e.
Proof.
  intros Hsc He. unfold Groq.generate_text.
  erewrite bind_ok by exact Hsc.
  unfold bind at 1. rewrite request_run. by rewrite He.
Qed.

Lemma Ollama_structured_response_raises env prompt rm llm_model kwargs s sc s1 e :
  Ollama.structured_client s = (Ok sc, s1) →
  kwargs !! "messages" = None → kwargs !! "model" = None →
  kwargs !! "response_model" = None →
  transport env (calls s1.2)
    (CompletionsCreate sc (Some (Some (or_default llm_model Ollama.DEFAULT_MODEL)))
       (user_prompt prompt) (Some (schema_name rm)) kwargs)
  = Raise e →
  (Ollama.structured_response env prompt rm llm_model kwargs s).1 = Raise e.
Proof.
  intros Hsc Hmessages Hmodel Hrm He. unfold Ollama.structured_response, logger.
  erewrite bind_ok by exact Hsc. rewrite merge_kwargs_id.
  erewrite bind_ok by (apply check_kwargs_ok; by repeat constructor).
  unfold bind at 1. rewrite request_run. by rewrite He.
Qed.

Lemma Ollama_generate_text_raises env prompt llm_model kwargs s c s1 e :
  Ollama.client env s = (Ok c, s1) →
  kwargs !! "messages" = None → kwargs !! "model" = None →
  transport env (calls s1.2)
    (Chat c (or_default llm_model Ollama.DEFAULT_MODEL) (user_prompt prompt)
       false kwargs)
  = Raise e →
  (Ollama.generate_text env prompt llm_model kwargs s).1 = Raise e.
Proof.
  intros Hc Hmessages Hmodel He. unfold Ollama.generate_text, logger.
  erewrite bind_ok by exact Hc. rewrite merge_kwargs_id.
  erewrite bind_ok by (apply check_kwargs_ok; by repeat constructor).
  unfold bind at 1. rewrite request_run. by rewrite He.
Qed.

(** C2, as the code has it.  Gemini catches the exception [e] raised by
    the final send of [send_conversation], by the request of
    [structured_response] and by the request of [generate_text], and raises
    a [RuntimeError] whose cause is [e].  Groq and Ollama catch nothing:
    the exception [e] raised by the request of any of the three operations
    reaches the caller as it is. *)
Theorem C2_backend_failures env e :
  (∀ conv s c s1 x,
     Gemini.client s = (Ok c, s1) →
     last (messages conv) = Some x →
     let context := StartChat c :: replay_sends c (removelast (messages conv)) in
     (∀ k call, context !! k = Some call →
        ∃ r, transport env (calls s1.2 ++ take k context) call = Ok r) →
     transport env (calls s1.2 ++ context) (SendMessage c (text x)) = Raise e →
     (Gemini.send_conversation env conv s).1
     = Raise (RuntimeError_from
                ("Failed to send conversation to Gemini API: " +:+ exn_str e) e))
  ∧ (∀ prompt rm kwargs s sc s1,
       Gemini.structured_client s = (Ok sc, s1) →
       kwargs !! "messages" = None → kwargs !! "response_model" = None →
       transport env (calls s1.2)
         (CompletionsCreate sc None (user_prompt prompt) (Some (schema_name rm))
            (delete "llm_model" kwargs))
       = Raise e →
       (Gemini.structured_response env prompt rm kwargs s).1
       = Raise (RuntimeError_from
                  ("Failed to send structured response to Gemini API: "
                   +:+ exn_str e) e))
  ∧ (∀ prompt kwargs s c s1,
       Gemini.client s = (Ok c, s1) →
       transport env (calls s1.2)
         (GenerateContent c prompt (delete "llm_model" kwargs))
       = Raise e →
       (Gemini.generate_text env prompt kwargs s).1
       = Raise (RuntimeError_from
                  ("Failed to generate text with Gemini API: " +:+ exn_str e) e))
  ∧ (∀ conv s c s1,
       Groq.client s = (Ok c, s1) →
       transport env (calls s1.2) (Groq_conversation_request c conv) = Raise e →
       (Groq.send_conversation env conv s).1 = Raise e)
  ∧ (∀ prompt rm s sc s1,
       Groq.structured_client s = (Ok sc, s1) →
       transport env (calls s1.2)
         (CompletionsCreate sc None (user_prompt prompt) (Some (schema_name rm)) ∅)
       = Raise e →
       (Groq.structured_response env prompt rm s).1 = Raise e)
  ∧ (∀ prompt llm_model s sc s1,
       Groq.structured_client s = (Ok sc, s1) →
       transport env (calls s1.2)
         (CompletionsCreate sc (Some llm_model) (user_prompt prompt) None ∅)
       = Raise e →
       (Groq.generate_text env prompt (Some llm_model) s).1 = Raise e)
  ∧ (∀ conv kwargs s c s1,
       Ollama.client env s = (Ok c, s1) →
       kwargs !! "model" = None → kwargs !! "messages" = None →
       transport env (calls s1.2) (Ollama_conversation_request c conv kwargs)
       = Raise e →
       (Ollama.send_conversation env conv kwargs s).1 = Raise e)
  ∧ (∀ prompt rm llm_model kwargs s sc s1,
       Ollama.structured_client s = (Ok sc, s1) →
       kwargs !! "messages" = None → kwargs !! "model" = None →
       kwargs !! "response_model" = None →
       transport env (calls s1.2)
         (CompletionsCreate sc
            (Some (Some (or_default llm_model Ollama.DEFAULT_MODEL)))
            (user_prompt prompt) (Some (schema_name rm)) kwargs)
       = Raise e →
       (Ollama.structured_response env prompt rm llm_model kwargs s).1 = Raise e)
  ∧ (∀ prompt llm_model kwargs s c s1,
       Ollama.client env s = (Ok c, s1) →
       kwargs !! "messages" = None → kwargs !! "model" = None →
       transport env (calls s1.2)
         (Chat c (or_default llm_model Ollama.DEFAULT_MODEL) (user_prompt prompt)
            false kwargs)
       = Raise e →
       (Ollama.generate_text env prompt llm_model kwargs s).1 = Raise e).
Proof.
  split_and!.
  - intros conv s c s1 x Hc Hlast context Hanswers He.
    by rewrite (Gemini_send_conversation_final_raises env conv s c s1 x e).
  - intros. by eapply Gemini_structured_response_raises.
  - intros. by eapply Gemini_generate_text_raises.
  - intros. by eapply Groq_send_conversation_transport_raises.
  - intros. by eapply Groq_structured_response_raises.
  - intros. by eapply Groq_generate_text_raises.
  - intros. by eapply Ollama_send_conversation_transport_raises.
  - intros. by eapply Ollama_structured_response_raises.
  - intros. by eapply Ollama_generate_text_raises.
Qed.

Lemma C2_witness :
  let wrapped prefix :=
    Exn "RuntimeError" (prefix +:+ "Connection error.") (Some connection_error) in
  (let s0 := (Gemini.__init__ refusing_env (Some "key"), init_world) in
   (Gemini.send_conversation refusing_env hello s0).1
   = Raise (wrapped "Failed to send conversation to Gemini API: ")
   ∧ (Gemini.structured_response refusing_env (PStr "hi") answer_schema ∅ s0).1
     = Raise (wrapped "Failed to send structured response to Gemini API: ")
   ∧ (Gemini.generate_text refusing_env (PStr "hi") ∅ s0).1
     = Raise (wrapped "Failed to generate text with Gemini API: "))
  ∧ (let s0 := (Groq.__init__ refusing_env (Some "key"), init_world) in
     (Groq.send_conversation refusing_env hello s0).1 = Raise connection_error
     ∧ (Groq.structured_response refusing_env (PStr "hi") answer_schema s0).1
       = Raise connection_error
     ∧ (Groq.generate_text refusing_env (PStr "hi") (Some (Some "m2")) s0).1
       = Raise connection_error)
  ∧ (let s0 := (Ollama.__init__ refusing_env (Some "http://localhost:11434"),
                init_world) in
     (Ollama.send_conversation refusing_env hello ∅ s0).1 = Raise connection_error
     ∧ (Ollama.structured_response refusing_env (PStr "hi") answer_schema None ∅
          s0).1 = Raise connection_error
     ∧ (Ollama.generate_text refusing_env (PStr "hi") None ∅ s0).1
       = Raise connection_error).
Proof.
  destruct (C2_backend_failures refusing_env connection_error)
    as (Hg1 & Hg2 & Hg3 & Hq1 & Hq2 & Hq3 & Ho1 & Ho2 & Ho3).
  intros wrapped. split_and!.
  - intros s0. split_and!.
    + apply (Hg1 hello s0 (GenerativeModel 0 Gemini.DEFAULT_MODEL)
               (Gemini.client s0).2 (user_message "hello"));
        [reflexivity | reflexivity | | reflexivity].
      intros [|[|k]] call; [intros [= <-]; by eexists | done | done].
    + apply (Hg2 (PStr "hi") answer_schema ∅ s0
               (Instructor 1 (GenerativeModel 0 Gemini.DEFAULT_MODEL) None)
               (Gemini.structured_client s0).2); reflexivity.
    + apply (Hg3 (PStr "hi") ∅ s0 (GenerativeModel 0 Gemini.DEFAULT_MODEL)
               (Gemini.client s0).2); reflexivity.
  - intros s0. split_and!.
    + apply (Hq1 hello s0 (GroqClient 0 (Some "key")) (Groq.client s0).2);
        reflexivity.
    + apply (Hq2 (PStr "hi") answer_schema s0
               (Instructor 1 (GroqClient 0 (Some "key")) None)
               (Groq.structured_client s0).2); reflexivity.
    + apply (Hq3 (PStr "hi") (Some "m2") s0
               (Instructor 1 (GroqClient 0 (Some "key")) None)
               (Groq.structured_client s0).2); reflexivity.
  - intros s0. split_and!.
    + apply (Ho1 hello ∅ s0 (OllamaClient 0 60 (Some "http://localhost:11434"))
               (Ollama.client refusing_env s0).2); reflexivity.
    + apply (Ho2 (PStr "hi") answer_schema None ∅ s0
               (Instructor 1 (OpenAI 0 "http://localhost:11434/v1" "ollama")
                  (Some "JSON"))
               (Ollama.structured_client s0).2); reflexivity.
    + apply (Ho3 (PStr "hi") None ∅ s0
               (OllamaClient 0 60 (Some "http://localhost:11434"))
               (Ollama.client refusing_env s0).2); reflexivity.
Defined.

(** C2 as stated fails.  When the backend raises, Groq and Ollama hand the
    caller that very exception, and what Gemini raises instead is a
    [RuntimeError]; none of them raises a [ProviderRequestError]. *)
Lemma C2_counterexample :
  transport down_env [] (Groq_conversation_request (GroqClient 0 (Some "key")) hello)
  = Raise connection_error
  ∧ (Groq.send_conversation down_env hello
       (Groq.__init__ down_env (Some "key"), init_world)).1
    = Raise connection_error
  ∧ (Ollama.send_conversation down_env hello ∅
       (Ollama.__init__ down_env (Some "http://localhost:11434"), init_world)).1
    = Raise connection_error
  ∧ exn_class connection_error ≠ "ProviderRequestError"
  ∧ (∃ e, (Gemini.generate_text down_env (PStr "hi") ∅
             (Gemini.__init__ down_env (Some "key"), init_world)).1 = Raise e
          ∧ exn_class e = "RuntimeError"
          ∧ exn_class e ≠ "ProviderRequestError").
Proof.
  split_and!; [reflexivity | reflexivity | reflexivity | discriminate |].
  eexists. split_and!; [vm_compute; reflexivity | reflexivity | discriminate].
Qed.

(** ** C10: answers without text *)

Lemma Ollama_generate_text_no_text env prompt llm_model kwargs s c s1 d :
  Ollama.client env s = (Ok c, s1) →
  kwargs !! "messages" = None → kwargs !! "model" = None →
  transport env (calls s1.2)
    (Chat c (or_default llm_model Ollama.DEFAULT_MODEL) (user_prompt prompt)
       false kwargs)
  = Ok (Mapping d) →
  d !! "message" = None
  ∨ (∃ dm, d !! "message" = Some (PDict dm) ∧ dm !! "content" = None) →
  (Ollama.generate_text env prompt llm_model kwargs s).1 = Ok (PStr "").
Proof.
  intros Hc Hmessages Hmodel Hr Hshape. unfold Ollama.generate_text, logger.
  erewrite bind_ok by exact Hc. rewrite merge_kwargs_id.
  erewrite bind_ok by (apply check_kwargs_ok; by repeat constructor).
  erewrite bind_ok by (rewrite request_run, Hr; reflexivity).
  simpl. unfold bind, ret. simpl.
  destruct Hshape as [-> | (dm & -> & Hcontent)]; simpl; [done|].
  by rewrite Hcontent.
Qed.

(** C10.  [generate_text] of Ollama returns the empty string when the
    answer of the backend has no "message" entry, or has one without a
    "content" entry.  [send_conversation] of Groq puts the empty string in
    place of a null content, and the text of the message it returns is
    always a string. *)
Theorem C10_missing_text_becomes_empty_string env :
  (∀ prompt llm_model kwargs s c s1 d,
     Ollama.client env s = (Ok c, s1) →
     kwargs !! "messages" = None → kwargs !! "model" = None →
     transport env (calls s1.2)
       (Chat c (or_default llm_model Ollama.DEFAULT_MODEL) (user_prompt prompt)
          false kwargs)
     = Ok (Mapping d) →
     d !! "message" = None
     ∨ (∃ dm, d !! "message" = Some (PDict dm) ∧ dm !! "content" = None) →
     (Ollama.generate_text env prompt llm_model kwargs s).1 = Ok (PStr ""))
  ∧ (∀ conv s c s1 rest,
       Groq.client s = (Ok c, s1) →
       transport env (calls s1.2) (Groq_conversation_request c conv)
       = Ok (ChatCompletion (None :: rest)) →
       ∃ m, (Groq.send_conversation env conv s).1 = Ok m ∧ text m = PStr "")
  ∧ (∀ conv s m,
       (Groq.send_conversation env conv s).1 = Ok m → ∃ t, text m = PStr t).
Proof.
  split_and!.
  - apply Ollama_generate_text_no_text.
  - intros conv s c s1 rest Hc Hr.
    rewrite (Groq_send_conversation_returns env conv s c s1 None rest) by done.
    by eexists.
  - intros conv s m Hm.
    destruct (Groq.send_conversation env conv s) as [r s'] eqn:Hrun.
    simpl in Hm. subst r.
    apply Groq_send_conversation_inv_ok in Hrun
      as (c & s1 & content & rest & _ & _ & _ & ->).
    by eexists.
Qed.

Lemma C10_witness :
  (let s0 := (Ollama.__init__ bare_env (Some "http://localhost:11434"),
              init_world) in
   (Ollama.generate_text bare_env (PStr "hi") None ∅ s0).1 = Ok (PStr "")
   ∧ (Ollama.generate_text bare_env (PStr "hi") (Some "m2") ∅ s0).1
     = Ok (PStr ""))
  ∧ (let s0 := (Groq.__init__ bare_env (Some "key"), init_world) in
     ∃ m, (Groq.send_conversation bare_env hello s0).1 = Ok m
          ∧ text m = PStr "").
Proof.
  destruct (C10_missing_text_becomes_empty_string bare_env)
    as (Hollama & Hgroq & Hstring).
  split.
  - intros s0. split.
    + apply (Hollama (PStr "hi") None ∅ s0
               (OllamaClient 0 60 (Some "http://localhost:11434"))
               (Ollama.client bare_env s0).2 ∅);
        [reflexivity | reflexivity | reflexivity | reflexivity |].
      by left.
    + apply (Hollama (PStr "hi") (Some "m2") ∅ s0
               (OllamaClient 0 60 (Some "http://localhost:11434"))
               (Ollama.client bare_env s0).2 {[ "message" := PDict ∅ ]});
        [reflexivity | reflexivity | reflexivity | reflexivity |].
      right. exists ∅. split; reflexivity.
  - intros s0.
    destruct (Hgroq hello s0 (GroqClient 0 (Some "key")) (Groq.client s0).2 [])
      as (m & Hm & Htext); [reflexivity | reflexivity |].
    destruct (Hstring hello s0 m Hm) as [t Ht].
    by exists m.
Defined.

(** ** C9: the chunks of a stream *)

Lemma Ollama_stream_open_ok env prompt llm_model kwargs s c s1 chunks failure :
  Ollama.client env s = (Ok c, s1) →
  kwargs !! "messages" = None → kwargs !! "model" = None →
  kwargs !! "stream" = None →
  transport env (calls s1.2) (Ollama_stream_request c prompt llm_model kwargs)
  = Ok (ChunkIterator chunks failure) →
  Ollama.stream_open env prompt llm_model kwargs s
  = (Ok (Ollama.Iterator (Some (StreamNext c)) chunks failure),
     (s1.1, World (calls s1.2 ++ [Ollama_stream_request c prompt llm_model kwargs])
              (built s1.2))).
Proof.
  intros Hc Hmessages Hmodel Hstream Hr. unfold Ollama.stream_open.
  erewrite bind_ok by exact Hc. rewrite merge_kwargs_id.
  erewrite bind_ok by (apply check_kwargs_ok; by repeat constructor).
  fold (Ollama_stream_request c prompt llm_model kwargs).
  erewrite bind_ok by (rewrite request_run, Hr; reflexivity).
  reflexivity.
Qed.

(** Advancing a suspended generator takes one chunk from the stream and
    yields its content. *)
Lemma Ollama_next_chunk env c chunk rest failure v s :
  Ollama.chunk_content chunk = Ok v →
  Ollama.next env (suspended c (chunk :: rest) failure, s)
  = (Ok (Some v),
     (suspended c rest failure,
      (s.1, World (calls s.2 ++ [StreamNext c]) (built s.2)))).
Proof.
  intros Hv. unfold Ollama.next, Ollama.loop_step. simpl. by rewrite Hv.
Qed.

Lemma Ollama_next_end env c s :
  Ollama.next env (suspended c [] None, s)
  = (Ok None,
     (Ollama.GenClosed, (s.1, World (calls s.2 ++ [StreamNext c]) (built s.2)))).
Proof. reflexivity. Qed.

Lemma world_calls_nil {O} (s : O * world) :
  (s.1, World (calls s.2 ++ []) (built s.2)) = s.
Proof. destruct s as [o [cs b]]. simpl. by rewrite app_nil_r. Qed.

Lemma Ollama_islice_S env n gs :
  Ollama.islice env (S n) gs
  = (let* x := Ollama.next env in
     match x with
     | None => ret []
     | Some v => let* vs := Ollama.islice env n in ret (v :: vs)
     end) gs.
Proof. reflexivity. Qed.

Lemma Ollama_islice_suspended env c failure (n : nat) :
  ∀ chunks contents s,
    Forall2 (λ chunk v, Ollama.chunk_content chunk = Ok v) chunks contents →
    (n ≤ length chunks)%nat →
    Ollama.islice env n (suspended c chunks failure, s)
    = (Ok (take n contents),
       (suspended c (drop n chunks) failure,
        (s.1, World (calls s.2 ++ replicate n (StreamNext c)) (built s.2)))).
Proof.
  induction n as [|n IH]; intros chunks contents s Hcontents Hn.
  - simpl. unfold ret. by rewrite world_calls_nil.
  - destruct Hcontents as [|chunk v chunks contents Hv Hcontents];
      simpl in Hn; [lia|].
    rewrite Ollama_islice_S.
    erewrite bind_ok by (by apply Ollama_next_chunk). cbv beta iota.
    erewrite bind_ok by (apply IH; [done | lia]).
    unfold ret. simpl. by rewrite <- app_assoc.
Qed.

Lemma Ollama_islice_drained env c (n : nat) :
  ∀ chunks contents s,
    Forall2 (λ chunk v, Ollama.chunk_content chunk = Ok v) chunks contents →
    (length chunks < n)%nat →
    Ollama.islice env n (suspended c chunks None, s)
    = (Ok contents,
       (Ollama.GenClosed,
        (s.1, World (calls s.2 ++ replicate (S (length chunks)) (StreamNext c))
                (built s.2)))).
Proof.
  induction n as [|n IH]; intros chunks contents s Hcontents Hn; [lia|].
  destruct Hcontents as [|chunk v chunks contents Hv Hcontents].
  - rewrite Ollama_islice_S.
    erewrite bind_ok by apply Ollama_next_end. reflexivity.
  - simpl in Hn. rewrite Ollama_islice_S.
    erewrite bind_ok by (by apply Ollama_next_chunk). cbv beta iota.
    erewrite bind_ok by (apply IH; [done | lia]).
    unfold ret. simpl. by rewrite <- app_assoc.
Qed.

(** The first [next] runs the body up to the loop, then behaves as any
    other. *)
Lemma Ollama_next_created env prompt llm_model kwargs s it s1 :
  Ollama.stream_open env prompt llm_model kwargs s = (Ok it, s1) →
  Ollama.next env (Ollama.GenCreated prompt llm_model kwargs, s)
  = Ollama.next env (Ollama.GenSuspended it, s1).
Proof. intros Hopen. unfold Ollama.next. simpl. by rewrite Hopen. Qed.

Lemma Ollama_islice_created env prompt llm_model kwargs s it s1 n :
  Ollama.stream_open env prompt llm_model kwargs s = (Ok it, s1) →
  Ollama.islice env (S n) (Ollama.GenCreated prompt llm_model kwargs, s)
  = Ollama.islice env (S n) (Ollama.GenSuspended it, s1).
Proof.
  intros Hopen. rewrite !Ollama_islice_S. unfold bind.
  by rewrite (Ollama_next_created env prompt llm_model kwargs s it s1).
Qed.

(** C9.  Whatever the prompt, when the backend answers the streaming
    request with a finite sequence of chunks, each with a message content,
    the generator of [generate_stream_text] yields those contents, one per
    chunk and in the order of the stream: its first [n] items are the
    contents of the first [n] chunks, and by then it has taken exactly [n]
    chunks from the stream; drained, it has yielded the contents of all the
    chunks and nothing else. *)
Theorem C9_stream_yields_chunk_contents_in_order
    env prompt llm_model kwargs gen s c s1 chunks contents failure :
  Ollama.generate_stream_text prompt (Some llm_model) kwargs = Ok gen →
  Ollama.client env s = (Ok c, s1) →
  kwargs !! "messages" = None → kwargs !! "model" = None →
  kwargs !! "stream" = None →
  transport env (calls s1.2) (Ollama_stream_request c prompt llm_model kwargs)
  = Ok (ChunkIterator chunks failure) →
  Forall2 (λ chunk v, Ollama.chunk_content chunk = Ok v) chunks contents →
  (∀ n : nat, (0 < n ≤ length chunks)%nat →
     Ollama.islice env n (gen, s)
     = (Ok (take n contents),
        (suspended c (drop n chunks) failure,
         (s1.1,
          World (calls s1.2
                 ++ Ollama_stream_request c prompt llm_model kwargs
                    :: replicate n (StreamNext c))
            (built s1.2)))))
  ∧ (failure = None → ∀ n : nat, (length chunks < n)%nat →
     Ollama.islice env n (gen, s)
     = (Ok contents,
        (Ollama.GenClosed,
         (s1.1,
          World (calls s1.2
                 ++ Ollama_stream_request c prompt llm_model kwargs
                    :: replicate (S (length chunks)) (StreamNext c))
            (built s1.2))))).
Proof.
  intros [= <-] Hc Hmessages Hmodel Hstream Hr Hcontents.
  pose proof (Ollama_stream_open_ok env prompt llm_model kwargs s c s1
                chunks failure Hc Hmessages Hmodel Hstream Hr) as Hopen.
  split.
  - intros [|n] [Hpos Hn]; [lia|].
    rewrite (Ollama_islice_created _ _ _ _ _ _ _ _ Hopen).
    fold (suspended c chunks failure).
    rewrite (Ollama_islice_suspended env c failure (S n) chunks contents) by done.
    simpl. by rewrite <- app_assoc.
  - intros -> [|n] Hn; [lia|].
    rewrite (Ollama_islice_created _ _ _ _ _ _ _ _ Hopen).
    fold (suspended c chunks None).
    rewrite (Ollama_islice_drained env c (S n) chunks contents) by done.
    simpl. by rewrite <- app_assoc.
Qed.

Lemma C9_witness :
  let s0 := (Ollama.__init__ stub_env (Some "http://localhost:11434"),
             init_world) in
  let gen := Ollama.GenCreated (PStr "hi") (Some "m2") ∅ in
  Ollama.generate_stream_text (PStr "hi") (Some (Some "m2")) ∅ = Ok gen
  ∧ (Ollama.islice stub_env 1 (gen, s0)).1 = Ok [PStr "Hel"]
  ∧ length (calls (Ollama.islice stub_env 1 (gen, s0)).2.2.2) = 2
  ∧ (Ollama.islice stub_env 2 (gen, s0)).1 = Ok [PStr "Hel"; PStr "lo"]
  ∧ (Ollama.islice stub_env 3 (gen, s0)).1 = Ok [PStr "Hel"; PStr "lo"]
  ∧ (Ollama.islice stub_env 3 (gen, s0)).2.1 = Ollama.GenClosed.
Proof.
  intros s0 gen.
  destruct (C9_stream_yields_chunk_contents_in_order stub_env (PStr "hi")
              (Some "m2") ∅ gen s0
              (OllamaClient 0 60 (Some "http://localhost:11434"))
              (Ollama.client stub_env s0).2
              [chunk_of "Hel"; chunk_of "lo"] [PStr "Hel"; PStr "lo"] None)
    as [Hfirst Hall];
    [reflexivity | reflexivity | reflexivity | reflexivity | reflexivity
    | reflexivity | by repeat constructor |].
  split; [reflexivity |].
  rewrite (Hfirst 1) by (simpl; lia).
  rewrite (Hfirst 2) by (simpl; lia).
  rewrite (Hall eq_refl 3) by (simpl; lia).
  by split_and!.
Defined.

(** * Further properties of the adapters *)

(** ** Gemini: where an error is translated and where it is not *)

(** X1.  On a Gemini adapter without an API key, [send_conversation]
    raises the [ValueError] of the [client] property as it is, while
    [generate_text] and [structured_response], which read the client inside
    their [try] block, raise a [RuntimeError] whose cause is that
    [ValueError].  In all three cases nothing is built and nothing is
    called. *)
Theorem X1_gemini_missing_key_per_method env s :
  truthy (Gemini.api_key s.1) = false →
  Gemini.client_cache s.1 = None →
  Gemini.structured_client_cache s.1 = None →
  let missing := ValueError "Gemini API key is required" in
  (∀ conv, Gemini.send_conversation env conv s = (Raise missing, s))
  ∧ (∀ prompt kwargs,
       Gemini.generate_text env prompt kwargs s
       = (Raise (RuntimeError_from
                   "Failed to generate text with Gemini API: Gemini API key is required"
                   missing), s))
  ∧ (∀ prompt rm kwargs,
       Gemini.structured_response env prompt rm kwargs s
       = (Raise (RuntimeError_from
                   "Failed to send structured response to Gemini API: Gemini API key is required"
                   missing), s)).
Proof.
  intros Hkey Hc Hsc missing.
  assert (Hclient : Gemini.client s = (Raise missing, s)).
  { destruct s as [o w]. by apply Gemini_client_missing_key. }
  split_and!.
  - intros conv. unfold Gemini.send_conversation, logger.
    by erewrite bind_raise by exact Hclient.
  - intros prompt kwargs.
    unfold Gemini.generate_text, logger, Gemini.pop_llm_model.
    unfold bind at 1. simpl. unfold bind at 1, try_except.
    by erewrite bind_raise by exact Hclient.
  - intros prompt rm kwargs.
    unfold Gemini.structured_response, logger, Gemini.pop_llm_model.
    unfold bind at 1. simpl. unfold try_except.
    assert (Gemini.structured_client s = (Raise missing, s)) as Hstructured.
    { unfold Gemini.structured_client. rewrite cached_property_miss by done.
      by erewrite bind_raise by exact Hclient. }
    by erewrite bind_raise by exact Hstructured.
Qed.

Lemma X1_witness :
  let s0 := (Gemini.__init__ stub_env None, init_world) in
  Gemini.send_conversation stub_env hello s0
  = (Raise (ValueError "Gemini API key is required"), s0)
  ∧ (Gemini.generate_text stub_env (PStr "hi") ∅ s0).1
    = Raise (Exn "RuntimeError"
               "Failed to generate text with Gemini API: Gemini API key is required"
               (Some (ValueError "Gemini API key is required"))).
Proof.
  intros s0.
  destruct (X1_gemini_missing_key_per_method stub_env s0)
    as (Hsend & Hgen & _); [reflexivity | reflexivity | reflexivity |].
  split; [apply Hsend |]. by rewrite Hgen.
Defined.

(** The replay stops at the first send that fails. *)
Lemma replay_fails env c pre x rest e (s : Gemini.t * world) :
  (∀ k y, pre !! k = Some y →
     ∃ r, transport env (calls s.2 ++ replay_sends c (take k pre))
            (SendMessage c (text y)) = Ok r) →
  transport env (calls s.2 ++ replay_sends c pre) (SendMessage c (text x))
  = Raise e →
  for_each (pre ++ x :: rest)
    (λ msg, let* _ := request env (SendMessage c (text msg)) in ret ()) s
  = (Raise e,
     (s.1, World (calls s.2 ++ replay_sends c (pre ++ [x])) (built s.2))).
Proof.
  revert s. induction pre as [|y pre IH]; intros s Hanswers He; simpl.
  - simpl in He. rewrite app_nil_r in He.
    erewrite bind_raise; [reflexivity|].
    erewrite bind_raise; [reflexivity|]. by rewrite request_run, He.
  - destruct (Hanswers 0 y eq_refl) as [r Hr]. simpl in Hr.
    rewrite app_nil_r in Hr.
    erewrite bind_ok;
      [|erewrite bind_ok; [reflexivity|]; rewrite request_run, Hr; reflexivity].
    rewrite IH; simpl.
    + by rewrite <- app_assoc.
    + intros k z Hz. destruct (Hanswers (S k) z Hz) as [r' Hr'].
      exists r'. simpl in Hr'. by rewrite <- app_assoc.
    + by rewrite <- app_assoc.
Qed.

(** X2.  In [send_conversation] of Gemini only the final send is inside
    the [try] block.  When opening the chat raises [e], or when the send of
    a message other than the last raises [e], the caller gets [e] itself,
    not a [RuntimeError], and none of the later messages is sent. *)
Theorem X2_gemini_context_failure_is_not_translated env conv s c s1 e :
  Gemini.client s = (Ok c, s1) →
  (transport env (calls s1.2) (StartChat c) = Raise e →
   Gemini.send_conversation env conv s
   = (Raise e, (s1.1, World (calls s1.2 ++ [StartChat c]) (built s1.2))))
  ∧ (∀ pre x rest r0,
       messages conv = pre ++ x :: rest → rest ≠ [] →
       transport env (calls s1.2) (StartChat c) = Ok r0 →
       (∀ k y, pre !! k = Some y →
          ∃ r, transport env
                 (calls s1.2 ++ StartChat c :: replay_sends c (take k pre))
                 (SendMessage c (text y)) = Ok r) →
       transport env (calls s1.2 ++ StartChat c :: replay_sends c pre)
         (SendMessage c (text x)) = Raise e →
       Gemini.send_conversation env conv s
       = (Raise e,
          (s1.1, World (calls s1.2 ++ StartChat c :: replay_sends c (pre ++ [x]))
                   (built s1.2)))).
Proof.
  intros Hc. split.
  - intros He. unfold Gemini.send_conversation, logger.
    erewrite bind_ok by exact Hc.
    erewrite bind_raise; [reflexivity|]. by rewrite request_run, He.
  - intros pre x rest r0 Hmsgs Hrest Hstart Hanswers He.
    unfold Gemini.send_conversation, logger.
    erewrite bind_ok by exact Hc.
    erewrite bind_ok by (rewrite request_run, Hstart; reflexivity).
    rewrite Hmsgs.
    replace (removelast (pre ++ x :: rest)) with (pre ++ x :: removelast rest);
      cycle 1.
    { rewrite removelast_app by done. simpl. by destruct rest. }
    erewrite bind_raise; [reflexivity|].
    rewrite (replay_fails env c pre x (removelast rest) e); simpl.
    + by rewrite <- app_assoc.
    + intros k y Hy. destruct (Hanswers k y Hy) as [r Hr]. exists r.
      by rewrite <- app_assoc.
    + by rewrite <- app_assoc.
Qed.

Lemma X2_witness :
  let s0 := (Gemini.__init__ refusing_env (Some "key"), init_world) in
  let c := GenerativeModel 0 Gemini.DEFAULT_MODEL in
  Gemini.send_conversation down_env two_turns
    (Gemini.__init__ down_env (Some "key"), init_world)
  = (Raise connection_error,
     (Gemini.set_client_cache c (Gemini.__init__ down_env (Some "key")),
      World [StartChat c] [c]))
  ∧ Gemini.send_conversation refusing_env two_turns s0
    = (Raise connection_error,
       (Gemini.set_client_cache c (Gemini.__init__ refusing_env (Some "key")),
        World [StartChat c; SendMessage c (PStr "hello")] [c])).
Proof.
  intros s0 c. split.
  - set (d0 := (Gemini.__init__ down_env (Some "key"), init_world)).
    destruct (X2_gemini_context_failure_is_not_translated down_env two_turns
                d0 c (Gemini.client d0).2 connection_error eq_refl)
      as [Hstart _].
    by rewrite Hstart.
  - destruct (X2_gemini_context_failure_is_not_translated refusing_env
                two_turns s0 c (Gemini.client s0).2 connection_error eq_refl)
      as [_ Hreplay].
    rewrite (Hreplay [] (user_message "hello") [user_message "again"]
               (Mapping ∅)); [reflexivity | reflexivity | discriminate
                             | reflexivity | | reflexivity].
    intros k y Hy. by destruct k.
Defined.

(** X3.  [generate_text] of Gemini asks once, with every keyword argument
    of the caller except [llm_model], and returns the text of the answer.
    An answer whose [text] property raises makes [generate_text] raise
    that very exception: reading the text is outside the [try] block. *)
Theorem X3_gemini_generate_text_outcome env prompt kwargs s c s1 text :
  Gemini.client s = (Ok c, s1) →
  transport env (calls s1.2)
    (GenerateContent c prompt (delete "llm_model" kwargs))
  = Ok (GenerateContentResponse text) →
  Gemini.generate_text env prompt kwargs s
  = (text,
     (s1.1,
      World (calls s1.2 ++ [GenerateContent c prompt (delete "llm_model" kwargs)])
        (built s1.2))).
Proof.
  intros Hc Hr. unfold Gemini.generate_text, logger, Gemini.pop_llm_model.
  unfold bind at 1. simpl. unfold bind at 1, try_except.
  erewrite bind_ok by exact Hc. rewrite request_run, Hr. simpl.
  by destruct text.
Qed.

Lemma X3_witness :
  let s0 := (Gemini.__init__ stub_env (Some "key"), init_world) in
  let kwargs : gmap string pyval :=
    {[ "llm_model" := PStr "m2"; "temperature" := PInt 0 ]} in
  (Gemini.generate_text stub_env (PStr "hi") kwargs s0).1 = Ok "pong"
  ∧ calls (Gemini.generate_text stub_env (PStr "hi") kwargs s0).2.2
    = [GenerateContent (GenerativeModel 0 Gemini.DEFAULT_MODEL) (PStr "hi")
         {[ "temperature" := PInt 0 ]}].
Proof.
  intros s0 kwargs.
  rewrite (X3_gemini_generate_text_outcome stub_env (PStr "hi") kwargs s0
             (GenerativeModel 0 Gemini.DEFAULT_MODEL) (Gemini.client s0).2
             (Ok "pong")) by reflexivity.
  split; [reflexivity | vm_compute; reflexivity].
Defined.

(** ** Groq: clients, credential and answers *)

Lemma Groq_structured_response_run env prompt rm s sc s1 :
  Groq.structured_client s = (Ok sc, s1) →
  let req := CompletionsCreate sc None (user_prompt prompt)
               (Some (schema_name rm)) ∅ in
  Groq.structured_response env prompt rm s
  = (transport env (calls s1.2) req,
     (s1.1, World (calls s1.2 ++ [req]) (built s1.2))).
Proof.
  intros Hsc req. unfold Groq.structured_response.
  erewrite bind_ok by exact Hsc. by rewrite request_run.
Qed.

(** X4.  A Groq adapter with a key builds its clients anew in every
    operation, whatever the backend answers: [send_conversation] builds one
    client, [structured_response] and [generate_text] build a client and
    its Instructor wrapper, and the adapter itself is left as it was.  So
    [n] conversations sent over one adapter build [n] clients. *)
Theorem X4_groq_builds_clients_in_every_call env s :
  truthy (Groq.api_key s.1) = true →
  let c := GroqClient (length (built s.2)) (Groq.api_key s.1) in
  let sc := Instructor (S (length (built s.2))) c None in
  (∀ conv, let s' := (Groq.send_conversation env conv s).2 in
           s'.1 = s.1 ∧ built s'.2 = built s.2 ++ [c])
  ∧ (∀ prompt rm, let s' := (Groq.structured_response env prompt rm s).2 in
                  s'.1 = s.1 ∧ built s'.2 = built s.2 ++ [c; sc])
  ∧ (∀ prompt llm_model,
       let s' := (Groq.generate_text env prompt (Some llm_model) s).2 in
       s'.1 = s.1 ∧ built s'.2 = built s.2 ++ [c; sc])
  ∧ (∀ conv (n : nat),
       length (built (Nat.iter n (λ s, (Groq.send_conversation env conv s).2) s).2)
       = (length (built s.2) + n)%nat).
Proof.
  intros Hkey c sc.
  pose proof (Groq_client_ok s Hkey) as Hc.
  pose proof (Groq_structured_client_ok s Hkey) as Hsc. simpl in Hsc.
  split_and!.
  - intros conv s'. unfold s'.
    by rewrite (Groq_send_conversation_trace env conv s _ _ Hc).
  - intros prompt rm s'. unfold s'.
    by rewrite (Groq_structured_response_run env prompt rm s _ _ Hsc).
  - intros prompt llm_model s'. unfold s'.
    by rewrite (Groq_generate_text_trace env prompt llm_model s _ _ Hsc).
  - intros conv n. clear c sc Hc Hsc. induction n as [|n IH]; simpl; [lia|].
    set (sn := Nat.iter n _ s) in *.
    assert (Hkeyn : truthy (Groq.api_key sn.1) = true ∧ True).
    { split; [|done]. unfold sn. clear IH sn.
      induction n as [|n IHn]; simpl; [done|].
      set (sn := Nat.iter n _ s) in *.
      by rewrite (Groq_send_conversation_trace env conv sn _ _
                    (Groq_client_ok sn IHn)). }
    destruct Hkeyn as [Hkeyn _].
    rewrite (Groq_send_conversation_trace env conv sn _ _
               (Groq_client_ok sn Hkeyn)).
    simpl. rewrite length_app, IH. simpl. lia.
Qed.

Lemma X4_witness :
  let s0 := (Groq.__init__ down_env (Some "key"), init_world) in
  built (Groq.send_conversation down_env hello s0).2.2
  = [GroqClient 0 (Some "key")]
  ∧ built (Groq.generate_text down_env (PStr "hi") (Some (Some "m2")) s0).2.2
    = [GroqClient 0 (Some "key"); Instructor 1 (GroqClient 0 (Some "key")) None]
  ∧ length (built (Nat.iter 3 (λ s, (Groq.send_conversation down_env hello s).2)
                     s0).2) = 3.
Proof.
  intros s0.
  destruct (X4_groq_builds_clients_in_every_call down_env s0 eq_refl)
    as (Hsend & _ & Hgen & Hiter).
  split_and!.
  - apply (Hsend hello).
  - apply (Hgen (PStr "hi") (Some "m2")).
  - apply (Hiter hello 3).
Defined.

(** X5.  On a Groq adapter without a key every operation raises the
    [ValueError] of the [client] property, and leaves no trace: nothing is
    built and nothing is called. *)
Theorem X5_groq_missing_key_stops_every_operation env s :
  truthy (Groq.api_key s.1) = false →
  let missing := ValueError "Groq API key is required" in
  (∀ conv, Groq.send_conversation env conv s = (Raise missing, s))
  ∧ (∀ prompt rm, Groq.structured_response env prompt rm s = (Raise missing, s))
  ∧ (∀ prompt llm_model,
       Groq.generate_text env prompt (Some llm_model) s = (Raise missing, s)).
Proof.
  intros Hkey missing.
  assert (Hc : Groq.client s = (Raise missing, s)).
  { destruct s as [o w]. by apply Groq_client_missing_key. }
  assert (Hsc : Groq.structured_client s = (Raise missing, s)).
  { unfold Groq.structured_client. by erewrite bind_raise by exact Hc. }
  split_and!.
  - intros conv. unfold Groq.send_conversation.
    by erewrite bind_raise by exact Hc.
  - intros prompt rm. unfold Groq.structured_response.
    by erewrite bind_raise by exact Hsc.
  - intros prompt llm_model. unfold Groq.generate_text.
    by erewrite bind_raise by exact Hsc.
Qed.

Lemma X5_witness :
  let s0 := (Groq.__init__ stub_env (Some ""), init_world) in
  Groq.send_conversation stub_env hello s0
  = (Raise (ValueError "Groq API key is required"), s0)
  ∧ Groq.structured_response stub_env (PStr "hi") answer_schema s0
    = (Raise (ValueError "Groq API key is required"), s0)
  ∧ Groq.generate_text stub_env (PStr "hi") (Some (Some "m2")) s0
    = (Raise (ValueError "Groq API key is required"), s0).
Proof.
  intros s0.
  destruct (X5_groq_missing_key_stops_every_operation stub_env s0 eq_refl)
    as (Hsend & Hstruct & Hgen).
  split_and!; [apply Hsend | apply Hstruct | apply Hgen].
Defined.

(** X6.  [generate_text] of Groq returns the content of the first choice
    as the backend gave it, a null content included (only
    [send_conversation] puts the empty string in its place).  When the
    answer has no choice, [generate_text] and [send_conversation] raise
    [IndexError], after the request was made. *)
Theorem X6_groq_first_choice env s :
  (∀ prompt llm_model sc s1 choices,
     Groq.structured_client s = (Ok sc, s1) →
     transport env (calls s1.2)
       (CompletionsCreate sc (Some llm_model) (user_prompt prompt) None ∅)
     = Ok (ChatCompletion choices) →
     (Groq.generate_text env prompt (Some llm_model) s).1
     = match choices with
       | content :: _ => Ok content
       | [] => Raise (IndexError "list index out of range")
       end)
  ∧ (∀ conv c s1,
       Groq.client s = (Ok c, s1) →
       transport env (calls s1.2) (Groq_conversation_request c conv)
       = Ok (ChatCompletion []) →
       Groq.send_conversation env conv s
       = (Raise (IndexError "list index out of range"),
          (s1.1, World (calls s1.2 ++ [Groq_conversation_request c conv])
                   (built s1.2)))).
Proof.
  split.
  - intros prompt llm_model sc s1 choices Hsc Hr. unfold Groq.generate_text.
    erewrite bind_ok by exact Hsc.
    erewrite bind_ok by (rewrite request_run, Hr; reflexivity).
    by destruct choices.
  - intros conv c s1 Hc Hr. unfold Groq.send_conversation.
    erewrite bind_ok by exact Hc.
    fold (Groq_conversation_request c conv).
    erewrite bind_ok by (rewrite request_run, Hr; reflexivity).
    reflexivity.
Qed.

Lemma X6_witness :
  let s0 := (Groq.__init__ bare_env (Some "key"), init_world) in
  (Groq.generate_text bare_env (PStr "hi") (Some (Some "m2")) s0).1 = Ok None.
Proof.
  intros s0.
  destruct (X6_groq_first_choice bare_env s0) as [Hgen _].
  apply (Hgen (PStr "hi") (Some "m2")
           (Instructor 1 (GroqClient 0 (Some "key")) None)
           (Groq.structured_client s0).2 [None]); reflexivity.
Defined.

(** ** Ollama: clients, keyword arguments and answers *)

(** X7.  The [client] property of Ollama checks the host before it
    imports the package.  Without a host it raises [ValueError] whether or
    not the package is there; with a host and a failing import it raises an
    [ImportError] that tells how to install the package and carries the
    original one as its cause (another kind of exception passes as it is);
    in both cases nothing is built or stored, so the next access tries
    again.  With a host and the package it builds a client for that host
    with the default timeout and stores it. *)
Theorem X7_ollama_client_outcomes env s :
  Ollama.client_cache s.1 = None →
  (truthy (Ollama.host_url s.1) = false →
   Ollama.client env s = (Raise (ValueError "No ollama host url provided"), s))
  ∧ (truthy (Ollama.host_url s.1) = true →
     ∀ exc, import_ollama env = Raise exc →
     Ollama.client env s
     = (Raise (if Ollama.is_ImportError exc
               then ImportError_from
                      "Please install the `ollama` package: `pip install ollama`" exc
               else exc), s))
  ∧ (truthy (Ollama.host_url s.1) = true →
     import_ollama env = Ok () →
     let h := OllamaClient (length (built s.2)) 60 (Ollama.host_url s.1) in
     Ollama.client env s
     = (Ok h, (Ollama.set_client_cache h s.1,
               World (calls s.2) (built s.2 ++ [h])))).
Proof.
  intros Hnone. split_and!.
  - intros Hhost. destruct s as [o w]. by apply Ollama_client_missing_host.
  - intros Hhost exc Himport. unfold Ollama.client.
    rewrite cached_property_miss by done.
    unfold bind, get_self, raise. simpl. rewrite Hhost, Himport. simpl.
    by destruct (Ollama.is_ImportError exc).
  - intros Hhost Himport h. unfold Ollama.client.
    rewrite cached_property_miss by done.
    unfold bind, get_self, construct. simpl. by rewrite Hhost, Himport.
Qed.

Lemma X7_witness :
  let missing := Exn "ModuleNotFoundError" "No module named 'ollama'" None in
  Ollama.client broken_stream_env (Ollama.__init__ broken_stream_env None, init_world)
  = (Raise (ValueError "No ollama host url provided"),
     (Ollama.__init__ broken_stream_env None, init_world))
  ∧ Ollama.client broken_stream_env
      (Ollama.__init__ broken_stream_env (Some "http://localhost:11434"), init_world)
    = (Raise (Exn "ImportError"
                "Please install the `ollama` package: `pip install ollama`"
                (Some missing)),
       (Ollama.__init__ broken_stream_env (Some "http://localhost:11434"),
        init_world))
  ∧ (Ollama.client stub_env
       (Ollama.__init__ stub_env (Some "http://localhost:11434"), init_world)).1
    = Ok (OllamaClient 0 60 (Some "http://localhost:11434")).
Proof.
  intros missing. split_and!.
  - destruct (X7_ollama_client_outcomes broken_stream_env
                (Ollama.__init__ broken_stream_env None, init_world) eq_refl)
      as (Hhost & _ & _).
    by apply Hhost.
  - destruct (X7_ollama_client_outcomes broken_stream_env
                (Ollama.__init__ broken_stream_env (Some "http://localhost:11434"),
                 init_world) eq_refl)
      as (_ & Himport & _).
    by rewrite (Himport eq_refl missing eq_refl).
  - destruct (X7_ollama_client_outcomes stub_env
                (Ollama.__init__ stub_env (Some "http://localhost:11434"),
                 init_world) eq_refl)
      as (_ & _ & Hok).
    by rewrite (Hok eq_refl eq_refl).
Defined.

Lemma Ollama_structured_client_first s :
  Ollama.structured_client_cache s.1 = None →
  let inner := OpenAI (length (built s.2))
                 (py_str (Ollama.host_url s.1) +:+ "/v1") "ollama" in
  let sc := Instructor (S (length (built s.2))) inner (Some "JSON") in
  Ollama.structured_client s
  = (Ok sc, (Ollama.set_structured_client_cache sc s.1,
             World (calls s.2) (built s.2 ++ [inner; sc]))).
Proof.
  intros Hnone inner sc. unfold Ollama.structured_client.
  rewrite cached_property_miss by done.
  unfold bind, get_self, construct. simpl.
  rewrite length_app, Nat.add_1_r. simpl. by rewrite <- app_assoc.
Qed.

Lemma Ollama_structured_response_run env prompt rm llm_model kwargs s sc s1 :
  Ollama.structured_client s = (Ok sc, s1) →
  kwargs !! "messages" = None → kwargs !! "model" = None →
  kwargs !! "response_model" = None →
  let req := CompletionsCreate sc
               (Some (Some (or_default llm_model Ollama.DEFAULT_MODEL)))
               (user_prompt prompt) (Some (schema_name rm)) kwargs in
  Ollama.structured_response env prompt rm llm_model kwargs s
  = (match transport env (calls s1.2) req with
     | Ok r => model_validate rm r
     | Raise e => Raise e
     end,
     (s1.1, World (calls s1.2 ++ [req]) (built s1.2))).
Proof.
  intros Hsc Hmessages Hmodel Hrm req. unfold Ollama.structured_response, logger.
  erewrite bind_ok by exact Hsc. rewrite merge_kwargs_id.
  erewrite bind_ok by (apply check_kwargs_ok; by repeat constructor).
  unfold bind. rewrite request_run. fold req.
  by destruct (transport env (calls s1.2) req).
Qed.

(** X8.  The structured client of Ollama never reads the [client]
    property: its first access succeeds without a host and without the
    [ollama] package, and builds an OpenAI client for "<host>/v1" ("None/v1"
    when there is no host) wrapped by Instructor in JSON mode.  So
    [structured_response] makes its request even on an adapter whose
    [client] raises. *)
Theorem X8_ollama_structured_client_needs_no_host env s :
  Ollama.structured_client_cache s.1 = None →
  let inner := OpenAI (length (built s.2))
                 (py_str (Ollama.host_url s.1) +:+ "/v1") "ollama" in
  let sc := Instructor (S (length (built s.2))) inner (Some "JSON") in
  Ollama.structured_client s
  = (Ok sc, (Ollama.set_structured_client_cache sc s.1,
             World (calls s.2) (built s.2 ++ [inner; sc])))
  ∧ ∀ prompt rm llm_model,
      calls (Ollama.structured_response env prompt rm llm_model ∅ s).2.2
      = calls s.2
        ++ [CompletionsCreate sc
              (Some (Some (or_default llm_model Ollama.DEFAULT_MODEL)))
              (user_prompt prompt) (Some (schema_name rm)) ∅].
Proof.
  intros Hnone inner sc.
  pose proof (Ollama_structured_client_first s Hnone) as Hsc. simpl in Hsc.
  split; [exact Hsc|]. intros prompt rm llm_model.
  by rewrite (Ollama_structured_response_run env prompt rm llm_model ∅ s _ _ Hsc).
Qed.

Lemma X8_witness :
  let s0 := (Ollama.__init__ broken_stream_env None, init_world) in
  let sc := Instructor 1 (OpenAI 0 "None/v1" "ollama") (Some "JSON") in
  (Ollama.client broken_stream_env s0).1
  = Raise (ValueError "No ollama host url provided")
  ∧ (Ollama.structured_client s0).1 = Ok sc
  ∧ calls (Ollama.structured_response broken_stream_env (PStr "hi")
             answer_schema None ∅ s0).2.2
    = [CompletionsCreate sc (Some (Some "llama3.2")) (user_prompt (PStr "hi"))
         (Some "ResponseModel") ∅].
Proof.
  intros s0 sc.
  destruct (X8_ollama_structured_client_needs_no_host broken_stream_env s0 eq_refl)
    as [Hsc Hreq].
  split_and!; [reflexivity | by rewrite Hsc |].
  apply (Hreq (PStr "hi") answer_schema None).
Defined.

(** X9.  [structured_response] of Ollama hands the answer of the backend
    to [model_validate] of the response model and returns what that
    returns; an exception of the request or of the validation reaches the
    caller as it is.  The request names the model passed, or the default
    model. *)
Theorem X9_ollama_structured_response_validates
    env prompt rm llm_model kwargs s sc s1 :
  Ollama.structured_client s = (Ok sc, s1) →
  kwargs !! "messages" = None → kwargs !! "model" = None →
  kwargs !! "response_model" = None →
  let req := CompletionsCreate sc
               (Some (Some (or_default llm_model Ollama.DEFAULT_MODEL)))
               (user_prompt prompt) (Some (schema_name rm)) kwargs in
  (∀ r, transport env (calls s1.2) req = Ok r →
        (Ollama.structured_response env prompt rm llm_model kwargs s).1
        = model_validate rm r)
  ∧ (∀ e, transport env (calls s1.2) req = Raise e →
          (Ollama.structured_response env prompt rm llm_model kwargs s).1
          = Raise e).
Proof.
  intros Hsc Hmessages Hmodel Hrm req.
  rewrite (Ollama_structured_response_run env prompt rm llm_model kwargs s sc s1)
    by done.
  fold req. split; intros x Hx; by rewrite Hx.
Qed.

Lemma X9_witness :
  let s0 := (Ollama.__init__ stub_env None, init_world) in
  let strict := {| schema_name := "ResponseModel";
                   model_validate := λ _, Raise (ValueError "validation error") |} in
  (Ollama.structured_response stub_env (PStr "hi") answer_schema (Some "m2") ∅ s0).1
  = Ok (ModelInstance "ResponseModel" {[ "result" := PInt 4 ]})
  ∧ (Ollama.structured_response stub_env (PStr "hi") strict None ∅ s0).1
    = Raise (ValueError "validation error").
Proof.
  intros s0 strict. split.
  - destruct (X9_ollama_structured_response_validates stub_env (PStr "hi")
                answer_schema (Some "m2") ∅ s0
                (Instructor 1 (OpenAI 0 "None/v1" "ollama") (Some "JSON"))
                (Ollama.structured_client s0).2)
      as [Hok _]; [reflexivity | reflexivity | reflexivity | reflexivity |].
    by rewrite (Hok (ModelInstance "ResponseModel" {[ "result" := PInt 4 ]})).
  - destruct (X9_ollama_structured_response_validates stub_env (PStr "hi")
                strict None ∅ s0
                (Instructor 1 (OpenAI 0 "None/v1" "ollama") (Some "JSON"))
                (Ollama.structured_client s0).2)
      as [Hok _]; [reflexivity | reflexivity | reflexivity | reflexivity |].
    by rewrite (Hok (ModelInstance "ResponseModel" {[ "result" := PInt 4 ]})).
Defined.

Lemma check_kwargs_collision {S} explicit (kwargs : gmap string pyval) (s : S) k :
  k ∈ explicit → is_Some (kwargs !! k) →
  ∃ e, check_kwargs explicit kwargs s = (Raise e, s) ∧ exn_class e = "TypeError".
Proof.
  intros Hin Hsome. unfold check_kwargs.
  destruct (filter _ explicit) as [|k' ks] eqn:Hfilter.
  - assert (k ∈ filter (λ k, is_Some (kwargs !! k)) explicit) as Hk
      by (by apply list_elem_of_filter).
    rewrite Hfilter in Hk. by apply not_elem_of_nil in Hk.
  - by eexists.
Qed.



(** X11.  The Ollama methods pass the keyword arguments of the caller on
    to the client next to their own [model] and [messages].  A caller who
    passes one of these two names gets a [TypeError]; no request is made,
    but the client has been read first, so it is built and stored by
    then. *)
Theorem X11_ollama_keyword_collision env kwargs s c s1 :
  Ollama.client env s = (Ok c, s1) →
  is_Some (kwargs !! "model") ∨ is_Some (kwargs !! "messages") →
  (∀ conv, ∃ e, Ollama.send_conversation env conv kwargs s = (Raise e, s1)
                ∧ exn_class e = "TypeError")
  ∧ (∀ prompt llm_model,
       ∃ e, Ollama.generate_text env prompt llm_model kwargs s = (Raise e, s1)
            ∧ exn_class e = "TypeError")
  ∧ calls s1.2 = calls s.2
  ∧ Ollama.client_cache s1.1 = Some c.
Proof.
  intros Hc Hcollision.
  assert (∃ k, (k = "model" ∨ k = "messages") ∧ is_Some (kwargs !! k))
    as (k & Hk & Hsome).
  { destruct Hcollision; [exists "model" | exists "messages"]; auto. }
  split_and!.
  - intros conv. unfold Ollama.send_conversation, logger.
    erewrite bind_ok by exact Hc. rewrite merge_kwargs_id.
    destruct (check_kwargs_collision ["model"; "messages"] kwargs s1 k)
      as (e & He & Hcls); [|done|].
    { destruct Hk as [-> | ->]; repeat constructor. }
    exists e. split; [|done]. by erewrite bind_raise by exact He.
  - intros prompt llm_model. unfold Ollama.generate_text, logger.
    erewrite bind_ok by exact Hc. rewrite merge_kwargs_id.
    destruct (check_kwargs_collision ["messages"; "model"] kwargs s1 k)
      as (e & He & Hcls); [|done|].
    { destruct Hk as [-> | ->]; repeat constructor. }
    exists e. split; [|done]. by erewrite bind_raise by exact He.
  - by eapply Ollama_client_calls.
  - by eapply Ollama_client_stores.
Qed.

Lemma X11_witness :
  let s0 := (Ollama.__init__ stub_env (Some "http://localhost:11434"), init_world) in
  let kwargs : gmap string pyval := {[ "model" := PStr "m2" ]} in
  ∃ e, (Ollama.send_conversation stub_env hello kwargs s0).1 = Raise e
       ∧ exn_class e = "TypeError"
       ∧ calls (Ollama.send_conversation stub_env hello kwargs s0).2.2 = []
       ∧ built (Ollama.send_conversation stub_env hello kwargs s0).2.2
         = [OllamaClient 0 60 (Some "http://localhost:11434")].
Proof.
  intros s0 kwargs.
  destruct (X11_ollama_keyword_collision stub_env kwargs s0
              (OllamaClient 0 60 (Some "http://localhost:11434"))
              (Ollama.client stub_env s0).2 eq_refl)
    as (Hsend & _ & _ & _).
  { left. by eexists. }
  destruct (Hsend hello) as (e & Hrun & Hcls).
  exists e. rewrite Hrun. by split_and!.
Defined.

(** ** Ollama: how a stream ends badly *)

Lemma Ollama_islice_prefix env c failure good contents rest s :
  Forall2 (λ chunk v, Ollama.chunk_content chunk = Ok v) good contents →
  Ollama.islice env (length good) (suspended c (good ++ rest) failure, s)
  = (Ok contents,
     (suspended c rest failure,
      (s.1, World (calls s.2 ++ replicate (length good) (StreamNext c))
              (built s.2)))).
Proof.
  intros Hgood. revert s.
  induction Hgood as [|chunk v good contents Hv _ IH]; intros s.
  - simpl. unfold ret. by rewrite world_calls_nil.
  - simpl length. rewrite Ollama_islice_S. simpl app.
    erewrite bind_ok by (by apply Ollama_next_chunk). cbv beta iota.
    erewrite bind_ok by apply IH.
    unfold ret. simpl. by rewrite <- app_assoc.
Qed.

Lemma Ollama_next_fails env c rest failure e s :
  match rest with
  | [] => failure = Some e
  | bad :: _ => Ollama.chunk_content bad = Raise e
  end →
  Ollama.next env (suspended c rest failure, s)
  = (Raise e,
     (Ollama.GenClosed, (s.1, World (calls s.2 ++ [StreamNext c]) (built s.2)))).
Proof.
  intros Hfail. unfold Ollama.next, Ollama.loop_step. simpl.
  destruct rest as [|bad rest']; simpl; by rewrite Hfail.
Qed.

(** X12.  When, after some good chunks, the stream raises, or delivers a
    chunk that has no message content, the generator has yielded the
    contents of the good chunks by then; the next [next] raises the
    exception of the stream (respectively the [KeyError] or [TypeError] of
    the subscript), and finishes the generator: it has taken one chunk more
    than it yielded, reads no chunk after that, and a further [next] only
    reports the end. *)
Theorem X12_stream_failure_finishes_the_generator
    env prompt llm_model kwargs s c s1 good rest failure contents e :
  Ollama.client env s = (Ok c, s1) →
  kwargs !! "messages" = None → kwargs !! "model" = None →
  kwargs !! "stream" = None →
  transport env (calls s1.2) (Ollama_stream_request c prompt llm_model kwargs)
  = Ok (ChunkIterator (good ++ rest) failure) →
  Forall2 (λ chunk v, Ollama.chunk_content chunk = Ok v) good contents →
  match rest with
  | [] => failure = Some e
  | bad :: _ => Ollama.chunk_content bad = Raise e
  end →
  ∃ gs s',
    Ollama.islice env (length good)
      (Ollama.GenCreated prompt llm_model kwargs, s) = (Ok contents, gs)
    ∧ Ollama.next env gs = (Raise e, (Ollama.GenClosed, s'))
    ∧ calls s'.2
      = calls s1.2 ++ Ollama_stream_request c prompt llm_model kwargs
                      :: replicate (S (length good)) (StreamNext c)
    ∧ Ollama.next env (Ollama.GenClosed, s') = (Ok None, (Ollama.GenClosed, s')).
Proof.
  intros Hc Hmessages Hmodel Hstream Hr Hgood Hfail.
  pose proof (Ollama_stream_open_ok env prompt llm_model kwargs s c s1
                (good ++ rest) failure Hc Hmessages Hmodel Hstream Hr) as Hopen.
  destruct Hgood as [|chunk v good contents Hv Hgood].
  - eexists _, _. split_and!; [reflexivity | | | reflexivity].
    + rewrite (Ollama_next_created _ _ _ _ _ _ _ Hopen).
      by apply (Ollama_next_fails env c rest failure e).
    + simpl. by rewrite <- app_assoc.
  - eexists _, _. split_and!; [| | | reflexivity].
    + simpl length. rewrite (Ollama_islice_created _ _ _ _ _ _ _ _ Hopen).
      apply (Ollama_islice_prefix env c failure (chunk :: good) (v :: contents)).
      by constructor.
    + by apply Ollama_next_fails.
    + simpl. rewrite <- !app_assoc. simpl. do 3 f_equal.
      by rewrite <- replicate_S_end.
Qed.

Lemma X12_witness :
  let s0 := (Ollama.__init__ stub_env (Some "http://localhost:11434"), init_world) in
  let gen := Ollama.GenCreated (PStr "hi") None ∅ in
  let broken := {| transport := transport broken_stream_env;
                   get_api_key := λ _, None;
                   OLLAMA_HOST_URL := None;
                   import_ollama := Ok () |} in
  ∃ gs s',
    Ollama.islice broken 1 (gen, s0) = (Ok [PStr "Hel"], gs)
    ∧ Ollama.next broken gs = (Raise (KeyError "message"), (Ollama.GenClosed, s'))
    ∧ length (calls s'.2) = 3
    ∧ Ollama.next broken (Ollama.GenClosed, s') = (Ok None, (Ollama.GenClosed, s')).
Proof.
  intros s0 gen broken.
  destruct (X12_stream_failure_finishes_the_generator broken (PStr "hi") None ∅
              s0 (OllamaClient 0 60 (Some "http://localhost:11434"))
              (Ollama.client broken s0).2
              [chunk_of "Hel"] [PDict ∅; chunk_of "lo"] (Some connection_error)
              [PStr "Hel"] (KeyError "message"))
    as (gs & s' & Hslice & Hnext & Hcalls & Hclosed);
    [reflexivity | reflexivity | reflexivity | reflexivity | reflexivity
    | by repeat constructor | reflexivity |].
  exists gs, s'. split_and!; [exact Hslice | exact Hnext | | exact Hclosed].
  by rewrite Hcalls.
Defined.

(** X13.  The body of [generate_stream_text] runs at the first [next].
    When the client cannot be had, or the streaming request raises, that
    [next] raises the exception and the generator is finished: a further
    [next] reports the end and does not ask again.  A call without
    [llm_model] never makes a generator: it raises [TypeError]. *)
Theorem X13_stream_setup_failure_finishes_the_generator
    env prompt llm_model kwargs s :
  (∀ e s1, Ollama.client env s = (Raise e, s1) →
     Ollama.next env (Ollama.GenCreated prompt llm_model kwargs, s)
     = (Raise e, (Ollama.GenClosed, s1))
     ∧ calls s1.2 = calls s.2)
  ∧ (∀ c s1 e,
       Ollama.client env s = (Ok c, s1) →
       kwargs !! "messages" = None → kwargs !! "model" = None →
       kwargs !! "stream" = None →
       transport env (calls s1.2)
         (Ollama_stream_request c prompt llm_model kwargs) = Raise e →
       let s' := (s1.1,
                  World (calls s1.2
                         ++ [Ollama_stream_request c prompt llm_model kwargs])
                    (built s1.2)) in
       Ollama.next env (Ollama.GenCreated prompt llm_model kwargs, s)
       = (Raise e, (Ollama.GenClosed, s'))
       ∧ Ollama.next env (Ollama.GenClosed, s') = (Ok None, (Ollama.GenClosed, s')))
  ∧ (∃ e, Ollama.generate_stream_text prompt None kwargs = Raise e
          ∧ exn_class e = "TypeError").
Proof.
  split_and!.
  - intros e s1 Hc. split; [|by eapply Ollama_client_calls].
    unfold Ollama.next. simpl. unfold Ollama.stream_open.
    by erewrite bind_raise by exact Hc.
  - intros c s1 e Hc Hmessages Hmodel Hstream He s'. split; [|done].
    unfold Ollama.next. simpl. unfold Ollama.stream_open.
    erewrite bind_ok by exact Hc. rewrite merge_kwargs_id.
    erewrite bind_ok by (apply check_kwargs_ok; by repeat constructor).
    fold (Ollama_stream_request c prompt llm_model kwargs).
    erewrite bind_raise; [reflexivity|]. by rewrite request_run, He.
  - by eexists.
Qed.

Lemma X13_witness :
  let gen := Ollama.GenCreated (PStr "hi") (Some "m2") ∅ in
  (let s0 := (Ollama.__init__ down_env None, init_world) in
   Ollama.next down_env (gen, s0)
   = (Raise (ValueError "No ollama host url provided"), (Ollama.GenClosed, s0)))
  ∧ (let s0 := (Ollama.__init__ down_env (Some "http://localhost:11434"),
                init_world) in
     (Ollama.next down_env (gen, s0)).1 = Raise connection_error
     ∧ (Ollama.next down_env (gen, s0)).2.1 = Ollama.GenClosed).
Proof.
  intros gen. split.
  - intros s0.
    destruct (X13_stream_setup_failure_finishes_the_generator down_env
                (PStr "hi") (Some "m2") ∅ s0) as (Hclient & _ & _).
    by destruct (Hclient (ValueError "No ollama host url provided") s0 eq_refl).
  - intros s0.
    destruct (X13_stream_setup_failure_finishes_the_generator down_env
                (PStr "hi") (Some "m2") ∅ s0) as (_ & Hrequest & _).
    destruct (Hrequest (OllamaClient 0 60 (Some "http://localhost:11434"))
                (Ollama.client down_env s0).2 connection_error)
      as [Hnext _]; [reflexivity | reflexivity | reflexivity | reflexivity
                    | reflexivity |].
    unfold gen. by rewrite Hnext.
Defined.

(** ** How many calls an operation makes *)

Section CallsAtMost.
Context {O : Type}.
Implicit Types n : nat.

Lemma calls_at_most_unchanged {A} (m : M (O * world) A) n :
  (∀ s, calls (m s).2.2 = calls s.2) → calls_at_most n m.
Proof. intros Hm s. exists []. rewrite app_nil_r. split; [done | simpl; lia]. Qed.

Lemma calls_at_most_weaken {A} (m : M (O * world) A) n n' :
  (n ≤ n')%nat → calls_at_most n m → calls_at_most n' m.
Proof. intros Hle Hm s. destruct (Hm s) as (cs & ? & ?). exists cs. split; [done | lia]. Qed.

Lemma calls_at_most_ret {A} (a : A) n : calls_at_most (O:=O) n (ret a).
Proof. by apply calls_at_most_unchanged. Qed.

Lemma calls_at_most_raise {A} e n : calls_at_most (O:=O) n (raise (A:=A) e).
Proof. by apply calls_at_most_unchanged. Qed.

Lemma calls_at_most_lift_result {A} (r : result A) n :
  calls_at_most (O:=O) n (lift_result r).
Proof. by apply calls_at_most_unchanged. Qed.

Lemma calls_at_most_get_self n : calls_at_most (O:=O) n get_self.
Proof. by apply calls_at_most_unchanged. Qed.

Lemma calls_at_most_construct mk n : calls_at_most (O:=O) n (construct mk).
Proof. by apply calls_at_most_unchanged. Qed.

Lemma calls_at_most_check_kwargs explicit kwargs n :
  calls_at_most (O:=O) n (check_kwargs explicit kwargs).
Proof.
  apply calls_at_most_unchanged. intros s. unfold check_kwargs. by case_match.
Qed.

Lemma calls_at_most_request env c n : calls_at_most (O:=O) (S n) (request env c).
Proof. intros s. exists [c]. split; [done | simpl; lia]. Qed.

Lemma calls_at_most_bind {A B} (m : M (O * world) A) (k : A → M (O * world) B) a b :
  calls_at_most a m → (∀ x, calls_at_most b (k x)) →
  calls_at_most (a + b) (bind m k).
Proof.
  intros Hm Hk s. unfold bind.
  destruct (Hm s) as (cs1 & Hcs1 & Hlen1).
  destruct (m s) as [[x|e] s1]; simpl in *.
  - destruct (Hk x s1) as (cs2 & Hcs2 & Hlen2).
    exists (cs1 ++ cs2). rewrite Hcs2, Hcs1, length_app, <- app_assoc.
    split; [done | lia].
  - exists cs1. split; [done | lia].
Qed.

Lemma calls_at_most_try_except {A} (m : M (O * world) A) h a b :
  calls_at_most a m → (∀ e, calls_at_most b (h e)) →
  calls_at_most (a + b) (try_except m h).
Proof.
  intros Hm Hh s. unfold try_except.
  destruct (Hm s) as (cs1 & Hcs1 & Hlen1).
  destruct (m s) as [[x|e] s1]; simpl in *.
  - exists cs1. split; [done | lia].
  - destruct (Hh e s1) as (cs2 & Hcs2 & Hlen2).
    exists (cs1 ++ cs2). rewrite Hcs2, Hcs1, length_app, <- app_assoc.
    split; [done | lia].
Qed.

Lemma calls_at_most_for_each {A} (xs : list A)
    (body : A → M (O * world) unit) :
  (∀ x, calls_at_most 1 (body x)) →
  calls_at_most (length xs) (for_each xs body).
Proof.
  intros Hbody. induction xs as [|x xs IH]; simpl.
  - apply calls_at_most_ret.
  - apply (calls_at_most_bind _ _ 1 (length xs)); [apply Hbody | by intros _].
Qed.

(** A step that calls nothing, then at most [n] calls. *)
Lemma calls_at_most_after {A B} (m : M (O * world) A) (k : A → M (O * world) B) n :
  calls_at_most 0 m → (∀ x, calls_at_most n (k x)) → calls_at_most n (bind m k).
Proof. intros Hm Hk. by apply (calls_at_most_bind m k 0 n). Qed.

(** At most one call, then steps that call nothing. *)
Lemma calls_at_most_then {A B} (m : M (O * world) A) (k : A → M (O * world) B) :
  calls_at_most 1 m → (∀ x, calls_at_most 0 (k x)) → calls_at_most 1 (bind m k).
Proof. intros Hm Hk. by apply (calls_at_most_bind m k 1 0). Qed.

Lemma calls_at_most_cached_property get set body n :
  calls_at_most n body → calls_at_most (O:=O) n (cached_property get set body).
Proof.
  intros Hbody s. unfold cached_property. destruct (get s.1).
  - exists []. rewrite app_nil_r. split; [done | simpl; lia].
  - destruct (Hbody s) as (cs & Hcs & Hlen).
    destruct (body s) as [[h|e] s1]; by exists cs.
Qed.

End CallsAtMost.

Create HintDb calls discriminated.
#[export] Hint Resolve calls_at_most_ret calls_at_most_raise
  calls_at_most_lift_result calls_at_most_get_self calls_at_most_construct
  calls_at_most_check_kwargs calls_at_most_request calls_at_most_after
  calls_at_most_then : calls.
#[export] Hint Extern 3 (calls_at_most _ (match ?x with _ => _ end)) =>
  destruct x : calls.

Lemma Gemini_client_calls_nothing n : calls_at_most n Gemini.client.
Proof.
  apply calls_at_most_unchanged. intros s.
  by apply (Gemini_client_calls s (Gemini.client s).1 (Gemini.client s).2),
    surjective_pairing.
Qed.

Lemma Gemini_structured_client_calls_nothing n :
  calls_at_most n Gemini.structured_client.
Proof.
  apply calls_at_most_cached_property.
  apply (calls_at_most_after _ _ n); [apply Gemini_client_calls_nothing|].
  intros c. apply calls_at_most_construct.
Qed.

Lemma Groq_client_calls_nothing n : calls_at_most n Groq.client.
Proof.
  apply calls_at_most_unchanged. intros s.
  by apply (Groq_client_calls s (Groq.client s).1 (Groq.client s).2),
    surjective_pairing.
Qed.

Lemma Groq_structured_client_calls_nothing n :
  calls_at_most n Groq.structured_client.
Proof.
  apply calls_at_most_unchanged. intros s.
  by apply (Groq_structured_client_calls s (Groq.structured_client s).1
              (Groq.structured_client s).2), surjective_pairing.
Qed.

Lemma Ollama_client_calls_nothing env n : calls_at_most n (Ollama.client env).
Proof.
  apply calls_at_most_unchanged. intros s.
  by apply (Ollama_client_calls env s (Ollama.client env s).1
              (Ollama.client env s).2), surjective_pairing.
Qed.

Lemma Ollama_structured_client_calls_nothing n :
  calls_at_most n Ollama.structured_client.
Proof.
  apply calls_at_most_cached_property.
  apply (calls_at_most_after _ _ n); [apply calls_at_most_get_self|].
  intros self. apply (calls_at_most_after _ _ n); [apply calls_at_most_construct|].
  intros inner. apply calls_at_most_construct.
Qed.

#[export] Hint Resolve Gemini_client_calls_nothing
  Gemini_structured_client_calls_nothing Groq_client_calls_nothing
  Groq_structured_client_calls_nothing Ollama_client_calls_nothing
  Ollama_structured_client_calls_nothing : calls.

Lemma Gemini_send_conversation_calls env conv :
  calls_at_most (S (length (messages conv))) (Gemini.send_conversation env conv).
Proof.
  unfold Gemini.send_conversation, logger.
  apply calls_at_most_after; [apply Gemini_client_calls_nothing|]. intros c.
  destruct (messages conv) as [|x xs] eqn:Hmsgs.
  - apply (calls_at_most_bind _ _ 1 0); [apply calls_at_most_request|].
    intros _. simpl.
    apply calls_at_most_after; [apply calls_at_most_ret|]. intros _.
    apply calls_at_most_after.
    + apply (calls_at_most_try_except _ _ 0 0); [|eauto with calls].
      apply calls_at_most_unchanged. by intros s.
    + intros r. unfold Gemini.response_text. eauto 10 with calls.
  - rewrite <- Hmsgs.
    assert (length (messages conv) = S (length (removelast (messages conv))))
      as ->.
    { assert (is_Some (last (messages conv))) as [z Hz]
        by (apply last_is_Some; by rewrite Hmsgs).
      apply last_Some in Hz as [l' ->].
      rewrite removelast_last, length_app. simpl. lia. }
    apply (calls_at_most_bind _ _ 1 (S (length (removelast (messages conv)))));
      [apply calls_at_most_request|]. intros _.
    apply (calls_at_most_weaken _
             (length (removelast (messages conv)) + 1)); [lia|].
    apply calls_at_most_bind.
    + apply calls_at_most_for_each. intros msg. eauto with calls.
    + intros _. apply (calls_at_most_bind _ _ 1 0).
      * apply (calls_at_most_try_except _ _ 1 0); [|eauto with calls].
        unfold Gemini.last_message. eauto 10 with calls.
      * intros r. unfold Gemini.response_text. eauto 10 with calls.
Qed.

(** X14.  No operation asks the backend twice.  Whatever the state of the
    adapter, the arguments and the answers, every operation of Groq and
    Ollama and [structured_response] and [generate_text] of Gemini make at
    most one call into the SDK, [send_conversation] of Gemini at most one
    per message besides opening the chat, and reading a client property
    makes none: nothing is retried after a failure. *)
Theorem X14_no_operation_asks_twice env :
  (∀ conv, calls_at_most 1 (Groq.send_conversation env conv))
  ∧ (∀ prompt rm, calls_at_most 1 (Groq.structured_response env prompt rm))
  ∧ (∀ prompt llm_model, calls_at_most 1 (Groq.generate_text env prompt llm_model))
  ∧ (∀ conv kwargs, calls_at_most 1 (Ollama.send_conversation env conv kwargs))
  ∧ (∀ prompt rm llm_model kwargs,
       calls_at_most 1 (Ollama.structured_response env prompt rm llm_model kwargs))
  ∧ (∀ prompt llm_model kwargs,
       calls_at_most 1 (Ollama.generate_text env prompt llm_model kwargs))
  ∧ (∀ prompt rm kwargs,
       calls_at_most 1 (Gemini.structured_response env prompt rm kwargs))
  ∧ (∀ prompt kwargs, calls_at_most 1 (Gemini.generate_text env prompt kwargs))
  ∧ (∀ conv, calls_at_most (S (length (messages conv)))
               (Gemini.send_conversation env conv))
  ∧ calls_at_most 0 Gemini.client ∧ calls_at_most 0 Gemini.structured_client
  ∧ calls_at_most 0 Groq.client ∧ calls_at_most 0 Groq.structured_client
  ∧ calls_at_most 0 (Ollama.client env)
  ∧ calls_at_most 0 Ollama.structured_client.
Proof.
  split_and!; try (by auto with calls).
  - intros conv. unfold Groq.send_conversation, Groq.first_choice_content.
    eauto 12 with calls.
  - intros prompt rm. unfold Groq.structured_response. eauto 12 with calls.
  - intros prompt [llm_model|]; unfold Groq.generate_text,
      Groq.first_choice_content; eauto 12 with calls.
  - intros conv kwargs.
    unfold Ollama.send_conversation, logger, Ollama.response_get, Ollama.pyval_get.
    eauto 14 with calls.
  - intros prompt rm llm_model kwargs. unfold Ollama.structured_response, logger.
    eauto 14 with calls.
  - intros prompt llm_model kwargs.
    unfold Ollama.generate_text, logger, Ollama.response_get, Ollama.pyval_get.
    eauto 14 with calls.
  - intros prompt rm kwargs.
    unfold Gemini.structured_response, logger, Gemini.pop_llm_model.
    apply calls_at_most_after; [apply calls_at_most_get_self|]. intros self.
    simpl.
    apply (calls_at_most_try_except _ _ 1 0); eauto 12 with calls.
  - intros prompt kwargs.
    unfold Gemini.generate_text, logger, Gemini.pop_llm_model,
      Gemini.response_text.
    apply calls_at_most_after; [apply calls_at_most_get_self|]. intros self.
    simpl. apply calls_at_most_then; [|eauto 12 with calls].
    apply (calls_at_most_try_except _ _ 1 0); eauto 12 with calls.
  - apply Gemini_send_conversation_calls.
Qed.

(** ** How many clients an adapter builds *)

Section PreservesState.
Context {O : Type} (I : O * world → Prop) (Hblind : calls_blind I).

Lemma preserves_state_unchanged {A} (m : M (O * world) A) :
  (∀ s, (m s).2 = s) → preserves_state I m.
Proof. intros Hm s HI. by rewrite Hm. Qed.

Lemma preserves_state_ret {A} (a : A) : preserves_state I (ret a).
Proof. by apply preserves_state_unchanged. Qed.

Lemma preserves_state_raise {A} e : preserves_state I (raise (A:=A) e).
Proof. by apply preserves_state_unchanged. Qed.

Lemma preserves_state_lift_result {A} (r : result A) :
  preserves_state I (lift_result r).
Proof. by apply preserves_state_unchanged. Qed.

Lemma preserves_state_get_self : preserves_state I get_self.
Proof. by apply preserves_state_unchanged. Qed.

Lemma preserves_state_check_kwargs explicit kwargs :
  preserves_state I (check_kwargs explicit kwargs).
Proof.
  apply preserves_state_unchanged. intros s. unfold check_kwargs. by case_match.
Qed.

Lemma preserves_state_request env c : preserves_state I (request env c).
Proof. intros [o [cs b]] HI. simpl. by eapply Hblind. Qed.

Lemma preserves_state_log_call c : preserves_state I (log_call c).
Proof. intros [o [cs b]] HI. simpl. by eapply Hblind. Qed.

Lemma preserves_state_bind {A B} (m : M (O * world) A) (k : A → M (O * world) B) :
  preserves_state I m → (∀ a, preserves_state I (k a)) →
  preserves_state I (bind m k).
Proof.
  intros Hm Hk s HI. unfold bind.
  specialize (Hm s HI). destruct (m s) as [[a|e] s1]; [|done].
  by apply Hk.
Qed.

Lemma preserves_state_try_except {A} (m : M (O * world) A) h :
  preserves_state I m → (∀ e, preserves_state I (h e)) →
  preserves_state I (try_except m h).
Proof.
  intros Hm Hh s HI. unfold try_except.
  specialize (Hm s HI). destruct (m s) as [[a|e] s1]; [done|].
  by apply Hh.
Qed.

Lemma preserves_state_for_each {A} (xs : list A) body :
  (∀ x, preserves_state I (body x)) → preserves_state I (for_each xs body).
Proof.
  intros Hbody. induction xs as [|x xs IH]; simpl.
  - apply preserves_state_ret.
  - apply preserves_state_bind; [apply Hbody | by intros _].
Qed.

End PreservesState.

Create HintDb pstate discriminated.
#[export] Hint Resolve preserves_state_ret preserves_state_raise
  preserves_state_lift_result preserves_state_get_self
  preserves_state_check_kwargs preserves_state_request preserves_state_log_call
  preserves_state_for_each : pstate.
#[export] Hint Extern 2 (preserves_state _ (bind _ _)) =>
  apply preserves_state_bind; [| intros ?] : pstate.
#[export] Hint Extern 2 (preserves_state _ (try_except _ _)) =>
  apply preserves_state_try_except; [| intros ?] : pstate.
#[export] Hint Extern 3 (preserves_state _ (if ?b then _ else _)) =>
  destruct b : pstate.
#[export] Hint Extern 3 (preserves_state _ (match ?x with _ => _ end)) =>
  destruct x : pstate.

Lemma Gemini_use_preserves_state env (I : Gemini.t * world → Prop) s s' :
  calls_blind I →
  preserves_state I Gemini.client → preserves_state I Gemini.structured_client →
  rtc (Gemini_use env) s s' → I s → I s'.
Proof.
  intros Hblind Hc Hsc Hsteps.
  induction Hsteps as [|s1 s2 s3 Hstep _ IH]; [done|].
  intros HI. apply IH.
  destruct Hstep as [s|s|conv s|prompt rm kw s|prompt kw s].
  - by apply Hc.
  - by apply Hsc.
  - enough (preserves_state I (Gemini.send_conversation env conv)) as Hp
      by (by apply Hp).
    unfold Gemini.send_conversation, logger, Gemini.last_message,
      Gemini.response_text.
    eauto 20 with pstate.
  - enough (preserves_state I (Gemini.structured_response env prompt rm kw))
      as Hp by (by apply Hp).
    unfold Gemini.structured_response, logger. eauto 20 with pstate.
  - enough (preserves_state I (Gemini.generate_text env prompt kw)) as Hp
      by (by apply Hp).
    unfold Gemini.generate_text, logger, Gemini.response_text.
    eauto 20 with pstate.
Qed.

Lemma Ollama_use_preserves_state env (I : Ollama.t * world → Prop) s s' :
  calls_blind I →
  preserves_state I (Ollama.client env) →
  preserves_state I Ollama.structured_client →
  rtc (Ollama_use env) s s' → I s → I s'.
Proof.
  intros Hblind Hc Hsc Hsteps.
  induction Hsteps as [|s1 s2 s3 Hstep _ IH]; [done|].
  intros HI. apply IH.
  destruct Hstep as [s|s|conv kw s|prompt rm model kw s|prompt model kw s|gen s].
  - by apply Hc.
  - by apply Hsc.
  - enough (preserves_state I (Ollama.send_conversation env conv kw)) as Hp
      by (by apply Hp).
    unfold Ollama.send_conversation, logger, Ollama.response_get,
      Ollama.pyval_get.
    eauto 20 with pstate.
  - enough (preserves_state I (Ollama.structured_response env prompt rm model kw))
      as Hp by (by apply Hp).
    unfold Ollama.structured_response, logger. eauto 20 with pstate.
  - enough (preserves_state I (Ollama.generate_text env prompt model kw)) as Hp
      by (by apply Hp).
    unfold Ollama.generate_text, logger, Ollama.response_get, Ollama.pyval_get.
    eauto 20 with pstate.
  - assert (Hopen : ∀ prompt model kw,
               preserves_state I (Ollama.stream_open env prompt model kw)).
    { intros. unfold Ollama.stream_open, Ollama.iter. eauto 20 with pstate. }
    assert (Hloop : ∀ it g s, I s → I (Ollama.loop_step it (g, s)).2.2).
    { intros it g [o [cs b]] HI'. unfold Ollama.loop_step. simpl.
      destruct (Ollama.it_advance it), (Ollama.it_chunks it) as [|chunk rest];
        simpl; try destruct (Ollama.chunk_content chunk); simpl;
        first [exact HI' | by eapply Hblind]. }
    unfold Ollama.next. destruct gen as [prompt model kw|it|]; simpl.
    + specialize (Hopen prompt model kw s HI).
      destruct (Ollama.stream_open _ _ _ _ s) as [[it|e] s1]; [|done].
      by apply Hloop.
    + by apply Hloop.
    + done.
Qed.

Lemma Gemini_held_le o : (Gemini_held o ≤ 2)%nat.
Proof.
  unfold Gemini_held.
  destruct (Gemini.client_cache o), (Gemini.structured_client_cache o);
    simpl; lia.
Qed.

Lemma Ollama_held_le o : (Ollama_held o ≤ 3)%nat.
Proof.
  unfold Ollama_held.
  destruct (Ollama.client_cache o), (Ollama.structured_client_cache o);
    simpl; lia.
Qed.

Lemma Gemini_client_keeps_count (n0 : nat) :
  preserves_state (λ s, length (built s.2) = (n0 + Gemini_held s.1)%nat)
    Gemini.client.
Proof.
  intros s HI. unfold Gemini.client, cached_property.
  destruct (Gemini.client_cache s.1) eqn:Hcache; [done|].
  unfold bind, get_self, set_self, construct, raise. simpl.
  destruct (truthy (Gemini.api_key s.1)); simpl; [|done].
  rewrite length_app, HI. unfold Gemini_held. simpl. rewrite Hcache. simpl. lia.
Qed.

Lemma Gemini_structured_client_keeps_count (n0 : nat) :
  preserves_state (λ s, length (built s.2) = (n0 + Gemini_held s.1)%nat)
    Gemini.structured_client.
Proof.
  intros s HI. unfold Gemini.structured_client, cached_property.
  destruct (Gemini.structured_client_cache s.1) eqn:Hcache; [done|].
  pose proof (Gemini_client_keeps_count n0 s HI) as HI1.
  pose proof (Gemini_client_body_preserves
                (λ o, Gemini.structured_client_cache o = None)) as Hkeep.
  specialize (Hkeep (λ _ H, H) (λ _ _ H, H) s Hcache).
  unfold bind. destruct (Gemini.client s) as [[c|e] s1]; simpl in *; [|done].
  rewrite length_app, HI1. unfold Gemini_held. simpl. rewrite Hkeep. simpl. lia.
Qed.

Lemma Ollama_client_keeps_count env (n0 : nat) :
  preserves_state (λ s, length (built s.2) = (n0 + Ollama_held s.1)%nat)
    (Ollama.client env).
Proof.
  intros s HI. unfold Ollama.client, cached_property.
  destruct (Ollama.client_cache s.1) eqn:Hcache; [done|].
  unfold bind, get_self, construct, raise. simpl.
  destruct (truthy (Ollama.host_url s.1)); simpl; [|done].
  destruct (import_ollama env) as [[]|exc]; simpl.
  - rewrite length_app, HI. unfold Ollama_held. simpl. rewrite Hcache. simpl. lia.
  - by destruct (Ollama.is_ImportError exc).
Qed.

Lemma Ollama_structured_client_keeps_count (n0 : nat) :
  preserves_state (λ s, length (built s.2) = (n0 + Ollama_held s.1)%nat)
    Ollama.structured_client.
Proof.
  intros s HI. unfold Ollama.structured_client, cached_property.
  destruct (Ollama.structured_client_cache s.1) eqn:Hcache; [done|].
  unfold bind, get_self, construct. simpl.
  rewrite !length_app, HI. unfold Ollama_held. simpl. rewrite Hcache. simpl. lia.
Qed.

(** X15.  Over its whole life a Gemini or an Ollama adapter builds each of
    its clients at most once.  After any sequence of property reads and
    method calls on a new adapter, the handles built are exactly those it
    holds in its caches: at most two for Gemini (the model and its
    Instructor wrapper), at most three for Ollama (the client, and the
    OpenAI client with its Instructor wrapper). *)
Theorem X15_cached_adapters_build_each_client_once env :
  (∀ key w s,
     rtc (Gemini_use env) (Gemini.__init__ env key, w) s →
     length (built s.2) = (length (built w) + Gemini_held s.1)%nat
     ∧ (length (built s.2) ≤ length (built w) + 2)%nat)
  ∧ (∀ host w s,
       rtc (Ollama_use env) (Ollama.__init__ env host, w) s →
       length (built s.2) = (length (built w) + Ollama_held s.1)%nat
       ∧ (length (built s.2) ≤ length (built w) + 3)%nat).
Proof.
  split.
  - intros key w s Hsteps.
    assert (length (built s.2) = (length (built w) + Gemini_held s.1)%nat) as Hcount.
    { eapply (Gemini_use_preserves_state env
                (λ s, length (built s.2) = (length (built w) + Gemini_held s.1)%nat));
        [by intros o cs cs' b | apply Gemini_client_keeps_count
        | apply Gemini_structured_client_keeps_count | exact Hsteps |].
      simpl. unfold Gemini_held. simpl. lia. }
    split; [done|]. pose proof (Gemini_held_le s.1). lia.
  - intros host w s Hsteps.
    assert (length (built s.2) = (length (built w) + Ollama_held s.1)%nat) as Hcount.
    { eapply (Ollama_use_preserves_state env
                (λ s, length (built s.2) = (length (built w) + Ollama_held s.1)%nat));
        [by intros o cs cs' b | apply Ollama_client_keeps_count
        | apply Ollama_structured_client_keeps_count | exact Hsteps |].
      simpl. unfold Ollama_held. simpl. lia. }
    split; [done|]. pose proof (Ollama_held_le s.1). lia.
Qed.

Lemma X15_witness :
  (let s0 := (Gemini.__init__ stub_env (Some "key"), init_world) in
   let s1 := (Gemini.send_conversation stub_env hello s0).2 in
   let s2 := (Gemini.structured_response stub_env (PStr "hi") answer_schema ∅ s1).2 in
   let s3 := (Gemini.send_conversation stub_env two_turns s2).2 in
   length (built s3.2) = 2)
  ∧ (let s0 := (Ollama.__init__ stub_env (Some "http://localhost:11434"),
                init_world) in
     let s1 := (Ollama.generate_text stub_env (PStr "hi") None ∅ s0).2 in
     let s2 := (Ollama.next stub_env (Ollama.GenCreated (PStr "hi") None ∅, s1)).2.2 in
     let s3 := (Ollama.generate_text stub_env (PStr "hi") (Some "m2") ∅ s2).2 in
     length (built s3.2) = 1).
Proof.
  destruct (X15_cached_adapters_build_each_client_once stub_env)
    as [Hgemini Hollama].
  split.
  - intros s0 s1 s2 s3.
    destruct (Hgemini (Some "key") init_world s3) as [Hcount _].
    { eapply rtc_l; [apply (Gemini_use_send_conversation _ hello)|].
      eapply rtc_l;
        [apply (Gemini_use_structured_response _ (PStr "hi") answer_schema ∅)|].
      apply rtc_once, (Gemini_use_send_conversation _ two_turns). }
    rewrite Hcount. reflexivity.
  - intros s0 s1 s2 s3.
    destruct (Hollama (Some "http://localhost:11434") init_world s3) as [Hcount _].
    { eapply rtc_l; [apply (Ollama_use_generate_text _ (PStr "hi") None ∅)|].
      eapply rtc_l;
        [apply (Ollama_use_next _ (Ollama.GenCreated (PStr "hi") None ∅))|].
      apply rtc_once, (Ollama_use_generate_text _ (PStr "hi") (Some "m2") ∅). }
    rewrite Hcount. reflexivity.
Defined.

(** ** tests/test_generate_data.py *)

Lemma Groq_structured_response_missing_key env prompt rm s :
  truthy (Groq.api_key s.1) = false →
  Groq.structured_response env prompt rm s
  = (Raise (ValueError "Groq API key is required"), s).
Proof.
  intros Hkey. unfold Groq.structured_response, Groq.structured_client.
  erewrite bind_raise; [reflexivity|].
  erewrite bind_raise; [reflexivity|].
  destruct s as [o w]. by apply Groq_client_missing_key.
Qed.

Lemma Gemini_structured_response_missing_key env prompt rm kwargs s :
  truthy (Gemini.api_key s.1) = false →
  Gemini.client_cache s.1 = None →
  Gemini.structured_client_cache s.1 = None →
  Gemini.structured_response env prompt rm kwargs s
  = (Raise (RuntimeError_from
              "Failed to send structured response to Gemini API: Gemini API key is required"
              (ValueError "Gemini API key is required")), s).
Proof.
  intros Hkey Hc Hsc.
  unfold Gemini.structured_response, logger, Gemini.pop_llm_model.
  unfold bind at 1. simpl. unfold try_except.
  assert (Gemini.structured_client s
          = (Raise (ValueError "Gemini API key is required"), s)) as Hstructured.
  { unfold Gemini.structured_client. rewrite cached_property_miss by done.
    erewrite bind_raise; [reflexivity|].
    destruct s as [o w]. by apply Gemini_client_missing_key. }
  by erewrite bind_raise by exact Hstructured.
Qed.

(** X16.  [test_generate_data] passes for a provider class exactly when
    [structured_response] of a provider built without arguments returns an
    instance of the response model whose [result] is an integer (a boolean
    or a string does not count).  With no credential in the settings the
    test cannot pass for Groq and Gemini: it stops at the [ValueError] of
    the client (wrapped in a [RuntimeError] by Gemini) before anything is
    asked; for Ollama the request is made all the same. *)
Theorem X16_test_generate_data_outcome env ResponseModel :
  (∀ cls w,
     (Test.test_generate_data env ResponseModel cls w).1 = Ok ()
     ↔ ∃ fields z,
         (Test.call_structured_response env cls (PStr "What is 2+2?")
            ResponseModel w).1
         = Ok (ModelInstance (schema_name ResponseModel) fields)
         ∧ fields !! "result" = Some (PInt z))
  ∧ (∀ w, truthy (get_api_key env Groq.PROVIDER_NAME) = false →
          Test.test_generate_data env ResponseModel Test.cls_Groq w
          = (Raise (ValueError "Groq API key is required"), w))
  ∧ (∀ w, truthy (get_api_key env Gemini.PROVIDER_NAME) = false →
          Test.test_generate_data env ResponseModel Test.cls_Gemini w
          = (Raise (RuntimeError_from
                      "Failed to send structured response to Gemini API: Gemini API key is required"
                      (ValueError "Gemini API key is required")), w))
  ∧ (∀ w, OLLAMA_HOST_URL env = None →
          let sc := Instructor (S (length (built w)))
                      (OpenAI (length (built w)) "None/v1" "ollama")
                      (Some "JSON") in
          calls (Test.test_generate_data env ResponseModel Test.cls_Ollama w).2
          = calls w
            ++ [CompletionsCreate sc (Some (Some Ollama.DEFAULT_MODEL))
                  (user_prompt (PStr "What is 2+2?"))
                  (Some (schema_name ResponseModel)) ∅]).
Proof.
  split_and!.
  - intros cls w. unfold Test.test_generate_data, bind.
    destruct (Test.call_structured_response _ _ _ _ w) as [[data|e] w1]; simpl.
    + split.
      * destruct data as [| | |name fields|]; simpl; try done.
        destruct (String.eqb name (schema_name ResponseModel)) eqn:Hname;
          simpl; [|done].
        apply String.eqb_eq in Hname as ->.
        destruct (fields !! "result") as [[]|] eqn:Hresult; simpl; try done.
        intros _. by eexists _, _.
      * intros (fields & z & [= ->] & Hresult). simpl.
        rewrite String.eqb_refl. simpl. by rewrite Hresult.
    + split; [done|]. by intros (? & ? & ? & ?).
  - intros w Hkey.
    unfold Test.test_generate_data, Test.call_structured_response,
      Test.on_provider, bind.
    rewrite Groq_structured_response_missing_key; [done|].
    simpl. unfold py_or. simpl. exact Hkey.
  - intros w Hkey.
    unfold Test.test_generate_data, Test.call_structured_response,
      Test.on_provider, bind.
    rewrite Gemini_structured_response_missing_key; [done| |done|done].
    simpl. unfold py_or. simpl. exact Hkey.
  - intros w Hhost sc.
    pose proof (Ollama_structured_client_first (Ollama.__init__ env None, w)
                  eq_refl) as Hsc.
    simpl in Hsc. unfold py_or in Hsc. simpl in Hsc. rewrite Hhost in Hsc.
    pose proof (Ollama_structured_response_run env (PStr "What is 2+2?")
                  ResponseModel None ∅ _ _ _ Hsc eq_refl eq_refl eq_refl) as Hrun.
    simpl in Hrun.
    unfold Test.test_generate_data, Test.call_structured_response,
      Test.on_provider, bind.
    rewrite Hrun.
    destruct (match transport env _ _ with Ok r => _ | Raise e => Raise e end)
      as [data|e]; simpl; [|done].
    destruct data as [| | |name fields|]; simpl; try done.
    destruct (String.eqb name (schema_name ResponseModel)); simpl; [|done].
    by destruct (fields !! "result") as [[]|].
Qed.

Lemma X16_witness :
  Test.test_generate_data stub_env answer_schema Test.cls_Groq init_world
  = (Raise (ValueError "Groq API key is required"), init_world)
  ∧ (Test.test_generate_data stub_env answer_schema Test.cls_Gemini init_world).1
    = Raise (Exn "RuntimeError"
               "Failed to send structured response to Gemini API: Gemini API key is required"
               (Some (ValueError "Gemini API key is required")))
  ∧ (Test.test_generate_data stub_env answer_schema Test.cls_Ollama init_world).1
    = Ok ()
  ∧ length (calls (Test.test_generate_data stub_env answer_schema Test.cls_Ollama
                     init_world).2) = 1.
Proof.
  destruct (X16_test_generate_data_outcome stub_env answer_schema)
    as (Hpass & Hgroq & Hgemini & Hollama).
  split_and!.
  - by apply Hgroq.
  - by rewrite Hgemini.
  - apply Hpass. by exists {[ "result" := PInt 4 ]}, 4%Z.
  - by rewrite (Hollama init_world eq_refl).
Defined.

(** ** Where the credential comes from *)

Lemma py_or_explicit (key : string) fallback :
  key ≠ "" → py_or (Some key) fallback = Some key.
Proof.
  intros Hkey. unfold py_or. simpl.
  destruct (String.eqb key "") eqn:Heq; [|done].
  by apply String.eqb_eq in Heq.
Qed.

Lemma truthy_Some key : key ≠ "" → truthy (Some key) = true.
Proof.
  intros Hkey. simpl. destruct (String.eqb key "") eqn:Heq; [|done].
  by apply String.eqb_eq in Heq.
Qed.

(** X17.  A non-empty credential given to the constructor is the one the
    client is built with, whatever the settings hold; when none is given,
    or an empty string, the credential of the settings is used.  For Groq
    it is the API key handed to [groq.Groq]; for Ollama the host handed to
    [ollama.Client], and the base URL "<host>/v1" of the structured
    client. *)
Theorem X17_constructor_credential_wins env w :
  (∀ key : string, key ≠ "" →
     (Groq.client (Groq.__init__ env (Some key), w)).1
     = Ok (GroqClient (length (built w)) (Some key)))
  ∧ (∀ key, key = None ∨ key = Some "" →
       truthy (get_api_key env Groq.PROVIDER_NAME) = true →
       (Groq.client (Groq.__init__ env key, w)).1
       = Ok (GroqClient (length (built w)) (get_api_key env Groq.PROVIDER_NAME)))
  ∧ (∀ host : string, host ≠ "" → import_ollama env = Ok () →
       (Ollama.client env (Ollama.__init__ env (Some host), w)).1
       = Ok (OllamaClient (length (built w)) 60 (Some host)))
  ∧ (∀ host, host = None ∨ host = Some "" →
       truthy (OLLAMA_HOST_URL env) = true → import_ollama env = Ok () →
       (Ollama.client env (Ollama.__init__ env host, w)).1
       = Ok (OllamaClient (length (built w)) 60 (OLLAMA_HOST_URL env)))
  ∧ (∀ host : string, host ≠ "" →
       (Ollama.structured_client (Ollama.__init__ env (Some host), w)).1
       = Ok (Instructor (S (length (built w)))
               (OpenAI (length (built w)) (host +:+ "/v1") "ollama")
               (Some "JSON"))).
Proof.
  split_and!.
  - intros key Hkey.
    rewrite Groq_client_ok; simpl; rewrite py_or_explicit by done;
      [done | by apply truthy_Some].
  - intros key Hkey Hsettings.
    assert (Groq.__init__ env key
            = {| Groq.api_key := get_api_key env Groq.PROVIDER_NAME |}) as ->
      by (by destruct Hkey as [-> | ->]).
    by rewrite Groq_client_ok.
  - intros host Hhost Himport.
    unfold Ollama.client. rewrite cached_property_miss by done.
    unfold bind, get_self, construct. simpl.
    rewrite py_or_explicit by done. rewrite truthy_Some by done.
    simpl. by rewrite Himport.
  - intros host Hhost Hsettings Himport.
    assert (Ollama.__init__ env host
            = {| Ollama.host_url := OLLAMA_HOST_URL env;
                 Ollama.client_cache := None;
                 Ollama.structured_client_cache := None |}) as ->
      by (by destruct Hhost as [-> | ->]).
    unfold Ollama.client. rewrite cached_property_miss by done.
    unfold bind, get_self, construct. simpl. rewrite Hsettings.
    simpl. by rewrite Himport.
  - intros host Hhost.
    rewrite Ollama_structured_client_first by done. simpl.
    by rewrite py_or_explicit by done.
Qed.

Lemma X17_witness :
  let env := {| transport := stub_transport;
                get_api_key := λ _, Some "from-settings";
                OLLAMA_HOST_URL := Some "http://settings:11434";
                import_ollama := Ok () |} in
  (Groq.client (Groq.__init__ env (Some "explicit"), init_world)).1
  = Ok (GroqClient 0 (Some "explicit"))
  ∧ (Groq.client (Groq.__init__ env (Some ""), init_world)).1
    = Ok (GroqClient 0 (Some "from-settings"))
  ∧ (Ollama.client env (Ollama.__init__ env (Some "http://h:1"), init_world)).1
    = Ok (OllamaClient 0 60 (Some "http://h:1"))
  ∧ (Ollama.client env (Ollama.__init__ env None, init_world)).1
    = Ok (OllamaClient 0 60 (Some "http://settings:11434"))
  ∧ (Ollama.structured_client (Ollama.__init__ env (Some "http://h:1"), init_world)).1
    = Ok (Instructor 1 (OpenAI 0 "http://h:1/v1" "ollama") (Some "JSON")).
Proof.
  intros env.
  destruct (X17_constructor_credential_wins env init_world)
    as (Hg1 & Hg2 & Ho1 & Ho2 & Ho3).
  split_and!.
  - by apply Hg1.
  - apply (Hg2 (Some "")); [by right | reflexivity].
  - by apply Ho1.
  - apply (Ho2 None); [by left | reflexivity | reflexivity].
  - by apply (Ho3 "http://h:1").
Defined.

(** ** Gemini: what the API key is used for *)

Lemma key_blind_pure {A} (m : M (Gemini.t * world) A) :
  (∀ s, (m s).2.1 = s.1) →
  (∀ o o' w, (m (o, w)).1 = (m (o', w)).1 ∧ (m (o, w)).2.2 = (m (o', w)).2.2) →
  key_blind m.
Proof.
  intros Hself Hsame key s Hkey Hs. rewrite (Hself s). split; [|done].
  destruct (Hsame (Gemini_with_key key s.1) s.1 s.2) as [Hr Hw].
  destruct s as [o w]. simpl in *.
  specialize (Hself (Gemini_with_key key o, w)). simpl in Hself.
  destruct (m (Gemini_with_key key o, w)) as [r [o1 w1]].
  destruct (m (o, w)) as [r' [o2 w2]]. simpl in *. by subst.
Qed.

Lemma key_blind_ret {A} (a : A) : key_blind (ret a).
Proof. by apply key_blind_pure. Qed.

Lemma key_blind_raise {A} e : key_blind (raise (A:=A) e).
Proof. by apply key_blind_pure. Qed.

Lemma key_blind_lift_result {A} (r : result A) : key_blind (lift_result r).
Proof. by apply key_blind_pure. Qed.

Lemma key_blind_request env c : key_blind (request env c).
Proof. by apply key_blind_pure. Qed.

Lemma key_blind_construct mk : key_blind (construct mk).
Proof. by apply key_blind_pure. Qed.

Lemma key_blind_check_kwargs explicit kwargs :
  key_blind (check_kwargs explicit kwargs).
Proof.
  apply key_blind_pure; intros; unfold check_kwargs; by case_match.
Qed.

Lemma key_blind_bind {A B} (m : M (Gemini.t * world) A) (k : A → M _ B) :
  key_blind m → (∀ a, key_blind (k a)) → key_blind (bind m k).
Proof.
  intros Hm Hk key s Hkey Hs. unfold bind.
  destruct (Hm key s Hkey Hs) as [-> Hs1].
  destruct (m s) as [[a|e] s1]; simpl in *; [|done].
  by apply Hk.
Qed.

Lemma key_blind_try_except {A} (m : M (Gemini.t * world) A) h :
  key_blind m → (∀ e, key_blind (h e)) → key_blind (try_except m h).
Proof.
  intros Hm Hh key s Hkey Hs. unfold try_except.
  destruct (Hm key s Hkey Hs) as [-> Hs1].
  destruct (m s) as [[a|e] s1]; simpl in *; [done|].
  by apply Hh.
Qed.

Lemma key_blind_for_each {A} (xs : list A) body :
  (∀ x, key_blind (body x)) → key_blind (for_each xs body).
Proof.
  intros Hbody. induction xs as [|x xs IH]; simpl.
  - apply key_blind_ret.
  - apply key_blind_bind; [apply Hbody | by intros _].
Qed.

(** Reading [self] to use something else than the key. *)
Lemma key_blind_read {B} (k : Gemini.t → M (Gemini.t * world) B) :
  (∀ key o, k (Gemini_with_key key o) = k o) →
  (∀ o, key_blind (k o)) → key_blind (bind get_self k).
Proof.
  intros Hsame Hk key s Hkey Hs. unfold bind, get_self. simpl.
  rewrite Hsame. by apply Hk.
Qed.

Lemma key_blind_client : key_blind Gemini.client.
Proof.
  intros key s Hkey Hs. unfold Gemini.client, cached_property. simpl.
  destruct (Gemini.client_cache s.1); [done|].
  unfold bind, get_self, set_self, construct, raise. simpl.
  by rewrite Hkey, Hs.
Qed.

Lemma key_blind_structured_client : key_blind Gemini.structured_client.
Proof.
  intros key s Hkey Hs. unfold Gemini.structured_client, cached_property. simpl.
  destruct (Gemini.structured_client_cache s.1); [done|].
  unfold bind. destruct (key_blind_client key s Hkey Hs) as [-> Hs1].
  by destruct (Gemini.client s) as [[c|e] s1].
Qed.

Create HintDb keyblind discriminated.
#[export] Hint Resolve key_blind_ret key_blind_raise key_blind_lift_result
  key_blind_request key_blind_construct key_blind_check_kwargs
  key_blind_for_each key_blind_client key_blind_structured_client : keyblind.
#[export] Hint Extern 2 (key_blind (bind get_self _)) =>
  apply key_blind_read; [reflexivity | intros ?] : keyblind.
#[export] Hint Extern 3 (key_blind (bind _ _)) =>
  apply key_blind_bind; [| intros ?] : keyblind.
#[export] Hint Extern 2 (key_blind (try_except _ _)) =>
  apply key_blind_try_except; [| intros ?] : keyblind.
#[export] Hint Extern 3 (key_blind (match ?x with _ => _ end)) =>
  destruct x : keyblind.

(** X18.  A Gemini adapter only checks that it has an API key.  The value
    of the key is never handed to the SDK: with two different keys, every
    property read and every method returns or raises the same, builds the
    same handles and makes the same calls. *)
Theorem X18_gemini_never_uses_the_key_value env :
  key_blind Gemini.client
  ∧ key_blind Gemini.structured_client
  ∧ (∀ conv, key_blind (Gemini.send_conversation env conv))
  ∧ (∀ prompt rm kwargs, key_blind (Gemini.structured_response env prompt rm kwargs))
  ∧ (∀ prompt kwargs, key_blind (Gemini.generate_text env prompt kwargs)).
Proof.
  split_and!.
  - apply key_blind_client.
  - apply key_blind_structured_client.
  - intros conv.
    unfold Gemini.send_conversation, logger, Gemini.last_message,
      Gemini.response_text.
    eauto 20 with keyblind.
  - intros prompt rm kwargs.
    unfold Gemini.structured_response, logger, Gemini.pop_llm_model.
    apply key_blind_read; [reflexivity|]. intros self. simpl.
    eauto 20 with keyblind.
  - intros prompt kwargs.
    unfold Gemini.generate_text, logger, Gemini.pop_llm_model,
      Gemini.response_text.
    apply key_blind_read; [reflexivity|]. intros self. simpl.
    eauto 20 with keyblind.
Qed.

Lemma X18_witness :
  let a := (Gemini.__init__ stub_env (Some "key-a"), init_world) in
  let b := (Gemini.__init__ stub_env (Some "key-b"), init_world) in
  (Gemini.send_conversation stub_env two_turns b).1
  = (Gemini.send_conversation stub_env two_turns a).1
  ∧ (Gemini.send_conversation stub_env two_turns b).2.2
    = (Gemini.send_conversation stub_env two_turns a).2.2.
Proof.
  intros a b.
  destruct (X18_gemini_never_uses_the_key_value stub_env) as (_ & _ & Hsend & _).
  destruct (Hsend two_turns (Some "key-b") a eq_refl eq_refl) as [Hrun _].
  change (Gemini_with_key (Some "key-b") a.1, a.2) with b in Hrun.
  by rewrite Hrun.
Defined.
